(** * y-webtransport: framing codec, connection manager, awareness pipeline
      and provider, embedded from the TypeScript sources.

    Layout (definitions first, theorems after):
    - [Encoding]              src/encoding.ts
    - [Lib0]                  the two lib0/encoding writers the provider calls
    - [External], [World]     the libraries, the host, and the objects the
                              three classes share
    - [ConnectionManager]     src/connection.ts
    - [AwarenessManager]      src/awareness-manager.ts
    - [WebTransportProvider]  src/provider.ts

    How the program is read:
    - One world holds the fields of the manager, of the provider and of the
      provider's current awareness manager, what the host keeps for them
      (armed timers, the handlers left on a transport's [closed] promise, the
      document's observers) and the trace of calls made to the outside.
      Methods are functions on the world; a callback slot of the manager runs
      the provider's bound method in place, as the call does in JavaScript.
    - Everything the host does is an entry point with the host's answer as an
      argument: how an attempt to open ends, the value of [Math.random()],
      the clock, a chunk or datagram that arrives, a promise that settles, a
      timer that expires.
    - Calls into Yjs, y-protocols and the awareness object are recorded; their
      results come from [External]. Three of them can throw: [JSON.parse]
      ([valid_json]), [Y.applyUpdate] ([applyUpdate_throws]) and
      [syncProtocol.readSyncStep1] ([readSyncStep1_throws]). A method that
      can end by throwing is a function on the world, giving what it did up
      to there, next to a test that says whether it throws.
    - Numbers are integers ([Z], [nat]). IEEE doubles are not embedded: a
      delay is the exact rational value of the expression that computes it.
    - What can happen to a provider is a [ProviderEvent]; a run is a list of
      events, each with the clock reading of its moment ([providerRun]). *)

From Stdlib Require Import ZArith QArith Qminmax Lia List String.
From Stdlib.Strings Require Import Byte.
From stdpp Require Import base gmap.
From Equations Require Import Equations.
Import ListNotations.

Local Open Scope Z_scope.

(** ** Bytes and JavaScript exceptions *)

(** A [Uint8Array] is a list of bytes. *)
Abbreviation bytes := (list byte).

Definition byte_to_Z (b : byte) : Z := Z.of_N (Byte.to_N b).

(** Storing a number into a [Uint8Array] slot keeps its low eight bits. *)
Definition u8 (z : Z) : byte :=
  match Byte.of_N (Z.to_N (z mod 256)) with
  | Some b => b
  | None => x00
  end.

(** [arr.slice(a, b)] and [arr.slice(a)] on in-range, non-negative indices. *)
Definition slice {A} (l : list A) (a b : nat) : list A := firstn (b - a) (skipn a l).
Definition slice_from {A} (l : list A) (a : nat) : list A := skipn a l.

(** [arr[i]] read as a number; an index past the end gives [undefined], which
    the bit operators of the callers coerce to 0. *)
Definition byte_at (l : bytes) (i : nat) : Z := byte_to_Z (nth i l x00).

(** The errors the sources construct with [new Error(...)], and those raised
    by the host (JSON, transport). *)
Inductive Error : Type :=
| MessageTooLarge (length : Z)     (* 'Message too large: N bytes (max 65535)' *)
| DatagramTooShort                 (* 'Invalid awareness datagram: too short' *)
| ManagerDestroyed                 (* 'Connection manager has been destroyed' *)
| ProviderDestroyed                (* 'Provider has been destroyed' *)
| NotSupported                     (* 'WebTransport is not supported in this browser' *)
| SyntaxError                      (* JSON.parse *)
| TransportError.                  (* any rejection coming from the transport *)

(** A computation that returns or throws. *)
Inductive Exn (A : Type) : Type :=
| Return (a : A)
| Throw (e : Error).
Arguments Return {A} a.
Arguments Throw {A} e.

(** ** src/encoding.ts *)
Module Encoding.

(** [frameMessage(data)]: two-byte big-endian length, then the data. *)
Definition frameMessage (data : bytes) : Exn bytes :=
  let length := Z.of_nat (List.length data) in
  if length >? 65535 then Throw (MessageTooLarge length)
  else
    Return (u8 (Z.land (Z.shiftr length 8) 255) :: u8 (Z.land length 255) :: data).

(** The [while] loop of [readFramedMessages]; it returns the messages and
    the final offset. Every turn moves the offset forward by at least two. *)
Equations? readFramedLoop (buffer : bytes) (offset : nat) (messages : list bytes)
  : list bytes * nat by wf (List.length buffer - offset)%nat lt :=
  readFramedLoop buffer offset messages with le_dec (offset + 2) (List.length buffer) := {
    | right _ => (messages, offset)
    | left _ =>
        let length :=
          Z.to_nat (Z.lor (Z.shiftl (byte_at buffer offset) 8) (byte_at buffer (offset + 1))) in
        match le_dec (offset + 2 + length) (List.length buffer) with
        | right _ => (messages, offset)
        | left _ =>
            readFramedLoop buffer (offset + 2 + length)%nat
              (messages ++ [slice buffer (offset + 2) (offset + 2 + length)])
        end }.
Proof. lia. Qed.

Definition readFramedMessages (buffer : bytes) : list bytes * bytes :=
  let '(messages, offset) := readFramedLoop buffer 0 [] in
  (messages, slice_from buffer offset).

(** [encodeUpdate(update)]: the tag 0x02, then the update. *)
Definition encodeUpdate (update : bytes) : bytes := u8 2 :: update.

(** [encodeSyncStep1], [encodeSyncStep2], [encodeAwarenessMessage]: the tags
    0x00, 0x01 and 0x03 before the payload. *)
Definition encodeSyncStep1 (stateVector : bytes) : bytes := u8 0 :: stateVector.
Definition encodeSyncStep2 (update : bytes) : bytes := u8 1 :: update.
Definition encodeAwarenessMessage (awarenessUpdate : bytes) : bytes := u8 3 :: awarenessUpdate.

(** [DataView.getUint32(at, false)]: four bytes, big-endian. *)
Definition getUint32 (data : bytes) (at_ : nat) : Z :=
  byte_at data at_ * 16777216 + byte_at data (at_ + 1) * 65536
  + byte_at data (at_ + 2) * 256 + byte_at data (at_ + 3).

(** [DataView.setUint32(at, v, false)] as the four bytes it stores. *)
Definition uint32_bytes (v : Z) : bytes :=
  let v := v mod 4294967296 in
  [u8 (v / 16777216); u8 (v / 65536); u8 (v / 256); u8 v].

Definition encodeAwarenessDatagram (clientId clock : Z) (state : bytes) : bytes :=
  uint32_bytes clientId ++ uint32_bytes clock ++ state.

Record AwarenessDatagram := { clientId : Z; clock : Z; state : bytes }.

Definition decodeAwarenessDatagram (data : bytes) : Exn AwarenessDatagram :=
  if (List.length data <? 8)%nat then Throw DatagramTooShort
  else Return {| clientId := getUint32 data 0;
                 clock := getUint32 data 4;
                 state := slice_from data 8 |}.

End Encoding.

(** ** lib0/encoding, as far as the provider uses it

    lib0 is a dependency, not part of this repository; these are its
    [writeVarUint] (seven bits a byte, low group first, bit 8 set on every byte
    but the last) and [writeVarUint8Array] (the length as a var-uint, then the
    bytes). *)
Module Lib0.

Equations? writeVarUint (num : Z) : bytes by wf (Z.to_nat num) lt :=
  writeVarUint num with Z_gt_dec num 127 := {
    | left _ => u8 (Z.lor 128 (Z.land 127 num)) :: writeVarUint (num / 128)
    | right _ => [u8 (Z.land 127 num)] }.
Proof.
  apply Z2Nat.inj_lt; try lia.
  - apply Z.div_pos; lia.
  - apply Z.div_lt; lia.
Qed.

Definition writeVarUint8Array (uint8Array : bytes) : bytes :=
  writeVarUint (Z.of_nat (List.length uint8Array)) ++ uint8Array.

End Lib0.

(** ** src/types.ts *)
Inductive ConnectionStatus : Type := connecting | connected | disconnected | reconnecting.

Definition status_eqb (a b : ConnectionStatus) : bool :=
  match a, b with
  | connecting, connecting | connected, connected
  | disconnected, disconnected | reconnecting, reconnecting => true
  | _, _ => false
  end.

Module Protocol.
Definition STREAM_SYNC : Z := 1.
Definition MSG_SYNC_STEP1 : Z := 0.
Definition MSG_SYNC_STEP2 : Z := 1.
Definition MSG_UPDATE : Z := 2.
Definition MSG_AWARENESS : Z := 3.
End Protocol.

(** ** The libraries and the host, as the sources see them

    Yjs, y-protocols and the awareness object are dependencies: their
    results are taken from this interface, and every call made on them is
    recorded in the trace. *)
Class External : Type := {
  DocState : Type;
  (** bytes [syncProtocol.writeSyncStep1(encoder, doc)] appends *)
  writeSyncStep1 : DocState -> bytes;
  (** bytes [syncProtocol.readSyncStep1(decoder, encoder, doc)] appends, when
      it returns *)
  readSyncStep1 : bytes -> DocState -> bytes;
  (** does [syncProtocol.readSyncStep1] throw on this payload (a state vector
      it cannot decode) *)
  readSyncStep1_throws : bytes -> DocState -> bool;
  (** [syncProtocol.readSyncStep2] catches what [Y.applyUpdate] throws *)
  readSyncStep2 : bytes -> DocState -> DocState;
  (** the document after [Y.applyUpdate(doc, update, origin)], whether the
      call returned or threw *)
  applyUpdate : bytes -> DocState -> DocState;
  (** does [Y.applyUpdate] throw on this update *)
  applyUpdate_throws : bytes -> DocState -> bool;
  AwarenessState : Type;
  clientID : AwarenessState -> Z;
  (** [encodeState(awareness.getLocalState())], [None] for a null state *)
  localStateBytes : AwarenessState -> option bytes;
  (** [Array.from(awareness.getStates().keys())] *)
  knownClients : AwarenessState -> list Z;
  encodeAwarenessUpdate : AwarenessState -> list Z -> bytes;
  (** the awareness object after
      [setLocalStateField('_remote', {[client]: {...state, _clock, _timestamp}})]
      on a local state that is not null *)
  setRemoteField : AwarenessState -> Z -> bytes -> Z -> Z -> AwarenessState;
  (** an awareness object keeps its client id, and the local state that
      [setLocalStateField] stores is not null *)
  setRemoteField_clientID :
    forall a client state clock timestamp,
      clientID (setRemoteField a client state clock timestamp) = clientID a;
  setRemoteField_localState :
    forall a client state clock timestamp,
      localStateBytes (setRemoteField a client state clock timestamp) <> None;
  (** does [JSON.parse] accept the UTF-8 text of these bytes *)
  valid_json : bytes -> bool
}.

(** The origin handed to [Y.applyUpdate] and seen again on the document's
    update event: the provider itself ([this]) or anything else. *)
Inductive Origin : Type := ThisProvider | OtherOrigin (tag : nat).

Definition is_this (o : Origin) : bool :=
  match o with ThisProvider => true | OtherOrigin _ => false end.

Record CloseInfo := { closeCode : option Z; reason : option string }.

(** What the code does to the outside, in program order. *)
Inductive Event : Type :=
(* the transport *)
| NewWebTransport (tid : nat)
| CreateBidirectionalStream (tid : nat)
| ReleaseWriterLock (tid : nat)
| ReleaseReaderLock (tid : nat)
| StreamWrite (tid : nat) (chunk : bytes)
| DatagramWrite (tid : nat) (data : bytes)
| TransportClose (tid : nat) (code : Z) (why : string)
(* timers *)
| SetTimeout (timer : nat) (delay : Q)
| ClearTimeout (timer : nat)
| SetInterval (timer : nat) (ms : Z)
| ClearInterval (timer : nat)
(* the connection manager's callback slots, when they are not null *)
| OnStatusChange (s : ConnectionStatus)
| OnError
| OnClose (code : Z) (why : string)
(* the provider's own events *)
| EmitSynced (b : bool)
| EmitSync (b : bool)
| EmitStatus (s : ConnectionStatus)
| EmitConnectionError
| EmitConnectionClose (code : Z) (why : string)
| ObservableDestroy
(* the document *)
| DocOn (closure : nat)
| DocOff (closure : nat)
| YApplyUpdate (update : bytes) (origin : Origin)
| YReadSyncStep2 (data : bytes) (origin : Origin)
(* the awareness object *)
| AwarenessOnUpdate
| AwarenessDestroy
| ApplyAwarenessUpdate (data : bytes) (origin : string)
| SetLocalStateFieldRemote (client : Z) (stateJson : bytes) (clock : Z) (timestamp : Z)
| AwarenessEmitChange (added updated removed : list Z) (origin : string)
(* console output of branches that do nothing else *)
| WarnCannotSend
| WarnUnknownMessageType (tag : Z)
| DebugQueuingUpdate
| DebugDatagramParseFailed (e : Error)
| LogMaxReconnectAttempts.

(** [ConnectionManager]'s fields. A transport, stream, writer or reader is
    named by the number of the transport it belongs to. *)
Record Manager := {
  transport : option nat;
  syncStream : option nat;
  syncWriter : option nat;
  syncReader : option nat;
  reconnectAttempts : nat;
  maxReconnectAttempts : Z;
  reconnectBaseDelay : Q;
  reconnectMaxDelay : Q;
  reconnectTimeout : option nat;
  destroyed : bool;
  (** the five callback slots: all null, or all bound to the provider *)
  callbacks : bool
}.

(** [AwarenessManager]'s fields. *)
Record AwarenessMgr := {
  useDatagrams : bool;
  broadcastInterval : Z;
  intervalId : option nat;
  localClock : Z;
  remoteClocks : gmap Z Z
}.

(** [WebTransportProvider]'s fields and the options it reads later. *)
Record Provider := {
  _synced : bool;
  _connected : bool;
  p_destroyed : bool;
  awarenessManager : option AwarenessMgr;
  useUnreliableAwareness : option bool;
  awarenessUpdateInterval : option Z
}.

(** The host: whether [WebTransport] exists, the next fresh object number,
    the armed timers, the transports whose [closed] promise carries the
    manager's handlers, the document's update observers (function objects, by
    number), the read loop's buffer, and the two library objects. *)
Record Host `{External} := {
  supported : bool;
  fresh : nat;
  timers : list nat;
  intervals : list nat;
  closedHandlers : list nat;
  docObservers : list nat;
  readBuffer : bytes;
  doc : DocState;
  awareness : AwarenessState
}.

Record World `{External} := {
  mgr : Manager;
  prov : Provider;
  host : Host;
  trace : list Event
}.

(** ** Field updates *)
Section Updates.
Context `{External}.

Definition set_transport (v : option nat) (m : Manager) : Manager :=
  {| transport := v; syncStream := syncStream m; syncWriter := syncWriter m;
     syncReader := syncReader m; reconnectAttempts := reconnectAttempts m;
     maxReconnectAttempts := maxReconnectAttempts m;
     reconnectBaseDelay := reconnectBaseDelay m; reconnectMaxDelay := reconnectMaxDelay m;
     reconnectTimeout := reconnectTimeout m; destroyed := destroyed m;
     callbacks := callbacks m |}.
Definition set_syncStream (v : option nat) (m : Manager) : Manager :=
  {| transport := transport m; syncStream := v; syncWriter := syncWriter m;
     syncReader := syncReader m; reconnectAttempts := reconnectAttempts m;
     maxReconnectAttempts := maxReconnectAttempts m;
     reconnectBaseDelay := reconnectBaseDelay m; reconnectMaxDelay := reconnectMaxDelay m;
     reconnectTimeout := reconnectTimeout m; destroyed := destroyed m;
     callbacks := callbacks m |}.
Definition set_syncWriter (v : option nat) (m : Manager) : Manager :=
  {| transport := transport m; syncStream := syncStream m; syncWriter := v;
     syncReader := syncReader m; reconnectAttempts := reconnectAttempts m;
     maxReconnectAttempts := maxReconnectAttempts m;
     reconnectBaseDelay := reconnectBaseDelay m; reconnectMaxDelay := reconnectMaxDelay m;
     reconnectTimeout := reconnectTimeout m; destroyed := destroyed m;
     callbacks := callbacks m |}.
Definition set_syncReader (v : option nat) (m : Manager) : Manager :=
  {| transport := transport m; syncStream := syncStream m; syncWriter := syncWriter m;
     syncReader := v; reconnectAttempts := reconnectAttempts m;
     maxReconnectAttempts := maxReconnectAttempts m;
     reconnectBaseDelay := reconnectBaseDelay m; reconnectMaxDelay := reconnectMaxDelay m;
     reconnectTimeout := reconnectTimeout m; destroyed := destroyed m;
     callbacks := callbacks m |}.
Definition set_reconnectAttempts (v : nat) (m : Manager) : Manager :=
  {| transport := transport m; syncStream := syncStream m; syncWriter := syncWriter m;
     syncReader := syncReader m; reconnectAttempts := v;
     maxReconnectAttempts := maxReconnectAttempts m;
     reconnectBaseDelay := reconnectBaseDelay m; reconnectMaxDelay := reconnectMaxDelay m;
     reconnectTimeout := reconnectTimeout m; destroyed := destroyed m;
     callbacks := callbacks m |}.
Definition set_reconnectTimeout (v : option nat) (m : Manager) : Manager :=
  {| transport := transport m; syncStream := syncStream m; syncWriter := syncWriter m;
     syncReader := syncReader m; reconnectAttempts := reconnectAttempts m;
     maxReconnectAttempts := maxReconnectAttempts m;
     reconnectBaseDelay := reconnectBaseDelay m; reconnectMaxDelay := reconnectMaxDelay m;
     reconnectTimeout := v; destroyed := destroyed m; callbacks := callbacks m |}.
Definition set_destroyed (v : bool) (m : Manager) : Manager :=
  {| transport := transport m; syncStream := syncStream m; syncWriter := syncWriter m;
     syncReader := syncReader m; reconnectAttempts := reconnectAttempts m;
     maxReconnectAttempts := maxReconnectAttempts m;
     reconnectBaseDelay := reconnectBaseDelay m; reconnectMaxDelay := reconnectMaxDelay m;
     reconnectTimeout := reconnectTimeout m; destroyed := v; callbacks := callbacks m |}.
Definition set_callbacks (v : bool) (m : Manager) : Manager :=
  {| transport := transport m; syncStream := syncStream m; syncWriter := syncWriter m;
     syncReader := syncReader m; reconnectAttempts := reconnectAttempts m;
     maxReconnectAttempts := maxReconnectAttempts m;
     reconnectBaseDelay := reconnectBaseDelay m; reconnectMaxDelay := reconnectMaxDelay m;
     reconnectTimeout := reconnectTimeout m; destroyed := destroyed m; callbacks := v |}.

Definition set_intervalId (v : option nat) (a : AwarenessMgr) : AwarenessMgr :=
  {| useDatagrams := useDatagrams a; broadcastInterval := broadcastInterval a;
     intervalId := v; localClock := localClock a; remoteClocks := remoteClocks a |}.
Definition set_localClock (v : Z) (a : AwarenessMgr) : AwarenessMgr :=
  {| useDatagrams := useDatagrams a; broadcastInterval := broadcastInterval a;
     intervalId := intervalId a; localClock := v; remoteClocks := remoteClocks a |}.
Definition set_remoteClocks (v : gmap Z Z) (a : AwarenessMgr) : AwarenessMgr :=
  {| useDatagrams := useDatagrams a; broadcastInterval := broadcastInterval a;
     intervalId := intervalId a; localClock := localClock a; remoteClocks := v |}.

Definition set_synced (v : bool) (p : Provider) : Provider :=
  {| _synced := v; _connected := _connected p; p_destroyed := p_destroyed p;
     awarenessManager := awarenessManager p;
     useUnreliableAwareness := useUnreliableAwareness p;
     awarenessUpdateInterval := awarenessUpdateInterval p |}.
Definition set_connected (v : bool) (p : Provider) : Provider :=
  {| _synced := _synced p; _connected := v; p_destroyed := p_destroyed p;
     awarenessManager := awarenessManager p;
     useUnreliableAwareness := useUnreliableAwareness p;
     awarenessUpdateInterval := awarenessUpdateInterval p |}.
Definition set_p_destroyed (v : bool) (p : Provider) : Provider :=
  {| _synced := _synced p; _connected := _connected p; p_destroyed := v;
     awarenessManager := awarenessManager p;
     useUnreliableAwareness := useUnreliableAwareness p;
     awarenessUpdateInterval := awarenessUpdateInterval p |}.
Definition set_awarenessManager (v : option AwarenessMgr) (p : Provider) : Provider :=
  {| _synced := _synced p; _connected := _connected p; p_destroyed := p_destroyed p;
     awarenessManager := v;
     useUnreliableAwareness := useUnreliableAwareness p;
     awarenessUpdateInterval := awarenessUpdateInterval p |}.

Definition set_fresh (v : nat) (h : Host) : Host :=
  {| supported := supported h; fresh := v; timers := timers h; intervals := intervals h;
     closedHandlers := closedHandlers h; docObservers := docObservers h;
     readBuffer := readBuffer h; doc := doc h; awareness := awareness h |}.
Definition set_timers (v : list nat) (h : Host) : Host :=
  {| supported := supported h; fresh := fresh h; timers := v; intervals := intervals h;
     closedHandlers := closedHandlers h; docObservers := docObservers h;
     readBuffer := readBuffer h; doc := doc h; awareness := awareness h |}.
Definition set_intervals (v : list nat) (h : Host) : Host :=
  {| supported := supported h; fresh := fresh h; timers := timers h; intervals := v;
     closedHandlers := closedHandlers h; docObservers := docObservers h;
     readBuffer := readBuffer h; doc := doc h; awareness := awareness h |}.
Definition set_closedHandlers (v : list nat) (h : Host) : Host :=
  {| supported := supported h; fresh := fresh h; timers := timers h;
     intervals := intervals h; closedHandlers := v; docObservers := docObservers h;
     readBuffer := readBuffer h; doc := doc h; awareness := awareness h |}.
Definition set_docObservers (v : list nat) (h : Host) : Host :=
  {| supported := supported h; fresh := fresh h; timers := timers h;
     intervals := intervals h; closedHandlers := closedHandlers h; docObservers := v;
     readBuffer := readBuffer h; doc := doc h; awareness := awareness h |}.
Definition set_readBuffer (v : bytes) (h : Host) : Host :=
  {| supported := supported h; fresh := fresh h; timers := timers h;
     intervals := intervals h; closedHandlers := closedHandlers h;
     docObservers := docObservers h; readBuffer := v; doc := doc h;
     awareness := awareness h |}.
Definition set_doc (v : DocState) (h : Host) : Host :=
  {| supported := supported h; fresh := fresh h; timers := timers h;
     intervals := intervals h; closedHandlers := closedHandlers h;
     docObservers := docObservers h; readBuffer := readBuffer h; doc := v;
     awareness := awareness h |}.
Definition set_awareness (v : AwarenessState) (h : Host) : Host :=
  {| supported := supported h; fresh := fresh h; timers := timers h;
     intervals := intervals h; closedHandlers := closedHandlers h;
     docObservers := docObservers h; readBuffer := readBuffer h; doc := doc h;
     awareness := v |}.

Definition with_mgr (f : Manager -> Manager) (w : World) : World :=
  {| mgr := f (mgr w); prov := prov w; host := host w; trace := trace w |}.
Definition with_prov (f : Provider -> Provider) (w : World) : World :=
  {| mgr := mgr w; prov := f (prov w); host := host w; trace := trace w |}.
Definition with_host (f : Host -> Host) (w : World) : World :=
  {| mgr := mgr w; prov := prov w; host := f (host w); trace := trace w |}.
Definition emit (e : Event) (w : World) : World :=
  {| mgr := mgr w; prov := prov w; host := host w; trace := trace w ++ [e] |}.

(** A new object (transport, timer, function): its number. Numbers start
    at 1, as the timer ids of a browser do. *)
Definition alloc (w : World) : nat * World :=
  (fresh (host w), with_host (set_fresh (S (fresh (host w)))) w).

Definition remove (n : nat) (l : list nat) : list nat :=
  List.filter (fun k => negb (Nat.eqb k n)) l.

(** [decodeState]: [JSON.parse] of the decoded text; the parsed value is
    kept as the bytes it was read from. *)
Definition decodeState (data : bytes) : Exn bytes :=
  if valid_json data then Return data else Throw SyntaxError.

End Updates.

(** ** src/connection.ts *)

(** The functions the provider stores in the manager's five callback slots.
    The stream-message callback can end by throwing: [h_onSyncMessage] is
    what it does to the world up to there and [h_onSyncMessage_throws] says
    whether it throws, both from the world it is called in. *)
Record Handlers `{External} := {
  h_onStatusChange : ConnectionStatus -> World -> World;
  h_onSyncMessage : bytes -> World -> World;
  h_onSyncMessage_throws : bytes -> World -> bool;
  h_onDatagram : bytes -> World -> World;
  h_onError : World -> World;
  h_onClose : Z -> string -> World -> World
}.

(** How an attempt to open the transport ends: [transport.ready] rejects, or
    the transport and its stream open. One call of [connect] is taken as a
    whole; what other code does between its [await]s is not followed. *)
Inductive Outcome : Type := ReadyRejects | Opens.

Module ConnectionManager.
Section Methods.
Context `{External}.

Definition new (maxAttempts : option Z) (baseDelay maxDelay : option Q) : Manager :=
  {| transport := None; syncStream := None; syncWriter := None; syncReader := None;
     reconnectAttempts := 0;
     maxReconnectAttempts := default 10 maxAttempts;
     reconnectBaseDelay := default (inject_Z 1000) baseDelay;
     reconnectMaxDelay := default (inject_Z 30000) maxDelay;
     reconnectTimeout := None; destroyed := false; callbacks := false |}.

(** [get connected()] *)
Definition get_connected (w : World) : bool :=
  match transport (mgr w), syncWriter (mgr w) with
  | Some _, Some _ => true
  | _, _ => false
  end.

(** [sendSyncMessage(data)]: the length prefix is written in place, without
    calling [frameMessage]. *)
Definition sendSyncMessage (data : bytes) (w : World) : World :=
  match syncWriter (mgr w) with
  | None => emit WarnCannotSend w
  | Some stream =>
      let length := Z.of_nat (List.length data) in
      let framed :=
        u8 (Z.land (Z.shiftr length 8) 255) :: u8 (Z.land length 255) :: data in
      emit (StreamWrite stream framed) w
  end.

Definition sendDatagram (data : bytes) (w : World) : World :=
  match transport (mgr w) with
  | None => w
  | Some tid => emit (DatagramWrite tid data) w
  end.

Definition cleanup (w : World) : World :=
  let w := match syncWriter (mgr w) with
           | Some s => with_mgr (set_syncWriter None) (emit (ReleaseWriterLock s) w)
           | None => w
           end in
  let w := match syncReader (mgr w) with
           | Some s => with_mgr (set_syncReader None) (emit (ReleaseReaderLock s) w)
           | None => w
           end in
  with_mgr (set_transport None) (with_mgr (set_syncStream None) w).

(** [Math.min(base * Math.pow(2, attempts) + Math.random() * 1000, max)];
    [rnd] is the value [Math.random()] returned. The code evaluates the
    expression in IEEE doubles, which are not embedded: this is its exact
    value over the rationals, the one the code computes wherever no operation
    rounds or overflows. Nothing below is stated about the size of a delay. *)
Definition reconnectDelay (base max : Q) (attempts : nat) (rnd : Q) : Q :=
  Qmin (base * 2 ^ Z.of_nat attempts + rnd * inject_Z 1000)%Q max.

Variable handlers : Handlers.

Definition onStatusChange (s : ConnectionStatus) (w : World) : World :=
  if callbacks (mgr w) then h_onStatusChange handlers s (emit (OnStatusChange s) w) else w.
Definition onSyncMessage (data : bytes) (w : World) : World :=
  if callbacks (mgr w) then h_onSyncMessage handlers data w else w.
Definition onSyncMessage_throws (data : bytes) (w : World) : bool :=
  callbacks (mgr w) && h_onSyncMessage_throws handlers data w.
Definition onDatagram (data : bytes) (w : World) : World :=
  if callbacks (mgr w) then h_onDatagram handlers data w else w.
Definition onError (w : World) : World :=
  if callbacks (mgr w) then h_onError handlers (emit OnError w) else w.
Definition onClose (code : Z) (why : string) (w : World) : World :=
  if callbacks (mgr w) then h_onClose handlers code why (emit (OnClose code why) w) else w.

Definition scheduleReconnect (rnd : Q) (w : World) : World :=
  if (Z.of_nat (reconnectAttempts (mgr w)) >=? maxReconnectAttempts (mgr w))%Z
  then emit LogMaxReconnectAttempts w
  else
    let delay :=
      reconnectDelay (reconnectBaseDelay (mgr w)) (reconnectMaxDelay (mgr w))
        (reconnectAttempts (mgr w)) rnd in
    let w := onStatusChange reconnecting w in
    let w := with_mgr (set_reconnectAttempts (S (reconnectAttempts (mgr w)))) w in
    let '(timer, w) := alloc w in
    let w := emit (SetTimeout timer delay) (with_host (set_timers (timers (host w) ++ [timer])) w) in
    with_mgr (set_reconnectTimeout (Some timer)) w.

Definition handleError (rnd : Q) (w : World) : World :=
  let w := cleanup w in
  let w := onError w in
  if destroyed (mgr w) then w else scheduleReconnect rnd w.

Definition handleClose (closeInfo : CloseInfo) (rnd : Q) (w : World) : World :=
  let w := cleanup w in
  let w := onClose (default 0 (closeCode closeInfo)) (default EmptyString (reason closeInfo)) w in
  let w := onStatusChange disconnected w in
  if destroyed (mgr w) then w else scheduleReconnect rnd w.

(** [openSyncStream()], when the stream opens: writer and reader are taken,
    the stream-type byte is written, and the read loop starts on an empty
    buffer. *)
Definition openSyncStream (tid : nat) (w : World) : World :=
  let w := emit (CreateBidirectionalStream tid) w in
  let w := with_mgr (set_syncStream (Some tid)) w in
  let w := with_mgr (set_syncWriter (Some tid)) w in
  let w := with_mgr (set_syncReader (Some tid)) w in
  let w := emit (StreamWrite tid [u8 Protocol.STREAM_SYNC]) w in
  with_host (set_readBuffer []) w.

Definition connect (outcome : Outcome) (rnd : Q) (w : World) : Exn unit * World :=
  if destroyed (mgr w) then (Throw ManagerDestroyed, w)
  else if negb (supported (host w)) then (Throw NotSupported, w)
  else
    let w := onStatusChange connecting w in
    let '(tid, w) := alloc w in
    let w := with_mgr (set_transport (Some tid)) (emit (NewWebTransport tid) w) in
    match outcome with
    | ReadyRejects => (Throw TransportError, handleError rnd w)
    | Opens =>
        let w := openSyncStream tid w in
        let w := with_host (set_closedHandlers (closedHandlers (host w) ++ [tid])) w in
        let w := with_mgr (set_reconnectAttempts 0) w in
        (Return tt, onStatusChange connected w)
    end.

Definition disconnect (w : World) : World :=
  let w := match reconnectTimeout (mgr w) with
           | Some timer =>
               with_mgr (set_reconnectTimeout None)
                 (emit (ClearTimeout timer)
                    (with_host (set_timers (remove timer (timers (host w)))) w))
           | None => w
           end in
  let w := match transport (mgr w) with
           | Some tid => emit (TransportClose tid 1000 "Client disconnect") w
           | None => w
           end in
  onStatusChange disconnected (cleanup w).

Definition destroy (w : World) : World :=
  disconnect (with_mgr (set_destroyed true) w).

(** *** What the host calls back *)

(** The reconnect timer expires: [this.connect().catch(...)]. *)
Definition timerFires (timer : nat) (outcome : Outcome) (rnd : Q) (w : World) : World :=
  if existsb (Nat.eqb timer) (timers (host w))
  then snd (connect outcome rnd (with_host (set_timers (remove timer (timers (host w)))) w))
  else w.

(** [transport.closed] of transport [tid] is fulfilled with [closeInfo]. *)
Definition closedFulfilled (tid : nat) (closeInfo : CloseInfo) (rnd : Q) (w : World) : World :=
  if existsb (Nat.eqb tid) (closedHandlers (host w))
  then handleClose closeInfo rnd
         (with_host (set_closedHandlers (remove tid (closedHandlers (host w)))) w)
  else w.

(** [transport.closed] of transport [tid] is rejected. *)
Definition closedRejected (tid : nat) (rnd : Q) (w : World) : World :=
  if existsb (Nat.eqb tid) (closedHandlers (host w))
  then handleError rnd
         (with_host (set_closedHandlers (remove tid (closedHandlers (host w)))) w)
  else w.

(** [syncReader.read()] rejects inside [readSyncStream]. *)
Definition streamReadFails (rnd : Q) (w : World) : World :=
  if destroyed (mgr w) then w else handleError rnd w.

(** The inner loop of [readSyncStream]: hand every complete frame of the
    buffer to [onSyncMessage], which is called after the frame has been cut
    off the buffer. The loop is inside the [try]: when the callback throws,
    it ends there, and the result says so. *)
Equations? deliverFrames (buffer : bytes) (w : World) : bytes * World * bool
  by wf (List.length buffer) lt :=
  deliverFrames buffer w with le_dec 2 (List.length buffer) := {
    | right _ => (buffer, w, false)
    | left _ =>
        let msgLen :=
          Z.to_nat (Z.lor (Z.shiftl (byte_at buffer 0) 8) (byte_at buffer 1)) in
        match lt_dec (List.length buffer) (2 + msgLen) with
        | left _ => (buffer, w, false)
        | right _ =>
            let message := slice buffer 2 (2 + msgLen) in
            if onSyncMessage_throws message w
            then (slice_from buffer (2 + msgLen), onSyncMessage message w, true)
            else deliverFrames (slice_from buffer (2 + msgLen)) (onSyncMessage message w)
        end }.
Proof.
  destruct buffer as [|b0 [|b1 rest]]; simpl in *; try lia.
  unfold slice_from. rewrite length_skipn. lia.
Qed.

(** [syncReader.read()] yields the chunk [value]. What the callback throws
    lands in the [catch] of [readSyncStream], which runs [handleError] unless
    the manager is destroyed; [rnd] is the value of [Math.random()] there. *)
Definition streamChunk (rnd : Q) (value : bytes) (w : World) : World :=
  let '(rest, w, threw) := deliverFrames (readBuffer (host w) ++ value) w in
  let w := with_host (set_readBuffer rest) w in
  if threw then (if destroyed (mgr w) then w else handleError rnd w) else w.

(** The datagram reader yields [value]. *)
Definition datagramArrives (value : bytes) (w : World) : World := onDatagram value w.

End Methods.
End ConnectionManager.

(** ** src/awareness-manager.ts

    The methods take and return the manager object next to the world; the two
    send closures are the connection manager's [sendSyncMessage] and
    [sendDatagram], as the provider passes them. The listener the constructor
    registers on the awareness object's update event is
    [localAwarenessUpdate]. [handleDatagram] follows the call the awareness
    object makes to it from inside [setLocalStateField]; the listeners other
    objects have registered on the same awareness object (the application's,
    those of other awareness managers) are not part of a call and are not
    followed. *)
Module AwarenessManager.
Section Methods.
Context `{External}.

(** The constructor; it subscribes to the awareness object's updates. *)
Definition new (useDatagrams_ : option bool) (broadcastInterval_ : option Z) (w : World)
  : AwarenessMgr * World :=
  ({| useDatagrams := default true useDatagrams_;
      broadcastInterval := default 50 broadcastInterval_;
      intervalId := None; localClock := 0; remoteClocks := ∅ |},
   emit AwarenessOnUpdate w).

Definition stop (am : AwarenessMgr) (w : World) : AwarenessMgr * World :=
  match intervalId am with
  | Some timer =>
      (set_intervalId None am,
       emit (ClearInterval timer)
         (with_host (set_intervals (remove timer (intervals (host w)))) w))
  | None => (am, w)
  end.

Definition startDatagramBroadcast (am : AwarenessMgr) (w : World) : AwarenessMgr * World :=
  match intervalId am with
  | Some _ => (am, w)
  | None =>
      let '(timer, w) := alloc w in
      (set_intervalId (Some timer) am,
       emit (SetInterval timer (broadcastInterval am))
         (with_host (set_intervals (intervals (host w) ++ [timer])) w))
  end.

Definition broadcastLocalStateDatagram (am : AwarenessMgr) (w : World)
  : AwarenessMgr * World :=
  match localStateBytes (awareness (host w)) with
  | None => (am, w)
  | Some stateBytes =>
      let am := set_localClock (localClock am + 1) am in
      let datagram :=
        Encoding.encodeAwarenessDatagram (clientID (awareness (host w)))
          (localClock am) stateBytes in
      (am, ConnectionManager.sendDatagram datagram w)
  end.

Definition broadcastStateStream (clients : list Z) (w : World) : World :=
  let update := encodeAwarenessUpdate (awareness (host w)) clients in
  ConnectionManager.sendSyncMessage (u8 Protocol.MSG_AWARENESS :: update) w.

Definition broadcastFullState (w : World) : World :=
  let clients := knownClients (awareness (host w)) in
  if (0 <? List.length clients)%nat then broadcastStateStream clients w else w.

Definition start (am : AwarenessMgr) (w : World) : AwarenessMgr * World :=
  let '(am, w) := if useDatagrams am then startDatagramBroadcast am w else (am, w) in
  (am, broadcastFullState w).

(** The listener on the awareness object's update event. *)
Definition localAwarenessUpdate (added updated removed : list Z)
  (am : AwarenessMgr) (w : World) : AwarenessMgr * World :=
  let changedClients := added ++ updated ++ removed in
  if existsb (Z.eqb (clientID (awareness (host w)))) changedClients
  then if useDatagrams am then broadcastLocalStateDatagram am w
       else (am, broadcastStateStream changedClients w)
  else (am, w).

Definition handleStreamMessage (data : bytes) (am : AwarenessMgr) (w : World)
  : AwarenessMgr * World :=
  (am, emit (ApplyAwarenessUpdate (slice_from data 1) "remote-stream") w).

(** [handleDatagram(data)]; [now] is what [Date.now()] returns. The whole
    body is inside [try]: whatever is thrown ends the call in the [catch],
    which only logs. [setLocalStateField] does nothing when the local state
    is null; otherwise it stores the new local state and fires the update
    event with the local client as the one updated, which runs the manager's
    listener before [setLocalStateField] returns. *)
Definition handleDatagram (data : bytes) (now : Z) (am : AwarenessMgr) (w : World)
  : AwarenessMgr * World :=
  match Encoding.decodeAwarenessDatagram data with
  | Throw e => (am, emit (DebugDatagramParseFailed e) w)
  | Return d =>
      if Encoding.clientId d =? clientID (awareness (host w)) then (am, w)
      else
        let lastClock := default 0 (remoteClocks am !! Encoding.clientId d) in
        if Encoding.clock d <=? lastClock then (am, w)
        else
          let am :=
            set_remoteClocks (<[Encoding.clientId d := Encoding.clock d]> (remoteClocks am)) am in
          match decodeState (Encoding.state d) with
          | Throw e => (am, emit (DebugDatagramParseFailed e) w)
          | Return state =>
              let w :=
                emit (SetLocalStateFieldRemote (Encoding.clientId d) state
                        (Encoding.clock d) now) w in
              let '(am, w) :=
                match localStateBytes (awareness (host w)) with
                | None => (am, w)
                | Some _ =>
                    let w :=
                      with_host
                        (set_awareness
                           (setRemoteField (awareness (host w)) (Encoding.clientId d) state
                              (Encoding.clock d) now)) w in
                    localAwarenessUpdate [] [clientID (awareness (host w))] [] am w
                end in
              (am, emit (AwarenessEmitChange [] [Encoding.clientId d] [] "remote-datagram") w)
          end
  end.

Definition destroy (am : AwarenessMgr) (w : World) : AwarenessMgr * World :=
  let '(am, w) := stop am w in
  (set_remoteClocks ∅ am, w).

(** [cleanupStaleStates(maxAge = 10000)], as far as the remote clocks and the
    clients evicted go: what the awareness object does inside
    [setLocalStateField] is not followed here. [now] is what [Date.now()] returns
    and [states] the entries of [awareness.getStates()] in iteration order,
    each a client id with the [_timestamp] of its state when it has one. The
    result lists, next to the manager, the clients for which
    [setLocalStateField('_remote', {[clientId]: null})] was called, in call
    order. [cleanupStep] is the body of the loop. *)
Definition cleanupStep (maxAge : option Z) (now localId : Z)
  (acc : AwarenessMgr * list Z) (entry : Z * option Z) : AwarenessMgr * list Z :=
  if fst entry =? localId then acc
  else
    let lastUpdate := default 0 (snd entry) in
    if now - lastUpdate >? default 10000 maxAge
    then (set_remoteClocks (delete (fst entry) (remoteClocks (fst acc))) (fst acc),
          snd acc ++ [fst entry])
    else acc.

Definition cleanupStaleStates (maxAge : option Z) (now : Z) (states : list (Z * option Z))
  (localId : Z) (am : AwarenessMgr) : AwarenessMgr * list Z :=
  fold_left (cleanupStep maxAge now localId) states (am, []).

End Methods.
End AwarenessManager.

(** ** src/provider.ts *)
Record Options := {
  opt_connect : option bool;
  opt_maxReconnectAttempts : option Z;
  opt_reconnectBaseDelay : option Q;
  opt_reconnectMaxDelay : option Q;
  opt_useUnreliableAwareness : option bool;
  opt_awarenessUpdateInterval : option Z
}.

Definition defaultOptions : Options :=
  {| opt_connect := None; opt_maxReconnectAttempts := None;
     opt_reconnectBaseDelay := None; opt_reconnectMaxDelay := None;
     opt_useUnreliableAwareness := None; opt_awarenessUpdateInterval := None |}.

(** [x !== false] for an optional boolean. *)
Definition not_false (x : option bool) : bool :=
  match x with Some false => false | _ => true end.

Module WebTransportProvider.
Section Methods.
Context `{External}.

(** [this.awarenessManager?.method(...)] *)
Definition with_am (f : AwarenessMgr -> World -> AwarenessMgr * World) (w : World) : World :=
  match awarenessManager (prov w) with
  | Some am =>
      let '(am, w) := f am w in
      with_prov (set_awarenessManager (Some am)) w
  | None => w
  end.

Definition startSync (w : World) : World :=
  let '(am, w) :=
    AwarenessManager.new
      (Some (not_false (useUnreliableAwareness (prov w))))
      (awarenessUpdateInterval (prov w)) w in
  let w := with_prov (set_awarenessManager (Some am)) w in
  let message :=
    Lib0.writeVarUint Protocol.MSG_SYNC_STEP1 ++ writeSyncStep1 (doc (host w)) in
  let w := ConnectionManager.sendSyncMessage message w in
  with_am AwarenessManager.start w.

Definition handleStatusChange (status : ConnectionStatus) (w : World) : World :=
  let wasConnected := _connected (prov w) in
  let w := with_prov (set_connected (status_eqb status connected)) w in
  let w :=
    if status_eqb status connected && negb wasConnected then startSync w
    else if status_eqb status disconnected && wasConnected
         then emit (EmitSynced false) (with_prov (set_synced false) w)
         else w in
  emit (EmitStatus status) w.

Definition handleDocUpdate (update : bytes) (origin : Origin) (w : World) : World :=
  if is_this origin then w
  else if negb (_connected (prov w)) then emit DebugQueuingUpdate w
  else
    let message :=
      Lib0.writeVarUint Protocol.MSG_UPDATE ++ Lib0.writeVarUint8Array update in
    ConnectionManager.sendSyncMessage message w.

(** The document fires its update event: every function object registered
    with [doc.on('update', ...)] is called. The only ones registered here
    are [handleDocUpdate] bound to the provider. *)
Definition docUpdateEvent (update : bytes) (origin : Origin) (w : World) : World :=
  fold_left (fun w _ => handleDocUpdate update origin w) (docObservers (host w)) w.

(** [handleSyncStep1(data)]. When [syncProtocol.readSyncStep1] throws, the
    method ends there, before anything is sent. *)
Definition handleSyncStep1 (data : bytes) (w : World) : World :=
  if readSyncStep1_throws data (doc (host w)) then w
  else
    let response :=
      Lib0.writeVarUint Protocol.MSG_SYNC_STEP2 ++ readSyncStep1 data (doc (host w)) in
    let w := if (1 <? List.length response)%nat
             then ConnectionManager.sendSyncMessage response w else w in
    if negb (_synced (prov w))
    then ConnectionManager.sendSyncMessage
           (Lib0.writeVarUint Protocol.MSG_SYNC_STEP1 ++ writeSyncStep1 (doc (host w))) w
    else w.

(** Applying a remote update makes Yjs fire the document's update event
    with the origin it was given. *)
Definition handleSyncStep2 (data : bytes) (w : World) : World :=
  let w := with_host (set_doc (readSyncStep2 data (doc (host w)))) w in
  let w := docUpdateEvent data ThisProvider (emit (YReadSyncStep2 data ThisProvider) w) in
  if negb (_synced (prov w))
  then emit (EmitSync true) (emit (EmitSynced true) (with_prov (set_synced true) w))
  else w.

Definition handleRemoteUpdate (data : bytes) (w : World) : World :=
  let w := with_host (set_doc (applyUpdate data (doc (host w)))) w in
  docUpdateEvent data ThisProvider (emit (YApplyUpdate data ThisProvider) w).

Definition handleSyncMessage (data : bytes) (w : World) : World :=
  if (List.length data =? 0)%nat then w
  else
    let messageType := byte_at data 0 in
    if messageType =? Protocol.MSG_SYNC_STEP1 then handleSyncStep1 (slice_from data 1) w
    else if messageType =? Protocol.MSG_SYNC_STEP2 then handleSyncStep2 (slice_from data 1) w
    else if messageType =? Protocol.MSG_UPDATE then handleRemoteUpdate (slice_from data 1) w
    else if messageType =? Protocol.MSG_AWARENESS
         then with_am (AwarenessManager.handleStreamMessage data) w
         else emit (WarnUnknownMessageType messageType) w.

(** Does [handleSyncMessage(data)] end by throwing: [handleSyncStep1] and
    [handleRemoteUpdate] do when the library call they make throws; step 2
    and awareness frames are handled inside a [try]. *)
Definition handleSyncMessage_throws (data : bytes) (w : World) : bool :=
  if (List.length data =? 0)%nat then false
  else
    let messageType := byte_at data 0 in
    if messageType =? Protocol.MSG_SYNC_STEP1
    then readSyncStep1_throws (slice_from data 1) (doc (host w))
    else if messageType =? Protocol.MSG_SYNC_STEP2 then false
    else if messageType =? Protocol.MSG_UPDATE
         then applyUpdate_throws (slice_from data 1) (doc (host w))
         else false.

(** [handleDatagram(data)]; [now] is the clock reading of the moment. *)
Definition handleDatagram (now : Z) (data : bytes) (w : World) : World :=
  with_am (AwarenessManager.handleDatagram data now) w.

Definition handleError (w : World) : World := emit EmitConnectionError w.

Definition handleClose (code : Z) (why : string) (w : World) : World :=
  emit (EmitConnectionClose code why) w.

(** The five bound methods the constructor stores in the manager. *)
Definition handlers (now : Z) : Handlers :=
  {| h_onStatusChange := handleStatusChange;
     h_onSyncMessage := handleSyncMessage;
     h_onSyncMessage_throws := handleSyncMessage_throws;
     h_onDatagram := handleDatagram now;
     h_onError := handleError;
     h_onClose := handleClose |}.

Definition connect (now : Z) (outcome : Outcome) (rnd : Q) (w : World) : Exn unit * World :=
  if p_destroyed (prov w) then (Throw ProviderDestroyed, w)
  else ConnectionManager.connect (handlers now) outcome rnd w.

(** The constructor. [this.handleDocUpdate.bind(this)] makes a function
    object, and that object is what [doc.on] registers. *)
Definition new (options : Options) (hasWebTransport : bool)
  (d : DocState) (a : AwarenessState) (now : Z) (outcome : Outcome) (rnd : Q) : World :=
  let w :=
    {| mgr := set_callbacks true
                (ConnectionManager.new (opt_maxReconnectAttempts options)
                   (opt_reconnectBaseDelay options) (opt_reconnectMaxDelay options));
       prov := {| _synced := false; _connected := false; p_destroyed := false;
                  awarenessManager := None;
                  useUnreliableAwareness := opt_useUnreliableAwareness options;
                  awarenessUpdateInterval := opt_awarenessUpdateInterval options |};
       host := {| supported := hasWebTransport; fresh := 1; timers := [];
                  intervals := []; closedHandlers := []; docObservers := [];
                  readBuffer := []; doc := d; awareness := a |};
       trace := [] |} in
  let '(bound, w) := alloc w in
  let w := emit (DocOn bound) (with_host (set_docObservers (docObservers (host w) ++ [bound])) w) in
  if not_false (opt_connect options) then snd (connect now outcome rnd w) else w.

Definition disconnect (now : Z) (w : World) : World :=
  with_am AwarenessManager.stop (ConnectionManager.disconnect (handlers now) w).

(** [destroy()]. The argument of [doc.off] is a second
    [this.handleDocUpdate.bind(this)], again a new function object;
    [off] removes the observer that is that object. *)
Definition destroy (now : Z) (w : World) : World :=
  if p_destroyed (prov w) then w
  else
    let w := with_prov (set_p_destroyed true) w in
    let w := emit AwarenessDestroy w in
    let w := with_am AwarenessManager.destroy w in
    let w := ConnectionManager.destroy (handlers now) w in
    let '(bound, w) := alloc w in
    let w := emit (DocOff bound)
               (with_host (set_docObservers (remove bound (docObservers (host w)))) w) in
    emit ObservableDestroy w.

End Methods.
End WebTransportProvider.

(** ** A concrete instance of the libraries, for running the model

    An empty document whose state vector is the single byte 0, an awareness
    object of client 1 with the local state [{}] and no other client, and a
    JSON check that accepts the text [{}] only. The document is kept as the
    list of the updates handed to it. The only state vector
    [readSyncStep1] decodes is the empty one, [01 00], and the only update
    [Y.applyUpdate] accepts is the empty one, [00 00]. What
    [setLocalStateField] stores in the [_remote] field is not kept: the local
    state always reads [{}]. *)
Definition sampleExternal : External :=
  {| DocState := list bytes;
     writeSyncStep1 := fun _ => [x00; x01; x00];
     readSyncStep1 := fun _ _ => [x01; x02; x00; x00];
     readSyncStep1_throws :=
       fun data _ => match data with [x01; x00] => false | _ => true end;
     readSyncStep2 := fun data d => d ++ [data];
     applyUpdate := fun data d => d ++ [data];
     applyUpdate_throws :=
       fun data _ => match data with [x00; x00] => false | _ => true end;
     AwarenessState := unit;
     clientID := fun _ => 1;
     localStateBytes := fun _ => Some [x7b; x7d];
     knownClients := fun _ => [1];
     encodeAwarenessUpdate := fun _ _ => [x00];
     setRemoteField := fun a _ _ _ _ => a;
     setRemoteField_clientID := fun _ _ _ _ _ => eq_refl;
     setRemoteField_localState := fun _ _ _ _ _ => ltac:(discriminate);
     valid_json := fun b => match b with [x7b; x7d] => true | _ => false end |}.

(** The provider of the sample instance, constructed with [connect: false]
    and otherwise default options, in a browser that has [WebTransport]. *)
Definition sampleProvider : @World sampleExternal :=
  @WebTransportProvider.new sampleExternal
    {| opt_connect := Some false; opt_maxReconnectAttempts := None;
       opt_reconnectBaseDelay := None; opt_reconnectMaxDelay := None;
       opt_useUnreliableAwareness := None; opt_awarenessUpdateInterval := None |}
    true [] tt 0 Opens 0%Q.

(** The same provider after [connect()] succeeded. *)
Definition sampleConnected : @World sampleExternal :=
  snd (@WebTransportProvider.connect sampleExternal 0 Opens 0%Q sampleProvider).

(** ... and after the peer's sync step 2 arrived in one chunk. *)
Definition sampleSynced : @World sampleExternal :=
  @ConnectionManager.streamChunk sampleExternal (@WebTransportProvider.handlers sampleExternal 0)
    0%Q [x00; x03; x01; x00; x00] sampleConnected.

(** The number of transports opened so far. *)
Definition opens `{External} (w : World) : nat :=
  List.length (List.filter (fun e => match e with NewWebTransport _ => true | _ => false end)
                 (trace w)).

(** The event loop of a manager whose transport never opens: while a
    reconnect timer is armed, it expires and [connect()] fails again.
    [rnds] gives the value of [Math.random()] for each turn. *)
Fixpoint failingLoop `{External} (handlers : Handlers) (turns : nat) (rnds : nat -> Q)
  (w : World) : World :=
  match turns with
  | O => w
  | S turns' =>
      match timers (host w) with
      | [] => w
      | timer :: _ =>
          failingLoop handlers turns' rnds
            (ConnectionManager.timerFires handlers timer ReadyRejects (rnds turns') w)
      end
  end.

(** The events a step added to the trace. *)
Definition added `{External} (before after : World) : list Event :=
  skipn (List.length (trace before)) (trace after).

(** The manager is alive, in a browser with [WebTransport], allows [n]
    reconnects and has made [k] of them. *)
Definition retrying `{External} (n k : nat) (w : World) : Prop :=
  destroyed (mgr w) = false /\
  supported (host w) = true /\
  maxReconnectAttempts (mgr w) = Z.of_nat n /\
  reconnectAttempts (mgr w) = k.

(** A payload of 70,000 bytes, each the letter [a]. *)
Definition payload70k : bytes := repeat x61 (Z.to_nat 70000).

(** The manager of the reconnect test: three reconnects, 10 ms base delay,
    100 ms cap, constructed without connecting. *)
Definition sampleRetry3 : @World sampleExternal :=
  @WebTransportProvider.new sampleExternal
    {| opt_connect := Some false; opt_maxReconnectAttempts := Some 3;
       opt_reconnectBaseDelay := Some (inject_Z 10);
       opt_reconnectMaxDelay := Some (inject_Z 100);
       opt_useUnreliableAwareness := None; opt_awarenessUpdateInterval := None |}
    true [] tt 0 Opens 0%Q.

(** The awareness pipeline of the connected sample provider. *)
Definition sampleAwareness : AwarenessMgr :=
  default
    {| useDatagrams := true; broadcastInterval := 50; intervalId := None;
       localClock := 0; remoteClocks := ∅ |}
    (awarenessManager (prov sampleConnected)).

(** ** Notions the statements below use *)

(** The bytes of one frame: the two length bytes, then the payload. It is what
    [frameMessage] returns and what [sendSyncMessage] writes. *)
Definition lengthPrefixed (data : bytes) : bytes :=
  u8 (Z.land (Z.shiftr (Z.of_nat (List.length data)) 8) 255)
    :: u8 (Z.land (Z.of_nat (List.length data)) 255) :: data.

(** The length the first two bytes of a buffer announce. *)
Definition announced (buffer : bytes) : nat :=
  Z.to_nat (Z.lor (Z.shiftl (byte_at buffer 0) 8) (byte_at buffer 1)).

(** A buffer that does not start with a whole frame: fewer than two bytes, or
    fewer bytes after the prefix than it announces. *)
Definition incomplete (buffer : bytes) : Prop :=
  (List.length buffer < 2)%nat \/ (List.length buffer < 2 + announced buffer)%nat.

(** The entries [cleanupStaleStates] evicts: not the local client, and last
    updated more than [maxAge] before [now] (a state without timestamp counts
    as updated at time 0). *)
Definition isStale (maxAge : option Z) (now localId : Z) (entry : Z * option Z) : bool :=
  negb (fst entry =? localId) && (now - default 0 (snd entry) >? default 10000 maxAge).

(** The clock recorded for a client, 0 when there is none. *)
Definition recordedClock (am : AwarenessMgr) (client : Z) : Z :=
  default 0 (remoteClocks am !! client).

(** [handleDatagram] on a sequence of datagrams, each with the clock reading
    of its arrival. *)
Definition handleDatagrams `{External} (arrivals : list (bytes * Z))
  (am : AwarenessMgr) (w : World) : AwarenessMgr * World :=
  fold_left
    (fun (acc : AwarenessMgr * World) (arrival : bytes * Z) =>
       AwarenessManager.handleDatagram (fst arrival) (snd arrival) (fst acc) (snd acc))
    arrivals (am, w).

(** Messages handed to the stream-message callback one after the other,
    until one makes it throw: the world reached, and whether it threw. *)
Fixpoint handOver `{External} (handlers : Handlers) (messages : list bytes) (w : World)
  : World * bool :=
  match messages with
  | [] => (w, false)
  | message :: rest =>
      if ConnectionManager.onSyncMessage_throws handlers message w
      then (ConnectionManager.onSyncMessage handlers message w, true)
      else handOver handlers rest (ConnectionManager.onSyncMessage handlers message w)
  end.

(** The number of reconnect timers armed so far. *)
Definition timeoutsArmed `{External} (w : World) : nat :=
  List.length (List.filter (fun e => match e with SetTimeout _ _ => true | _ => false end)
                 (trace w)).

(** The number of chunks written on a stream and of datagrams sent so far. *)
Definition sends `{External} (w : World) : nat :=
  List.length
    (List.filter
       (fun e => match e with StreamWrite _ _ | DatagramWrite _ _ => true | _ => false end)
       (trace w)).

(** The transport and its stream, writer and reader are held together, or
    none of them is. *)
Definition handlesTogether (m : Manager) : Prop :=
  syncStream m = transport m /\ syncWriter m = transport m /\ syncReader m = transport m.

Definition retriesBounded (m : Manager) : Prop :=
  Z.of_nat (reconnectAttempts m) <= Z.max 0 (maxReconnectAttempts m).

(** The manager is destroyed and holds neither transport nor writer. *)
Definition closedDown `{External} (w : World) : Prop :=
  destroyed (mgr w) = true /\ transport (mgr w) = None /\ syncWriter (mgr w) = None.

(** What can happen to a provider after its construction: calls of its
    public methods, the document's update event, and the callbacks of the
    host. [startSync] replaces the awareness manager without stopping the one
    before, whose interval and listener stay registered: [past] is [None] for
    the awareness manager the provider refers to and [Some am] for one it no
    longer refers to, [am] being that object's fields at the moment. *)
Inductive ProviderEvent `{External} : Type :=
| CallConnect (outcome : Outcome) (rnd : Q)
| CallDisconnect
| CallDestroy
| DocUpdate (update : bytes) (origin : Origin)
| HostChanges (d : DocState) (a : AwarenessState)
| IntervalFires (past : option AwarenessMgr)
| AwarenessUpdated (past : option AwarenessMgr) (added updated removed : list Z)
| TimerFires (timer : nat) (outcome : Outcome) (rnd : Q)
| ClosedFulfilled (tid : nat) (closeInfo : CloseInfo) (rnd : Q)
| ClosedRejected (tid : nat) (rnd : Q)
| StreamReadFails (rnd : Q)
| StreamChunk (rnd : Q) (value : bytes)
| DatagramArrives (value : bytes).

(** One event; [now] is the reading of [Date.now()] while it is handled. *)
Definition providerStep `{External} (now : Z) (ev : ProviderEvent) (w : World) : World :=
  let handlers := WebTransportProvider.handlers now in
  match ev with
  | CallConnect outcome rnd => snd (WebTransportProvider.connect now outcome rnd w)
  | CallDisconnect => WebTransportProvider.disconnect now w
  | CallDestroy => WebTransportProvider.destroy now w
  | DocUpdate update origin => WebTransportProvider.docUpdateEvent update origin w
  | HostChanges d a =>
      with_host
        (fun h =>
           {| supported := supported h; fresh := fresh h; timers := timers h;
              intervals := intervals h; closedHandlers := closedHandlers h;
              docObservers := docObservers h; readBuffer := readBuffer h;
              doc := d; awareness := a |}) w
  | IntervalFires None =>
      WebTransportProvider.with_am
        (fun am w =>
           match intervalId am with
           | Some _ => AwarenessManager.broadcastLocalStateDatagram am w
           | None => (am, w)
           end) w
  | IntervalFires (Some am) => snd (AwarenessManager.broadcastLocalStateDatagram am w)
  | AwarenessUpdated None added updated removed =>
      WebTransportProvider.with_am
        (AwarenessManager.localAwarenessUpdate added updated removed) w
  | AwarenessUpdated (Some am) added updated removed =>
      snd (AwarenessManager.localAwarenessUpdate added updated removed am w)
  | TimerFires timer outcome rnd => ConnectionManager.timerFires handlers timer outcome rnd w
  | ClosedFulfilled tid closeInfo rnd =>
      ConnectionManager.closedFulfilled handlers tid closeInfo rnd w
  | ClosedRejected tid rnd => ConnectionManager.closedRejected handlers tid rnd w
  | StreamReadFails rnd => ConnectionManager.streamReadFails handlers rnd w
  | StreamChunk rnd value => ConnectionManager.streamChunk handlers rnd value w
  | DatagramArrives value => ConnectionManager.datagramArrives handlers value w
  end.

(** A sequence of events, each with its clock reading. *)
Definition providerRun `{External} (evs : list (Z * ProviderEvent)) (w : World) : World :=
  fold_left (fun w ev => providerStep (fst ev) (snd ev) w) evs w.

(** [quiet w w']: going from [w] to [w'] left the connection manager's fields
    and the provider's destroyed flag alone, opened no transport, armed no
    reconnect timer, sent nothing unless a writer or transport is held, left
    the armed timers and the close handlers as they were, and only added to
    the trace. *)
Definition quiet `{External} (w w' : World) : Prop :=
  mgr w' = mgr w /\
  p_destroyed (prov w') = p_destroyed (prov w) /\
  opens w' = opens w /\
  timeoutsArmed w' = timeoutsArmed w /\
  (syncWriter (mgr w) = None -> transport (mgr w) = None -> sends w' = sends w) /\
  timers (host w') = timers (host w) /\
  closedHandlers (host w') = closedHandlers (host w) /\
  exists es, trace w' = trace w ++ es.

(** [steady w w']: the options of the manager and the two destroyed flags are
    kept, the four handles are as before, all unset, or all set to one
    transport, and the retry counter stays within its bound. *)
Definition steady `{External} (w w' : World) : Prop :=
  maxReconnectAttempts (mgr w') = maxReconnectAttempts (mgr w) /\
  reconnectBaseDelay (mgr w') = reconnectBaseDelay (mgr w) /\
  reconnectMaxDelay (mgr w') = reconnectMaxDelay (mgr w) /\
  callbacks (mgr w') = callbacks (mgr w) /\
  destroyed (mgr w') = destroyed (mgr w) /\
  p_destroyed (prov w') = p_destroyed (prov w) /\
  (handlesTogether (mgr w) -> handlesTogether (mgr w')) /\
  (retriesBounded (mgr w) -> retriesBounded (mgr w')).

(** [inert w w']: from a closed-down manager, the step leaves it closed down
    and opens, arms and sends nothing. *)
Definition inert `{External} (w w' : World) : Prop :=
  closedDown w ->
  closedDown w' /\ opens w' = opens w /\ timeoutsArmed w' = timeoutsArmed w /\
  sends w' = sends w.

(** What holds of a provider between any two events: the handles are held
    together, the retry counter is within its bound, and a destroyed provider
    has a closed-down manager. *)
Definition settled `{External} (w : World) : Prop :=
  handlesTogether (mgr w) /\ retriesBounded (mgr w) /\
  (p_destroyed (prov w) = true -> closedDown w).

(** * Theorems *)

Example frame_abc :
  Encoding.readFramedMessages (x00 :: x03 :: [x61; x62; x63]) = ([[x61; x62; x63]], []).
Proof. reflexivity. Qed.

Example varuint_300 : Lib0.writeVarUint 300 = [xac; x02].
Proof. reflexivity. Qed.

Example sampleConnected_trace :
  trace sampleConnected =
    [DocOn 1; OnStatusChange connecting; EmitStatus connecting; NewWebTransport 2;
     CreateBidirectionalStream 2; StreamWrite 2 [x01]; OnStatusChange connected;
     AwarenessOnUpdate; StreamWrite 2 [x00; x04; x00; x00; x01; x00];
     SetInterval 3 50; StreamWrite 2 [x00; x02; x03; x00]; EmitStatus connected].
Proof. vm_compute. reflexivity. Qed.

Example sampleSynced_state :
  _synced (prov sampleSynced) = true /\ _connected (prov sampleSynced) = true /\
  ConnectionManager.get_connected sampleSynced = true.
Proof. vm_compute. auto. Qed.

(** ** Bytes *)

Lemma byte_to_Z_u8 (z : Z) : byte_to_Z (u8 z) = z mod 256.
Proof.
  unfold byte_to_Z, u8.
  assert (Hr : 0 <= z mod 256 < 256) by (apply Z.mod_pos_bound; lia).
  destruct (Byte.of_N (Z.to_N (z mod 256))) as [b|] eqn:E.
  - apply Byte.to_of_N in E. rewrite E. lia.
  - apply Byte.of_N_None_iff in E. lia.
Qed.

(** The two length bytes put back together give the length. *)
Lemma length_prefix_decodes (n : Z) :
  0 <= n <= 65535 ->
  Z.lor (Z.shiftl (byte_to_Z (u8 (Z.land (Z.shiftr n 8) 255))) 8)
        (byte_to_Z (u8 (Z.land n 255))) = n.
Proof.
  intros Hn.
  rewrite !byte_to_Z_u8.
  change 255 with (Z.ones 8). rewrite !Z.land_ones by lia.
  change 256 with (2 ^ 8). rewrite !Z.mod_mod by lia.
  rewrite Z.shiftr_div_pow2 by lia.
  rewrite (Z.mod_small (n / 2 ^ 8)).
  2:{ split; [apply Z.div_pos; lia | apply Z.div_lt_upper_bound; lia]. }
  rewrite Z.shiftl_mul_pow2 by lia.
  rewrite <- Z.add_nocarry_lor.
  - pose proof (Z.div_mod n (2 ^ 8)). lia.
  - apply Z.bits_inj'. intros i Hi.
    rewrite Z.land_spec, Z.bits_0.
    destruct (Z.ltb_spec i 8).
    + rewrite Z.mul_pow2_bits_low by lia. reflexivity.
    + rewrite (Z.mod_pow2_bits_high n 8 i) by lia. apply andb_false_r.
Qed.

(** ** Framing *)

#[local] Arguments slice : simpl never.
#[local] Arguments slice_from : simpl never.

Lemma slice_after_prefix (b0 b1 : byte) (p : bytes) :
  slice (b0 :: b1 :: p) 2 (S (S (List.length p))) = p.
Proof.
  unfold slice. simpl. rewrite Nat.sub_0_r. apply firstn_all.
Qed.

Lemma slice_from_end (b0 b1 : byte) (p : bytes) :
  slice_from (b0 :: b1 :: p) (S (S (List.length p))) = [].
Proof.
  unfold slice_from. simpl. apply skipn_all.
Qed.

(** C8: a payload of at most 65,535 bytes is framed, and reading the framed
    bytes back gives that payload as the only message and nothing left over:
    readFramedMessages(frameMessage(p)) = ([p], []). *)
Theorem readFramedMessages_frameMessage (p : bytes) :
  Z.of_nat (List.length p) <= 65535 ->
  exists framed,
    Encoding.frameMessage p = Return framed /\
    Encoding.readFramedMessages framed = ([p], []).
Proof.
  intros Hp.
  set (n := Z.of_nat (List.length p)).
  exists (u8 (Z.land (Z.shiftr n 8) 255) :: u8 (Z.land n 255) :: p).
  split.
  - unfold Encoding.frameMessage. fold n.
    destruct (Z.gtb_spec n 65535) as [Hgt|_]; [subst n; lia | reflexivity].
  - unfold Encoding.readFramedMessages.
    assert (Hdec : Z.to_nat (Z.lor (Z.shiftl (byte_to_Z (u8 (Z.land (Z.shiftr n 8) 255))) 8)
                               (byte_to_Z (u8 (Z.land n 255)))) = List.length p).
    { rewrite length_prefix_decodes by (subst n; lia). subst n. apply Nat2Z.id. }
    simp readFramedLoop. cbn [List.length Nat.add].
    destruct (le_dec 2 _) as [Hhdr|Hno]; [|lia].
    cbn [Encoding.readFramedLoop_unfold_clause_1 List.app Nat.add].
    unfold byte_at. cbn [nth]. rewrite Hdec.
    cbn [List.length].
    destruct (le_dec _ _) as [Hbody|Hno]; [|lia].
    simp readFramedLoop. cbn [List.length Nat.add].
    destruct (le_dec _ _) as [Hyes|Hno]; [lia|].
    cbn [Encoding.readFramedLoop_unfold_clause_1].
    rewrite slice_after_prefix, slice_from_end. reflexivity.
Qed.

Lemma readFramedMessages_frameMessage_witness :
  exists framed,
    Encoding.frameMessage [x68; x69] = Return framed /\
    Encoding.readFramedMessages framed = ([[x68; x69]], []).
Proof.
  apply (readFramedMessages_frameMessage [x68; x69]). simpl. lia.
Defined.

(** [frameMessage] refuses every payload longer than 65,535 bytes. *)
Lemma frameMessage_too_large (p : bytes) :
  65535 < Z.of_nat (List.length p) ->
  Encoding.frameMessage p = Throw (MessageTooLarge (Z.of_nat (List.length p))).
Proof.
  intros Hp. unfold Encoding.frameMessage.
  destruct (Z.gtb_spec (Z.of_nat (List.length p)) 65535); [reflexivity | lia].
Qed.

(** ** Sending on the stream *)
Section Sending.
Context `{External}.

(** With a writer in hand [sendSyncMessage] writes one chunk, whatever the
    length of the data; nothing else in the world changes. *)
Lemma sendSyncMessage_writes (data : bytes) (w : World) (stream : nat) :
  syncWriter (mgr w) = Some stream ->
  ConnectionManager.sendSyncMessage data w =
    emit (StreamWrite stream
            (u8 (Z.land (Z.shiftr (Z.of_nat (List.length data)) 8) 255)
               :: u8 (Z.land (Z.of_nat (List.length data)) 255) :: data)) w.
Proof.
  intros Hw. unfold ConnectionManager.sendSyncMessage. rewrite Hw. reflexivity.
Qed.

Lemma sendSyncMessage_keeps_connection (data : bytes) (w : World) :
  mgr (ConnectionManager.sendSyncMessage data w) = mgr w /\
  host (ConnectionManager.sendSyncMessage data w) = host w /\
  prov (ConnectionManager.sendSyncMessage data w) = prov w.
Proof.
  unfold ConnectionManager.sendSyncMessage.
  destruct (syncWriter (mgr w)); auto.
Qed.

End Sending.

(** C1 (the code departs from the claim): [frameMessage] refuses the 70,000
    byte payload, but [sendSyncMessage] on the connected manager does not
    call it: it raises nothing and writes the payload behind the two low
    bytes of its length (0x11, 0x70 for 0x11170), a prefix that announces a
    frame of 4,464 bytes. The connection itself stays as it was. *)
Theorem sendSyncMessage_oversize_not_refused :
  Encoding.frameMessage payload70k = Throw (MessageTooLarge 70000) /\
  ConnectionManager.get_connected sampleConnected = true /\
  ConnectionManager.sendSyncMessage payload70k sampleConnected =
    emit (StreamWrite 2 (x11 :: x70 :: payload70k)) sampleConnected /\
  Z.lor (Z.shiftl (byte_to_Z x11) 8) (byte_to_Z x70) = 4464.
Proof.
  assert (Hlen : Z.of_nat (List.length payload70k) = 70000).
  { unfold payload70k. rewrite repeat_length. apply Z2Nat.id. lia. }
  split; [|split; [|split]].
  - unfold Encoding.frameMessage. rewrite Hlen. reflexivity.
  - vm_compute. reflexivity.
  - rewrite (sendSyncMessage_writes payload70k sampleConnected 2) by reflexivity.
    rewrite Hlen. reflexivity.
  - reflexivity.
Qed.

(** ** The provider's stream-message and document handlers *)

(** C10: an empty frame handed to [handleSyncMessage] leaves the world as it
    is (no dispatch on a type byte, nothing sent, nothing emitted), and so
    does the read loop when the two bytes 0x00 0x00, a frame of length zero,
    arrive on an empty buffer. *)
Theorem handleSyncMessage_empty `{External} (now : Z) (rnd : Q) (w : World) :
  WebTransportProvider.handleSyncMessage [] w = w /\
  ConnectionManager.streamChunk (WebTransportProvider.handlers now) rnd [x00; x00]
    (with_host (set_readBuffer []) w) = with_host (set_readBuffer []) w.
Proof.
  split; [reflexivity|].
  unfold ConnectionManager.streamChunk.
  cbn [readBuffer host with_host set_readBuffer List.app].
  rewrite ConnectionManager.deliverFrames_equation_1. cbn [List.length].
  destruct (le_dec 2 2) as [Hle|Hno]; [|lia].
  cbn [ConnectionManager.deliverFrames_unfold_clause_1].
  change (byte_at [x00; x00] 0) with 0. change (byte_at [x00; x00] 1) with 0.
  change (Z.to_nat (Z.lor (Z.shiftl 0 8) 0)) with 0%nat.
  destruct (lt_dec 2 (2 + 0)) as [Hlt|Hge]; [lia|].
  change (slice_from [x00; x00] (2 + 0)) with (@nil byte).
  change (slice [x00; x00] 2 (2 + 0)) with (@nil byte).
  assert (Hreturns : ConnectionManager.onSyncMessage_throws (WebTransportProvider.handlers now)
                       [] (with_host (set_readBuffer []) w) = false)
    by (unfold ConnectionManager.onSyncMessage_throws; apply andb_false_r).
  assert (Hsame : ConnectionManager.onSyncMessage (WebTransportProvider.handlers now)
                    [] (with_host (set_readBuffer []) w) = with_host (set_readBuffer []) w)
    by (unfold ConnectionManager.onSyncMessage;
        destruct (callbacks (mgr (with_host (set_readBuffer []) w))); reflexivity).
  cbv zeta. rewrite Hreturns, Hsame.
  rewrite ConnectionManager.deliverFrames_equation_1. cbn [List.length].
  destruct (le_dec 2 0) as [Hle'|Hno']; [lia|].
  cbn [ConnectionManager.deliverFrames_unfold_clause_1].
  reflexivity.
Qed.

Section DocUpdates.
Context `{External}.

(** An update whose origin is the provider produces nothing. *)
Lemma handleDocUpdate_own_origin (update : bytes) (w : World) :
  WebTransportProvider.handleDocUpdate update ThisProvider w = w.
Proof. reflexivity. Qed.

(** While the provider is not connected nothing is written to the stream. *)
Lemma handleDocUpdate_not_connected (update : bytes) (origin : Origin) (w : World) :
  _connected (prov w) = false ->
  WebTransportProvider.handleDocUpdate update origin w = w \/
  WebTransportProvider.handleDocUpdate update origin w = emit DebugQueuingUpdate w.
Proof.
  intros Hc. unfold WebTransportProvider.handleDocUpdate. rewrite Hc.
  destruct (is_this origin); auto.
Qed.

(** Connected, with a writer: one chunk, holding the tag 0x02, then the
    var-uint length of the update, then the update. *)
Lemma handleDocUpdate_message (update : bytes) (tag : nat) (w : World) (stream : nat) :
  _connected (prov w) = true ->
  syncWriter (mgr w) = Some stream ->
  exists prefix,
    trace (WebTransportProvider.handleDocUpdate update (OtherOrigin tag) w) =
      trace w ++ [StreamWrite stream
                    (prefix ++ x02 :: Lib0.writeVarUint (Z.of_nat (List.length update)) ++ update)]
    /\ List.length prefix = 2%nat.
Proof.
  intros Hc Hw. unfold WebTransportProvider.handleDocUpdate.
  cbn [is_this]. rewrite Hc. cbn [negb].
  rewrite (sendSyncMessage_writes _ w stream Hw).
  eexists [_; _]. split; [|reflexivity].
  cbn [trace emit List.app]. reflexivity.
Qed.

Lemma writeVarUint_nonempty (num : Z) : Lib0.writeVarUint num <> [].
Proof.
  simp writeVarUint. destruct (Z_gt_dec num 127); discriminate.
Qed.

End DocUpdates.

(** C2 (the code departs from the claim): on the connected sample provider a
    local update [aa bb] from another origin is sent as one frame, but the
    frame's payload is 02 02 aa bb: between the tag 0x02 and the update
    bytes [handleDocUpdate] writes the update's length. The payload the claim
    describes, and that [encodeUpdate] builds and [handleRemoteUpdate]
    expects, is 02 aa bb. *)
Theorem handleDocUpdate_adds_length_byte :
  WebTransportProvider.docUpdateEvent [xaa; xbb] (OtherOrigin 0) sampleConnected =
    emit (StreamWrite 2 ([x00; x04] ++ [x02; x02; xaa; xbb])) sampleConnected /\
  Encoding.encodeUpdate [xaa; xbb] = [x02; xaa; xbb].
Proof.
  split; vm_compute; reflexivity.
Qed.

(** ** The reconnect policy *)

#[local] Arguments ConnectionManager.reconnectDelay : simpl never.

Section Reconnect.
Context `{External}.
Variable now : Z.

Let handlers := WebTransportProvider.handlers now.

(** What [scheduleReconnect] does below the limit: the status report (when
    the callback is set), the counter, the timer, whatever its delay. *)
Lemma scheduleReconnect_below_limit (rnd : Q) (w : World) :
  Z.of_nat (reconnectAttempts (mgr w)) < maxReconnectAttempts (mgr w) ->
  let delay :=
    ConnectionManager.reconnectDelay (reconnectBaseDelay (mgr w))
      (reconnectMaxDelay (mgr w)) (reconnectAttempts (mgr w)) rnd in
  let w' := ConnectionManager.scheduleReconnect handlers rnd w in
  reconnectAttempts (mgr w') = S (reconnectAttempts (mgr w)) /\
  reconnectTimeout (mgr w') = Some (fresh (host w)) /\
  timers (host w') = timers (host w) ++ [fresh (host w)] /\
  fresh (host w') = S (fresh (host w)) /\
  trace w' =
    trace w
    ++ (if callbacks (mgr w)
        then [OnStatusChange reconnecting; EmitStatus reconnecting] else [])
    ++ [SetTimeout (fresh (host w)) delay].
Proof.
  intros Hlt delay w'. subst delay w'.
  unfold ConnectionManager.scheduleReconnect.
  rewrite Z.geb_leb.
  destruct (Z.leb_spec (maxReconnectAttempts (mgr w)) (Z.of_nat (reconnectAttempts (mgr w))))
    as [Hle|_]; [lia|].
  unfold ConnectionManager.onStatusChange.
  destruct (callbacks (mgr w)) eqn:Hcb.
  - cbn. rewrite <- !app_assoc. auto.
  - cbn. auto.
Qed.

End Reconnect.

(** ** A transport that never opens *)

Section NeverOpens.
Context `{External}.
Variable now : Z.

Let handlers := WebTransportProvider.handlers now.

(** One failed [connect()] below the limit: one more transport was opened
    and one timer is armed. *)
Lemma connect_fails_below_limit (n k : nat) (rnd : Q) (w : World) :
  retrying n k w -> (k < n)%nat ->
  let w' := snd (ConnectionManager.connect handlers ReadyRejects rnd w) in
  retrying n (S k) w' /\
  opens w' = S (opens w) /\
  timers (host w') = timers (host w) ++ [S (fresh (host w))].
Proof.
  intros (Hd & Hs & Hm & Hk) Hlt w'. subst w'.
  destruct w as [[tr ss sw sr ra mx bd md rt de cb] p h t].
  cbn in Hd, Hs, Hm, Hk. subst de mx ra.
  unfold ConnectionManager.connect. cbn [mgr host destroyed]. rewrite Hs. cbn [negb].
  unfold ConnectionManager.handleError, ConnectionManager.cleanup,
    ConnectionManager.scheduleReconnect, ConnectionManager.onStatusChange,
    ConnectionManager.onError.
  destruct cb, sw, sr; cbn; rewrite Z.geb_leb;
    (destruct (Z.leb_spec (Z.of_nat n) (Z.of_nat k)) as [Hle|_]; [lia|]);
    unfold retrying, opens; cbn;
    rewrite ?List.filter_app, ?length_app; cbn;
    repeat split; auto; lia.
Qed.

(** One failed [connect()] at the limit: one more transport was opened and
    no timer is armed. *)
Lemma connect_fails_at_limit (n k : nat) (rnd : Q) (w : World) :
  retrying n k w -> (n <= k)%nat ->
  let w' := snd (ConnectionManager.connect handlers ReadyRejects rnd w) in
  retrying n k w' /\
  opens w' = S (opens w) /\
  timers (host w') = timers (host w).
Proof.
  intros (Hd & Hs & Hm & Hk) Hlt w'. subst w'.
  destruct w as [[tr ss sw sr ra mx bd md rt de cb] p h t].
  cbn in Hd, Hs, Hm, Hk. subst de mx ra.
  unfold ConnectionManager.connect. cbn [mgr host destroyed]. rewrite Hs. cbn [negb].
  unfold ConnectionManager.handleError, ConnectionManager.cleanup,
    ConnectionManager.scheduleReconnect, ConnectionManager.onStatusChange,
    ConnectionManager.onError.
  destruct cb, sw, sr; cbn; rewrite Z.geb_leb;
    (destruct (Z.leb_spec (Z.of_nat n) (Z.of_nat k)) as [_|Hgt]; [|lia]);
    unfold retrying, opens; cbn;
    rewrite ?List.filter_app, ?length_app; cbn;
    repeat split; auto; lia.
Qed.

Lemma failingLoop_idle (turns : nat) (rnds : nat -> Q) (w : World) :
  timers (host w) = [] -> failingLoop handlers turns rnds w = w.
Proof.
  intros Ht. destruct turns; cbn [failingLoop]; [reflexivity|].
  rewrite Ht. reflexivity.
Qed.

(** Firing the only armed timer disarms it and calls [connect()]. *)
Lemma timerFires_only_timer (timer : nat) (rnd : Q) (w : World) :
  timers (host w) = [timer] ->
  ConnectionManager.timerFires handlers timer ReadyRejects rnd w =
    snd (ConnectionManager.connect handlers ReadyRejects rnd
           (with_host (set_timers []) w)).
Proof.
  intros Ht. unfold ConnectionManager.timerFires. rewrite Ht.
  cbn [existsb remove List.filter]. rewrite Nat.eqb_refl. reflexivity.
Qed.

Lemma retrying_disarmed (n k : nat) (w : World) :
  retrying n k w -> retrying n k (with_host (set_timers []) w).
Proof. intros Hr. exact Hr. Qed.

(** From a state with [k] reconnects made and one timer armed, the loop
    opens the transport [n - k] more times with a new timer each time, once
    more without, and then has nothing left to fire. *)
Lemma failingLoop_runs_out (n d : nat) :
  forall (k turns : nat) (rnds : nat -> Q) (w : World) (timer : nat),
    retrying n k w -> timers (host w) = [timer] ->
    (k + d = n)%nat -> (d < turns)%nat ->
    let w' := failingLoop handlers turns rnds w in
    opens w' = (opens w + d + 1)%nat /\ timers (host w') = [] /\ retrying n n w'.
Proof.
  induction d as [|d IH]; intros k turns rnds w timer Hr Ht Hk Hturns w'; subst w';
    (destruct turns as [|turns]; [lia|]);
    cbn [failingLoop]; rewrite Ht;
    rewrite (timerFires_only_timer timer _ w Ht).
  - assert (k = n) by lia. subst k.
    destruct (connect_fails_at_limit n n (rnds turns) _ (retrying_disarmed n n w Hr))
      as (Hr' & Ho & Htm); [lia|].
    cbn [timers host with_host set_timers] in Htm.
    rewrite failingLoop_idle by exact Htm.
    split; [|split]; [|exact Htm|exact Hr'].
    rewrite Ho. unfold opens. cbn [trace with_host]. lia.
  - destruct (connect_fails_below_limit n k (rnds turns) _ (retrying_disarmed n k w Hr))
      as (Hr' & Ho & Htm); [lia|].
    cbn [timers host with_host set_timers List.app] in Htm.
    destruct (IH (S k) turns rnds _ _ Hr' Htm) as (Ho' & Htm' & Hr''); [lia|lia|].
    split; [|split]; [|exact Htm'|exact Hr''].
    rewrite Ho', Ho. unfold opens. cbn [trace with_host]. lia.
Qed.

(** C6: a manager that is not destroyed, allows [n] reconnects and has no
    timer armed calls [connect()] on a transport that never opens. However
    many further turns the timer loop is given ([n] and any [extra]), the
    transport is opened [n + 1] times in all (the first attempt and [n]
    reconnects); after that no timer is armed, the counter stands at the
    limit, and the loop does nothing more. *)
Theorem never_opening_transport_attempts
  (n extra : nat) (rnd0 : Q) (rnds : nat -> Q) (w : World) :
  retrying n 0 w -> timers (host w) = [] ->
  let w' :=
    failingLoop (WebTransportProvider.handlers now) (n + extra) rnds
      (snd (ConnectionManager.connect (WebTransportProvider.handlers now)
              ReadyRejects rnd0 w)) in
  opens w' = (opens w + (n + 1))%nat /\
  timers (host w') = [] /\
  reconnectAttempts (mgr w') = n /\
  forall more rnds',
    failingLoop (WebTransportProvider.handlers now) more rnds' w' = w'.
Proof.
  intros Hr Ht w'. subst w'. fold handlers.
  destruct n as [|n].
  - destruct (connect_fails_at_limit 0 0 rnd0 w Hr) as (Hr' & Ho & Htm); [lia|].
    rewrite Ht in Htm.
    rewrite (failingLoop_idle _ _ _ Htm).
    split; [|split; [|split]].
    + rewrite Ho. lia.
    + exact Htm.
    + apply Hr'.
    + intros more rnds'. apply failingLoop_idle. exact Htm.
  - destruct (connect_fails_below_limit (S n) 0 rnd0 w Hr) as (Hr' & Ho & Htm); [lia|].
    rewrite Ht in Htm. cbn [List.app] in Htm.
    destruct (failingLoop_runs_out (S n) n 1 (S n + extra) rnds _ _ Hr' Htm)
      as (Ho' & Htm' & Hr''); [lia|lia|].
    split; [|split; [|split]].
    + rewrite Ho', Ho. lia.
    + exact Htm'.
    + apply Hr''.
    + intros more rnds'. apply failingLoop_idle. exact Htm'.
Qed.

End NeverOpens.

Lemma never_opening_transport_attempts_witness :
  let w' :=
    failingLoop (WebTransportProvider.handlers 0) (3 + 5) (fun _ => 1 # 2)
      (snd (ConnectionManager.connect (WebTransportProvider.handlers 0)
              ReadyRejects (1 # 2) sampleRetry3)) in
  opens w' = (opens sampleRetry3 + (3 + 1))%nat /\
  timers (host w') = [] /\
  reconnectAttempts (mgr w') = 3%nat /\
  forall more rnds',
    failingLoop (WebTransportProvider.handlers 0) more rnds' w' = w'.
Proof.
  apply (@never_opening_transport_attempts sampleExternal 0 3 5 (1 # 2) (fun _ => 1 # 2)
           sampleRetry3).
  - repeat split.
  - reflexivity.
Defined.

Example sampleRetry3_opens_four_times :
  opens (failingLoop (WebTransportProvider.handlers 0) 20 (fun _ => 1 # 2)
           (snd (ConnectionManager.connect (WebTransportProvider.handlers 0)
                   ReadyRejects (1 # 2) sampleRetry3))) = 4%nat.
Proof. vm_compute. reflexivity. Qed.

(** ** Losing the connection *)

Section LosingConnection.
Context `{External}.
Variable now : Z.

Let handlers := WebTransportProvider.handlers now.

(** The close path: the manager reports [disconnected], and a provider that
    was connected clears [synced] and emits [synced(false)]. *)
Lemma handleClose_reports_disconnected (closeInfo : CloseInfo) (rnd : Q) (w : World) :
  callbacks (mgr w) = true -> _connected (prov w) = true ->
  let w' := ConnectionManager.handleClose handlers closeInfo rnd w in
  _synced (prov w') = false /\ _connected (prov w') = false /\
  exists before after,
    trace w' =
      trace w ++ before
      ++ [OnStatusChange disconnected; EmitSynced false; EmitStatus disconnected]
      ++ after.
Proof.
  intros Hcb Hc w'. subst w'.
  destruct w as [[tr ss sw sr ra mx bd md rt de cb] [sy co pd am ua ai] h t].
  cbn in Hcb, Hc. subst cb co.
  unfold ConnectionManager.handleClose, ConnectionManager.cleanup,
    ConnectionManager.scheduleReconnect, ConnectionManager.onStatusChange,
    ConnectionManager.onClose.
  destruct sw, sr, de; cbn;
    try (rewrite Z.geb_leb; destruct (Z.leb_spec mx (Z.of_nat ra)); cbn);
    (split; [reflexivity|]); (split; [reflexivity|]);
    rewrite <- ?app_assoc; cbn [List.app];
    repeat match goal with
      | |- exists before after, ?t ++ ?l = ?t ++ before ++ _ =>
          first
            [ exists [], [] ; reflexivity
            | eexists [_], _ ; cbn [List.app]; reflexivity
            | eexists [_; _], _ ; cbn [List.app]; reflexivity
            | eexists [_; _; _], _ ; cbn [List.app]; reflexivity
            | eexists [_; _; _; _], _ ; cbn [List.app]; reflexivity ]
      end.
Qed.

(** The error path never touches [synced]. *)
Lemma handleError_keeps_synced (rnd : Q) (w : World) :
  _synced (prov (ConnectionManager.handleError handlers rnd w)) = _synced (prov w).
Proof.
  destruct w as [[tr ss sw sr ra mx bd md rt de cb] [sy co pd am ua ai] h t].
  unfold ConnectionManager.handleError, ConnectionManager.cleanup,
    ConnectionManager.scheduleReconnect, ConnectionManager.onStatusChange,
    ConnectionManager.onError.
  destruct sw, sr, de, cb; cbn;
    try (rewrite Z.geb_leb; destruct (Z.leb_spec mx (Z.of_nat ra)); cbn);
    reflexivity.
Qed.

End LosingConnection.

(** C3 (the code departs from the claim on the error path): the sample
    provider is connected and synced when a read on the stream fails, or when
    the transport's [closed] promise is rejected. [handleError] cleans up and
    schedules a reconnect, so the only status reported is [reconnecting]:
    [disconnected] is never reported, [synced] stays true and no
    [synced(false)] is emitted. [handleClose], on the same state, reports
    [disconnected] and the provider emits [synced(false)]. *)
Theorem error_path_skips_disconnected :
  let handlers := WebTransportProvider.handlers 0 in
  let failed := ConnectionManager.streamReadFails handlers (1 # 2) sampleSynced in
  let rejected := ConnectionManager.closedRejected handlers 2 (1 # 2) sampleSynced in
  let closed :=
    ConnectionManager.closedFulfilled handlers 2
      {| closeCode := Some 1001; reason := None |} (1 # 2) sampleSynced in
  _connected (prov sampleSynced) = true /\ _synced (prov sampleSynced) = true /\
  ConnectionManager.get_connected failed = false /\
  _synced (prov failed) = true /\
  added sampleSynced failed =
    [ReleaseWriterLock 2; ReleaseReaderLock 2; OnError; EmitConnectionError;
     OnStatusChange reconnecting; EmitStatus reconnecting; SetTimeout 4 (3000 # 2)] /\
  _synced (prov rejected) = true /\
  added sampleSynced rejected = added sampleSynced failed /\
  _synced (prov closed) = false /\
  added sampleSynced closed =
    [ReleaseWriterLock 2; ReleaseReaderLock 2; OnClose 1001 ""; EmitConnectionClose 1001 "";
     OnStatusChange disconnected; EmitSynced false; EmitStatus disconnected;
     OnStatusChange reconnecting; EmitStatus reconnecting; SetTimeout 4 (3000 # 2)].
Proof.
  vm_compute. repeat split.
Qed.

(** ** Disconnecting *)

Section Disconnecting.
Context `{External}.
Variable now : Z.

Let handlers := WebTransportProvider.handlers now.

(** [disconnect()] itself: the pending timer is cancelled, an open
    transport is asked to close with code 1000 and reason
    ["Client disconnect"], the locks are released and the handles cleared,
    [disconnected] is reported when the callback is set, and no timer is
    armed. *)
Lemma disconnect_itself (w : World) :
  let w' := ConnectionManager.disconnect handlers w in
  reconnectTimeout (mgr w') = None /\
  transport (mgr w') = None /\ syncWriter (mgr w') = None /\
  syncReader (mgr w') = None /\
  reconnectAttempts (mgr w') = reconnectAttempts (mgr w) /\
  timers (host w') =
    match reconnectTimeout (mgr w) with
    | Some timer => remove timer (timers (host w))
    | None => timers (host w)
    end /\
  trace w' =
    trace w
    ++ match reconnectTimeout (mgr w) with Some timer => [ClearTimeout timer] | None => [] end
    ++ match transport (mgr w) with
       | Some tid => [TransportClose tid 1000 "Client disconnect"]
       | None => []
       end
    ++ match syncWriter (mgr w) with Some s => [ReleaseWriterLock s] | None => [] end
    ++ match syncReader (mgr w) with Some s => [ReleaseReaderLock s] | None => [] end
    ++ (if callbacks (mgr w)
        then OnStatusChange disconnected
               :: (if _connected (prov w) then [EmitSynced false] else [])
               ++ [EmitStatus disconnected]
        else []).
Proof.
  destruct w as [[tr ss sw sr ra mx bd md rt de cb] [sy co pd am ua ai] h t].
  destruct rt, tr, sw, sr, cb, co; lazy -[List.app remove];
    rewrite <- ?app_assoc, ?app_nil_r; cbn [List.app]; repeat split.
Qed.

End Disconnecting.

(** C4 (the code departs from the claim): [disconnect()] on the connected,
    not destroyed sample manager asks the transport to close with code 1000
    and reason ["Client disconnect"], reports [disconnected] and arms no
    timer. But the handler that [connect()] left on the transport's [closed]
    promise is still there: when the close completes it runs [handleClose],
    and the manager is not destroyed, so a reconnect is scheduled; when that
    timer expires the transport is opened again. The same timer is armed if
    the promise is rejected instead, or if the pending stream read fails. *)
Theorem disconnect_is_followed_by_reconnect :
  let handlers := WebTransportProvider.handlers 0 in
  let w1 := ConnectionManager.disconnect handlers sampleConnected in
  let w2 :=
    ConnectionManager.closedFulfilled handlers 2
      {| closeCode := Some 1000; reason := Some "Client disconnect"%string |} (1 # 2) w1 in
  let w3 := ConnectionManager.timerFires handlers 4 Opens (1 # 2) w2 in
  destroyed (mgr sampleConnected) = false /\
  added sampleConnected w1 =
    [TransportClose 2 1000 "Client disconnect"; ReleaseWriterLock 2; ReleaseReaderLock 2;
     OnStatusChange disconnected; EmitSynced false; EmitStatus disconnected] /\
  timers (host w1) = [] /\
  closedHandlers (host w1) = [2%nat] /\
  added w1 w2 =
    [OnClose 1000 "Client disconnect"; EmitConnectionClose 1000 "Client disconnect";
     OnStatusChange disconnected; EmitStatus disconnected;
     OnStatusChange reconnecting; EmitStatus reconnecting; SetTimeout 4 (3000 # 2)] /\
  reconnectTimeout (mgr w2) = Some 4%nat /\
  timers (host w2) = [4%nat] /\
  opens w2 = 1%nat /\ opens w3 = 2%nat /\
  ConnectionManager.get_connected w3 = true /\
  timers (host (ConnectionManager.closedRejected handlers 2 (1 # 2) w1)) = [4%nat] /\
  timers (host (ConnectionManager.streamReadFails handlers (1 # 2) w1)) = [4%nat].
Proof.
  vm_compute. repeat split.
Qed.

(** ** Awareness datagrams *)

Section Datagrams.
Context `{External}.

(** Fewer than eight bytes: decoding throws, the [catch] logs, the manager
    and the awareness object are left alone. *)
Lemma handleDatagram_too_short (data : bytes) (now : Z) (am : AwarenessMgr) (w : World) :
  (List.length data < 8)%nat ->
  AwarenessManager.handleDatagram data now am w =
    (am, emit (DebugDatagramParseFailed DatagramTooShort) w).
Proof.
  intros Hlen. unfold AwarenessManager.handleDatagram, Encoding.decodeAwarenessDatagram.
  destruct (Nat.ltb_spec (List.length data) 8); [reflexivity | lia].
Qed.

(** A datagram of the local client is dropped. *)
Lemma handleDatagram_own (data : bytes) (now : Z) (am : AwarenessMgr) (w : World) :
  (8 <= List.length data)%nat ->
  Encoding.getUint32 data 0 = clientID (awareness (host w)) ->
  AwarenessManager.handleDatagram data now am w = (am, w).
Proof.
  intros Hlen Hid. unfold AwarenessManager.handleDatagram, Encoding.decodeAwarenessDatagram.
  destruct (Nat.ltb_spec (List.length data) 8); [lia|].
  cbn [Encoding.clientId]. rewrite Hid, Z.eqb_refl. reflexivity.
Qed.

(** A clock not above the recorded one (0 when none is recorded): dropped. *)
Lemma handleDatagram_stale (data : bytes) (now : Z) (am : AwarenessMgr) (w : World) :
  (8 <= List.length data)%nat ->
  Encoding.getUint32 data 4 <= default 0 (remoteClocks am !! Encoding.getUint32 data 0) ->
  AwarenessManager.handleDatagram data now am w = (am, w).
Proof.
  intros Hlen Hclock. unfold AwarenessManager.handleDatagram, Encoding.decodeAwarenessDatagram.
  destruct (Nat.ltb_spec (List.length data) 8); [lia|].
  cbn [Encoding.clientId Encoding.clock].
  destruct (Encoding.getUint32 data 0 =? clientID (awareness (host w))); [reflexivity|].
  destruct (Z.leb_spec (Encoding.getUint32 data 4)
              (default 0 (remoteClocks am !! Encoding.getUint32 data 0))); [reflexivity | lia].
Qed.


(** C7 (the code departs from the claim): the eight bytes
    00 00 00 07 00 00 00 05 are a datagram of client 7 with clock 5 and an
    empty state, which [JSON.parse] rejects. For a local client other than
    7 and no clock recorded for 7, [handleDatagram] throws nothing and
    applies nothing, but it has already recorded clock 5 for client 7: the
    malformed datagram changed the remote-clock table. *)
Theorem handleDatagram_malformed_state_records_clock
  (now : Z) (am : AwarenessMgr) (w : World) :
  valid_json [] = false ->
  clientID (awareness (host w)) <> 7 ->
  remoteClocks am !! 7 = None ->
  AwarenessManager.handleDatagram [x00; x00; x00; x07; x00; x00; x00; x05] now am w =
    (set_remoteClocks (<[7 := 5]> (remoteClocks am)) am,
     emit (DebugDatagramParseFailed SyntaxError) w)
  /\ remoteClocks (set_remoteClocks (<[7 := 5]> (remoteClocks am)) am) !! 7 = Some 5.
Proof.
  intros Hjson Hid Hnone. split.
  - unfold AwarenessManager.handleDatagram.
    cbn [Encoding.decodeAwarenessDatagram List.length Nat.ltb Nat.leb
           Encoding.clientId Encoding.clock Encoding.state].
    change (Encoding.getUint32 [x00; x00; x00; x07; x00; x00; x00; x05] 0) with 7.
    change (Encoding.getUint32 [x00; x00; x00; x07; x00; x00; x00; x05] 4) with 5.
    change (slice_from [x00; x00; x00; x07; x00; x00; x00; x05] 8) with (@nil byte).
    destruct (Z.eqb_spec 7 (clientID (awareness (host w)))); [congruence|].
    rewrite Hnone. cbn [default Z.leb Z.compare].
    unfold decodeState. rewrite Hjson. reflexivity.
  - cbn [remoteClocks set_remoteClocks]. apply lookup_insert_eq.
Qed.

End Datagrams.

Lemma handleDatagram_malformed_state_records_clock_witness :
  @AwarenessManager.handleDatagram sampleExternal
     [x00; x00; x00; x07; x00; x00; x00; x05] 0 sampleAwareness sampleConnected =
    (set_remoteClocks (<[7 := 5]> (remoteClocks sampleAwareness)) sampleAwareness,
     emit (DebugDatagramParseFailed SyntaxError) sampleConnected)
  /\ remoteClocks (set_remoteClocks (<[7 := 5]> (remoteClocks sampleAwareness)) sampleAwareness)
       !! 7 = Some 5.
Proof.
  apply (@handleDatagram_malformed_state_records_clock sampleExternal 0 sampleAwareness
           sampleConnected).
  - reflexivity.
  - discriminate.
  - reflexivity.
Defined.

(** After that datagram, the well-formed datagram of client 7 with clock 5
    and state [{}] is dropped as a duplicate; without it, it is applied. *)
Example poisoned_clock_drops_valid_datagram :
  let valid := [x00; x00; x00; x07; x00; x00; x00; x05; x7b; x7d] in
  let after_malformed :=
    @AwarenessManager.handleDatagram sampleExternal
      [x00; x00; x00; x07; x00; x00; x00; x05] 0 sampleAwareness sampleConnected in
  added sampleConnected
    (snd (@AwarenessManager.handleDatagram sampleExternal valid 0
            (fst after_malformed) sampleConnected)) = []
  /\ List.hd WarnCannotSend
       (added sampleConnected
          (snd (@AwarenessManager.handleDatagram sampleExternal valid 0
                  sampleAwareness sampleConnected))) =
       SetLocalStateFieldRemote 7 [x7b; x7d] 5 0
  /\ List.last
       (added sampleConnected
          (snd (@AwarenessManager.handleDatagram sampleExternal valid 0
                  sampleAwareness sampleConnected))) WarnCannotSend =
       AwarenessEmitChange [] [7] [] "remote-datagram".
Proof. vm_compute. repeat split. Qed.

(** ** Destroying the provider *)

Section Destroying.
Context `{External}.
Variable now : Z.

(** Once [destroy()] has run the provider is marked destroyed. *)
Lemma destroy_marks_destroyed (w : World) :
  p_destroyed (prov (WebTransportProvider.destroy now w)) = true.
Proof.
  unfold WebTransportProvider.destroy.
  destruct (p_destroyed (prov w)) eqn:Hd; [exact Hd|].
  destruct w as [[tr ss sw sr ra mx bd md rt de cb]
                   [sy co pd [[ud bi [iid|] lc rc]|] ua ai] h t];
    destruct rt, tr, sw, sr, cb, co; reflexivity.
Qed.

(** [destroy()] is idempotent: a second call returns at once. *)
Lemma destroy_idempotent (w : World) :
  WebTransportProvider.destroy now (WebTransportProvider.destroy now w) =
    WebTransportProvider.destroy now w.
Proof.
  unfold WebTransportProvider.destroy at 1.
  rewrite destroy_marks_destroyed. reflexivity.
Qed.

End Destroying.

(** C9 (the code departs from the claim): [destroy()] is idempotent, but it
    does not unsubscribe. The constructor registered function object 1 on the
    document; [destroy()] hands [doc.off] a new function object (4), so the
    observer list is what it was, and the next document update still runs
    [handleDocUpdate], which logs that the provider is not connected. *)
Theorem destroy_leaves_update_observer :
  let destroyed_ := WebTransportProvider.destroy 0 sampleConnected in
  docObservers (host sampleConnected) = [1%nat] /\
  added sampleConnected destroyed_ =
    [AwarenessDestroy; ClearInterval 3; TransportClose 2 1000 "Client disconnect";
     ReleaseWriterLock 2; ReleaseReaderLock 2; OnStatusChange disconnected;
     EmitSynced false; EmitStatus disconnected; DocOff 4; ObservableDestroy] /\
  docObservers (host destroyed_) = [1%nat] /\
  WebTransportProvider.destroy 0 destroyed_ = destroyed_ /\
  WebTransportProvider.docUpdateEvent [xaa] (OtherOrigin 0) destroyed_ =
    WebTransportProvider.handleDocUpdate [xaa] (OtherOrigin 0) destroyed_ /\
  added destroyed_ (WebTransportProvider.docUpdateEvent [xaa] (OtherOrigin 0) destroyed_) =
    [DebugQueuingUpdate].
Proof.
  vm_compute. repeat split.
Qed.

(** ** The lemmas above at concrete inputs *)

Lemma frameMessage_too_large_witness :
  Encoding.frameMessage payload70k =
    Throw (MessageTooLarge (Z.of_nat (List.length payload70k))).
Proof.
  apply (frameMessage_too_large payload70k).
  unfold payload70k. rewrite repeat_length, Z2Nat.id; lia.
Defined.

Lemma handleClose_reports_disconnected_witness :
  let w' :=
    ConnectionManager.handleClose (WebTransportProvider.handlers 0)
      {| closeCode := Some 1001; reason := None |} (1 # 2) sampleSynced in
  _synced (prov w') = false /\ _connected (prov w') = false /\
  exists before after,
    trace w' =
      trace sampleSynced ++ before
      ++ [OnStatusChange disconnected; EmitSynced false; EmitStatus disconnected]
      ++ after.
Proof.
  apply (@handleClose_reports_disconnected sampleExternal 0
           {| closeCode := Some 1001; reason := None |} (1 # 2) sampleSynced);
    reflexivity.
Defined.

Lemma handleDocUpdate_not_connected_witness :
  WebTransportProvider.handleDocUpdate [xaa] (OtherOrigin 0) sampleProvider = sampleProvider \/
  WebTransportProvider.handleDocUpdate [xaa] (OtherOrigin 0) sampleProvider =
    emit DebugQueuingUpdate sampleProvider.
Proof.
  apply (@handleDocUpdate_not_connected sampleExternal [xaa] (OtherOrigin 0) sampleProvider).
  reflexivity.
Defined.

Lemma handleDatagram_too_short_witness :
  @AwarenessManager.handleDatagram sampleExternal [x00; x00; x00; x07] 0
     sampleAwareness sampleConnected =
    (sampleAwareness, emit (DebugDatagramParseFailed DatagramTooShort) sampleConnected).
Proof.
  apply (@handleDatagram_too_short sampleExternal [x00; x00; x00; x07] 0
           sampleAwareness sampleConnected).
  simpl. lia.
Defined.

Lemma handleDatagram_own_witness :
  @AwarenessManager.handleDatagram sampleExternal
     [x00; x00; x00; x01; x00; x00; x00; x09; x7b; x7d] 0 sampleAwareness sampleConnected =
    (sampleAwareness, sampleConnected).
Proof.
  apply (@handleDatagram_own sampleExternal
           [x00; x00; x00; x01; x00; x00; x00; x09; x7b; x7d] 0 sampleAwareness
           sampleConnected).
  - simpl. lia.
  - reflexivity.
Defined.

Lemma handleDatagram_stale_witness :
  @AwarenessManager.handleDatagram sampleExternal
     [x00; x00; x00; x07; x00; x00; x00; x00; x7b; x7d] 0 sampleAwareness sampleConnected =
    (sampleAwareness, sampleConnected).
Proof.
  apply (@handleDatagram_stale sampleExternal
           [x00; x00; x00; x07; x00; x00; x00; x00; x7b; x7d] 0 sampleAwareness
           sampleConnected).
  - simpl. lia.
  - vm_compute. discriminate.
Defined.


(** ** Frames in a buffer *)

Lemma u8_byte_to_Z (b : byte) : u8 (byte_to_Z b) = b.
Proof.
  unfold u8, byte_to_Z.
  pose proof (Byte.to_N_bounded b) as Hb.
  rewrite Z.mod_small by lia.
  rewrite N2Z.id, Byte.of_to_N. reflexivity.
Qed.

Lemma byte_to_Z_bounds (b : byte) : 0 <= byte_to_Z b < 256.
Proof. unfold byte_to_Z. pose proof (Byte.to_N_bounded b). lia. Qed.

(** Two bytes read as a big-endian number. *)
Lemma big_endian_pair (hi lo : Z) :
  0 <= hi < 256 -> 0 <= lo < 256 ->
  Z.lor (Z.shiftl hi 8) lo = 256 * hi + lo.
Proof.
  intros Hhi Hlo.
  rewrite Z.shiftl_mul_pow2 by lia.
  rewrite <- Z.add_nocarry_lor.
  - change (2 ^ 8) with 256. lia.
  - apply Z.bits_inj'. intros i Hi.
    rewrite Z.land_spec, Z.bits_0.
    destruct (Z.ltb_spec i 8).
    + rewrite Z.mul_pow2_bits_low by lia. reflexivity.
    + replace lo with (lo mod 2 ^ 8) by (apply Z.mod_small; change (2 ^ 8) with 256; lia).
      rewrite Z.mod_pow2_bits_high by lia. apply andb_false_r.
Qed.

Lemma announced_cons (b0 b1 : byte) (rest : bytes) :
  Z.of_nat (announced (b0 :: b1 :: rest)) = 256 * byte_to_Z b0 + byte_to_Z b1.
Proof.
  unfold announced, byte_at. cbn [nth].
  pose proof (byte_to_Z_bounds b0). pose proof (byte_to_Z_bounds b1).
  rewrite big_endian_pair by assumption. lia.
Qed.

(** The prefix written for a length that fits in two bytes announces it. *)
Lemma announced_lengthPrefixed (p rest : bytes) :
  Z.of_nat (List.length p) <= 65535 ->
  announced (lengthPrefixed p ++ rest) = List.length p.
Proof.
  intros Hp. unfold lengthPrefixed, announced, byte_at. cbn [List.app nth].
  rewrite length_prefix_decodes by lia. apply Nat2Z.id.
Qed.

(** The prefix of a frame taken out of a buffer is the buffer's own. *)
Lemma lengthPrefixed_of_announced (b0 b1 : byte) (rest : bytes) :
  (announced (b0 :: b1 :: rest) <= List.length rest)%nat ->
  lengthPrefixed (firstn (announced (b0 :: b1 :: rest)) rest)
  = b0 :: b1 :: firstn (announced (b0 :: b1 :: rest)) rest.
Proof.
  intros Hlen. unfold lengthPrefixed.
  rewrite length_firstn, Nat.min_l by exact Hlen.
  rewrite announced_cons.
  pose proof (byte_to_Z_bounds b0). pose proof (byte_to_Z_bounds b1).
  change 255 with (Z.ones 8). rewrite !Z.land_ones by lia.
  rewrite Z.shiftr_div_pow2 by lia. change (2 ^ 8) with 256.
  replace ((256 * byte_to_Z b0 + byte_to_Z b1) / 256) with (byte_to_Z b0)
    by (Z.div_mod_to_equations; lia).
  replace ((256 * byte_to_Z b0 + byte_to_Z b1) mod 256) with (byte_to_Z b1)
    by (Z.div_mod_to_equations; lia).
  rewrite (Z.mod_small (byte_to_Z b0)) by lia.
  rewrite !u8_byte_to_Z. reflexivity.
Qed.

(** One turn of the loop of [readFramedMessages]. *)
Lemma readFramedLoop_unfold (buffer : bytes) (offset : nat) (messages : list bytes) :
  Encoding.readFramedLoop buffer offset messages =
    if (offset + 2 <=? List.length buffer)%nat then
      let length :=
        Z.to_nat (Z.lor (Z.shiftl (byte_at buffer offset) 8) (byte_at buffer (offset + 1))) in
      if (offset + 2 + length <=? List.length buffer)%nat
      then Encoding.readFramedLoop buffer (offset + 2 + length)
             (messages ++ [slice buffer (offset + 2) (offset + 2 + length)])
      else (messages, offset)
    else (messages, offset).
Proof.
  simp readFramedLoop.
  destruct (le_dec (offset + 2) (List.length buffer)) as [Hhdr|Hhdr];
    cbn [Encoding.readFramedLoop_unfold_clause_1].
  - destruct (Nat.leb_spec (offset + 2) (List.length buffer)); [|lia].
    cbv zeta.
    destruct (le_dec _ _) as [Hbody|Hbody];
      destruct (Nat.leb_spec
                  (offset + 2
                   + Z.to_nat (Z.lor (Z.shiftl (byte_at buffer offset) 8)
                                 (byte_at buffer (offset + 1))))
                  (List.length buffer)); try lia; reflexivity.
  - destruct (Nat.leb_spec (offset + 2) (List.length buffer)); [lia|reflexivity].
Qed.

Lemma nth_skipn_byte (l : bytes) (o i : nat) :
  nth i (skipn o l) x00 = nth (o + i) l x00.
Proof.
  revert l. induction o as [|o IH]; intros l; [reflexivity|].
  destruct l as [|b l]; [destruct i; reflexivity|]. cbn [skipn Nat.add nth]. apply IH.
Qed.

Lemma announced_skipn (buffer : bytes) (offset : nat) :
  announced (skipn offset buffer) =
    Z.to_nat (Z.lor (Z.shiftl (byte_at buffer offset) 8) (byte_at buffer (offset + 1))).
Proof.
  unfold announced, byte_at. rewrite !nth_skipn_byte, Nat.add_0_r. reflexivity.
Qed.

(** Whether a whole frame starts at an offset. *)
Lemma readFramedLoop_stops (buffer : bytes) (offset : nat) (messages : list bytes) :
  incomplete (skipn offset buffer) ->
  Encoding.readFramedLoop buffer offset messages = (messages, offset).
Proof.
  unfold incomplete. rewrite length_skipn, announced_skipn. intros Hinc.
  rewrite readFramedLoop_unfold. cbv zeta.
  destruct (Nat.leb_spec (offset + 2) (List.length buffer)); [|reflexivity].
  match goal with |- context [(?x <=? ?y)%nat] => destruct (Nat.leb_spec x y) end;
    [lia|reflexivity].
Qed.

Lemma readFramedLoop_continues (buffer : bytes) (offset : nat) (messages : list bytes) :
  ~ incomplete (skipn offset buffer) ->
  Encoding.readFramedLoop buffer offset messages =
    Encoding.readFramedLoop buffer (offset + 2 + announced (skipn offset buffer))
      (messages ++ [firstn (announced (skipn offset buffer)) (skipn (offset + 2) buffer)]).
Proof.
  unfold incomplete. rewrite length_skipn, announced_skipn. intros Hc.
  rewrite readFramedLoop_unfold. cbv zeta.
  destruct (Nat.leb_spec (offset + 2) (List.length buffer)); [|lia].
  match goal with |- context [(?x <=? ?y)%nat] => destruct (Nat.leb_spec x y) end; [|lia].
  unfold slice.
  match goal with
  | |- context [(?a + 2 + ?l - (?a + 2))%nat] =>
      replace (a + 2 + l - (a + 2))%nat with l by lia
  end.
  reflexivity.
Qed.

Lemma incomplete_dec (buffer : bytes) : {incomplete buffer} + {~ incomplete buffer}.
Proof.
  unfold incomplete.
  destruct (lt_dec (List.length buffer) 2); [left; lia|].
  destruct (lt_dec (List.length buffer) (2 + announced buffer)); [left; lia|right; lia].
Qed.

(** The loop started at an offset finds what [readFramedMessages] finds in
    the rest of the buffer. *)
Lemma readFramedLoop_suffix (n : nat) :
  forall (buffer : bytes) (offset : nat) (messages : list bytes),
    (List.length buffer - offset <= n)%nat -> (offset <= List.length buffer)%nat ->
    fst (Encoding.readFramedLoop buffer offset messages)
      = messages ++ fst (Encoding.readFramedMessages (skipn offset buffer)) /\
    skipn (snd (Encoding.readFramedLoop buffer offset messages)) buffer
      = snd (Encoding.readFramedMessages (skipn offset buffer)).
Proof.
  induction n as [|n IH]; intros buffer offset messages Hn Ho;
    destruct (incomplete_dec (skipn offset buffer)) as [Hinc|Hc].
  1, 3: rewrite (readFramedLoop_stops buffer offset messages Hinc);
    unfold Encoding.readFramedMessages;
    rewrite (readFramedLoop_stops (skipn offset buffer) 0 [] Hinc);
    cbn [fst snd]; unfold slice_from; cbn [skipn]; rewrite app_nil_r; split; reflexivity.
  - exfalso. apply Hc. unfold incomplete. rewrite length_skipn. lia.
  - assert (Hlen : (offset + 2 + announced (skipn offset buffer) <= List.length buffer)%nat).
    { unfold incomplete in Hc. rewrite length_skipn in Hc. lia. }
    rewrite (readFramedLoop_continues buffer offset messages Hc).
    unfold Encoding.readFramedMessages at 1 2.
    remember (skipn offset buffer) as x eqn:Hx.
    assert (Hxlen : List.length x = (List.length buffer - offset)%nat)
      by (subst x; apply length_skipn).
    rewrite (readFramedLoop_continues x 0 []) by exact Hc.
    change (skipn 0 x) with x. rewrite !Nat.add_0_l. cbn [List.app].
    set (len := announced x) in *.
    assert (Hrest : skipn (2 + len) x = skipn (offset + 2 + len) buffer).
    { subst x. rewrite skipn_skipn. f_equal. lia. }
    assert (Hmsg : firstn len (skipn 2 x) = firstn len (skipn (offset + 2) buffer)).
    { subst x. rewrite skipn_skipn. do 2 f_equal. lia. }
    destruct (IH buffer (offset + 2 + len)%nat
                (messages ++ [firstn len (skipn (offset + 2) buffer)]))
      as [Hf Hs]; [lia|lia|].
    destruct (IH x (2 + len)%nat [firstn len (skipn 2 x)]) as [Hf' Hs']; [lia|lia|].
    rewrite Hrest in Hf', Hs'.
    destruct (Encoding.readFramedLoop buffer (offset + 2 + len) _) as [ms o'].
    destruct (Encoding.readFramedLoop x (2 + len) _) as [ms' o''].
    cbn [fst snd] in *. unfold slice_from. split.
    + rewrite Hf, Hf', Hmsg, <- app_assoc. reflexivity.
    + rewrite Hs, Hs'. reflexivity.
Qed.

(** [readFramedMessages], one frame at a time. *)
Lemma readFramedMessages_incomplete (buffer : bytes) :
  incomplete buffer -> Encoding.readFramedMessages buffer = ([], buffer).
Proof.
  intros Hinc. unfold Encoding.readFramedMessages.
  rewrite (readFramedLoop_stops buffer 0 [] Hinc). reflexivity.
Qed.

Lemma readFramedMessages_frame (buffer : bytes) :
  ~ incomplete buffer ->
  Encoding.readFramedMessages buffer =
    (firstn (announced buffer) (skipn 2 buffer)
       :: fst (Encoding.readFramedMessages (skipn (2 + announced buffer) buffer)),
     snd (Encoding.readFramedMessages (skipn (2 + announced buffer) buffer))).
Proof.
  intros Hc.
  assert (Hlen : (2 + announced buffer <= List.length buffer)%nat)
    by (unfold incomplete in Hc; lia).
  unfold Encoding.readFramedMessages at 1.
  rewrite (readFramedLoop_continues buffer 0 []) by exact Hc.
  change (skipn 0 buffer) with buffer. rewrite !Nat.add_0_l. cbn [List.app].
  destruct (readFramedLoop_suffix (List.length buffer) buffer (2 + announced buffer)
              [firstn (announced buffer) (skipn 2 buffer)]) as [Hf Hs]; [lia|lia|].
  destruct (Encoding.readFramedLoop buffer (2 + announced buffer) _) as [ms o'].
  cbn [fst snd] in Hf, Hs. unfold slice_from. rewrite Hf, Hs. reflexivity.
Qed.

Lemma announced_app (a b : bytes) :
  (2 <= List.length a)%nat -> announced (a ++ b) = announced a.
Proof.
  intros Ha. unfold announced, byte_at.
  rewrite !app_nth1 by lia. reflexivity.
Qed.

Lemma complete_app (a b : bytes) : ~ incomplete a -> ~ incomplete (a ++ b).
Proof.
  unfold incomplete. intros Ha.
  rewrite length_app, announced_app by lia. lia.
Qed.

(** Reading more bytes after a buffer: the frames of the buffer are found
    first, and reading goes on from what it left over. *)
Lemma readFramedMessages_app (n : nat) :
  forall a b : bytes,
    (List.length a <= n)%nat ->
    Encoding.readFramedMessages (a ++ b) =
      (fst (Encoding.readFramedMessages a)
         ++ fst (Encoding.readFramedMessages (snd (Encoding.readFramedMessages a) ++ b)),
       snd (Encoding.readFramedMessages (snd (Encoding.readFramedMessages a) ++ b))).
Proof.
  induction n as [|n IH]; intros a b Hn;
    destruct (incomplete_dec a) as [Hinc|Hc].
  1, 3: rewrite (readFramedMessages_incomplete a Hinc); cbn [fst snd List.app];
    destruct (Encoding.readFramedMessages (a ++ b)); reflexivity.
  - exfalso. apply Hc. unfold incomplete. lia.
  - assert (Hlen : (2 + announced a <= List.length a)%nat)
      by (unfold incomplete in Hc; lia).
    rewrite (readFramedMessages_frame (a ++ b)) by (apply complete_app; exact Hc).
    rewrite (readFramedMessages_frame a Hc). cbn [fst snd].
    rewrite announced_app by lia.
    rewrite !skipn_app.
    replace (2 + announced a - List.length a)%nat with 0%nat by lia.
    replace (2 - List.length a)%nat with 0%nat by lia.
    change (skipn 0 b) with b.
    rewrite firstn_app.
    replace (announced a - List.length (skipn 2 a))%nat with 0%nat
      by (rewrite length_skipn; lia).
    cbn [firstn]. rewrite app_nil_r.
    rewrite (IH (skipn (2 + announced a) a) b) by (rewrite length_skipn; lia).
    reflexivity.
Qed.

(** What [readFramedMessages] returns, put back together, is the buffer. *)
Lemma readFramedMessages_reassembles (n : nat) :
  forall buffer : bytes,
    (List.length buffer <= n)%nat ->
    flat_map lengthPrefixed (fst (Encoding.readFramedMessages buffer))
      ++ snd (Encoding.readFramedMessages buffer) = buffer /\
    Forall (fun m => Z.of_nat (List.length m) <= 65535)
      (fst (Encoding.readFramedMessages buffer)) /\
    incomplete (snd (Encoding.readFramedMessages buffer)).
Proof.
  induction n as [|n IH]; intros buffer Hn;
    destruct (incomplete_dec buffer) as [Hinc|Hc].
  1, 3: rewrite (readFramedMessages_incomplete buffer Hinc); cbn [fst snd flat_map List.app];
    auto.
  - exfalso. apply Hc. unfold incomplete. lia.
  - assert (Hlen : (2 + announced buffer <= List.length buffer)%nat)
      by (unfold incomplete in Hc; lia).
    rewrite (readFramedMessages_frame buffer Hc). cbn [fst snd flat_map].
    destruct (IH (skipn (2 + announced buffer) buffer)) as (Hre & Hall & Hinc);
      [rewrite length_skipn; lia|].
    destruct buffer as [|b0 [|b1 rest]]; cbn [List.length] in Hlen; try lia.
    cbn [skipn Nat.add] in *. change (skipn 0 rest) with rest.
    split; [|split].
    + rewrite lengthPrefixed_of_announced by lia.
      rewrite <- app_assoc. cbn [List.app]. rewrite Hre.
      rewrite firstn_skipn. reflexivity.
    + constructor; [|exact Hall].
      rewrite length_firstn, Nat.min_l by lia.
      rewrite announced_cons.
      pose proof (byte_to_Z_bounds b0). pose proof (byte_to_Z_bounds b1). lia.
    + exact Hinc.
Qed.

(** Frames written one after the other, then a partial one, are read back. *)
Lemma readFramedMessages_flat_map (ps : list bytes) (rest : bytes) :
  Forall (fun p => Z.of_nat (List.length p) <= 65535) ps ->
  incomplete rest ->
  Encoding.readFramedMessages (flat_map lengthPrefixed ps ++ rest) = (ps, rest).
Proof.
  intros Hall Hrest. induction Hall as [|p ps Hp Hall IH]; cbn [flat_map List.app].
  - apply readFramedMessages_incomplete. exact Hrest.
  - rewrite <- app_assoc.
    remember (flat_map lengthPrefixed ps ++ rest) as R eqn:HR.
    assert (Hann : announced (lengthPrefixed p ++ R) = List.length p)
      by (apply announced_lengthPrefixed; exact Hp).
    rewrite readFramedMessages_frame.
    + rewrite Hann. unfold lengthPrefixed. cbn [List.app skipn Nat.add].
      rewrite !skipn_O, !skipn_app, !skipn_all, !Nat.sub_diag, !skipn_O.
      cbn [List.app].
      rewrite firstn_app, firstn_all, Nat.sub_diag. cbn [firstn].
      rewrite app_nil_r, IH. reflexivity.
    + unfold incomplete. rewrite Hann.
      unfold lengthPrefixed. cbn [List.app List.length]. rewrite length_app. lia.
Qed.

(** The three statements about [readFramedMessages]. *)

(** Reading a buffer that grew: the frames already complete are returned
    first and reading continues from the bytes left over, so a stream can be
    decoded chunk by chunk. *)
Theorem readFramedMessages_incremental (a b : bytes) :
  Encoding.readFramedMessages (a ++ b) =
    (fst (Encoding.readFramedMessages a)
       ++ fst (Encoding.readFramedMessages (snd (Encoding.readFramedMessages a) ++ b)),
     snd (Encoding.readFramedMessages (snd (Encoding.readFramedMessages a) ++ b))).
Proof.
  apply (readFramedMessages_app (List.length a)). lia.
Qed.

(** [readFramedMessages] loses and invents no byte: the messages, each behind
    its two length bytes, followed by the remaining buffer, are the input;
    the remaining buffer does not start with a whole frame. *)
Theorem readFramedMessages_loses_nothing (buffer : bytes) :
  flat_map lengthPrefixed (fst (Encoding.readFramedMessages buffer))
    ++ snd (Encoding.readFramedMessages buffer) = buffer /\
  Forall (fun m => Z.of_nat (List.length m) <= 65535)
    (fst (Encoding.readFramedMessages buffer)) /\
  incomplete (snd (Encoding.readFramedMessages buffer)).
Proof.
  apply (readFramedMessages_reassembles (List.length buffer)). lia.
Qed.

Lemma frameMessage_Return (p framed : bytes) :
  Encoding.frameMessage p = Return framed ->
  Z.of_nat (List.length p) <= 65535 /\ framed = lengthPrefixed p.
Proof.
  unfold Encoding.frameMessage, lengthPrefixed.
  destruct (Z.gtb_spec (Z.of_nat (List.length p)) 65535); [discriminate|].
  intros Heq. injection Heq as <-. split; [lia|reflexivity].
Qed.

(** Any number of framed payloads written one after the other, followed by
    the beginning of a further frame, are read back as those payloads in
    order, with the partial frame left in the remaining buffer. *)
Theorem readFramedMessages_reads_back (ps frames : list bytes) (partial : bytes) :
  Forall2 (fun p framed => Encoding.frameMessage p = Return framed) ps frames ->
  incomplete partial ->
  Encoding.readFramedMessages (concat frames ++ partial) = (ps, partial).
Proof.
  intros Hframes Hpartial.
  assert (Hall : Forall (fun p => Z.of_nat (List.length p) <= 65535) ps /\
                 concat frames = flat_map lengthPrefixed ps).
  { induction Hframes as [|p framed ps frames Hp _ [IHa IHc]]; [split; [constructor|reflexivity]|].
    apply frameMessage_Return in Hp as [Hlen ->].
    split; [constructor; assumption|]. cbn [concat flat_map]. rewrite IHc. reflexivity. }
  destruct Hall as [Hall ->].
  apply readFramedMessages_flat_map; assumption.
Qed.

Lemma readFramedMessages_reads_back_witness :
  Encoding.readFramedMessages
    (concat [[x00; x02; x68; x69]; [x00; x00]; [x00; x01; x21]] ++ [x00; x05; x61]) =
    ([[x68; x69]; []; [x21]], [x00; x05; x61]).
Proof.
  apply (readFramedMessages_reads_back [[x68; x69]; []; [x21]]
           [[x00; x02; x68; x69]; [x00; x00]; [x00; x01; x21]] [x00; x05; x61]).
  - repeat constructor.
  - right. vm_compute. lia.
Defined.

(** ** The read loop of the stream *)

Section ReadLoop.
Context `{External}.
Variable handlers : Handlers.

Lemma deliverFrames_unfold (buffer : bytes) (w : World) :
  ConnectionManager.deliverFrames handlers buffer w =
    if (2 <=? List.length buffer)%nat then
      if (List.length buffer <? 2 + announced buffer)%nat then (buffer, w, false)
      else if ConnectionManager.onSyncMessage_throws handlers
                (slice buffer 2 (2 + announced buffer)) w
           then (slice_from buffer (2 + announced buffer),
                 ConnectionManager.onSyncMessage handlers
                   (slice buffer 2 (2 + announced buffer)) w,
                 true)
           else ConnectionManager.deliverFrames handlers
                  (slice_from buffer (2 + announced buffer))
                  (ConnectionManager.onSyncMessage handlers
                     (slice buffer 2 (2 + announced buffer)) w)
    else (buffer, w, false).
Proof.
  rewrite ConnectionManager.deliverFrames_equation_1. unfold announced.
  destruct (le_dec 2 (List.length buffer)) as [Hhdr|Hhdr];
    cbn [ConnectionManager.deliverFrames_unfold_clause_1].
  - destruct (Nat.leb_spec 2 (List.length buffer)); [|lia].
    cbv zeta.
    destruct (lt_dec _ _) as [Hbody|Hbody];
      match goal with |- context [(?x <? ?y)%nat] => destruct (Nat.ltb_spec x y) end;
      try lia; reflexivity.
  - destruct (Nat.leb_spec 2 (List.length buffer)); [lia|reflexivity].
Qed.

(** The read loop hands to [onSyncMessage], in order, the messages
    [readFramedMessages] finds, until one makes the callback throw; when none
    does it keeps the buffer [readFramedMessages] leaves. *)
Lemma deliverFrames_handOver (n : nat) :
  forall (buffer : bytes) (w : World),
    (List.length buffer <= n)%nat ->
    let result := ConnectionManager.deliverFrames handlers buffer w in
    (snd (fst result), snd result)
      = handOver handlers (fst (Encoding.readFramedMessages buffer)) w /\
    (snd result = false -> fst (fst result) = snd (Encoding.readFramedMessages buffer)).
Proof.
  induction n as [|n IH]; intros buffer w Hn; cbv zeta;
    rewrite deliverFrames_unfold;
    destruct (incomplete_dec buffer) as [Hinc|Hc].
  1, 3: rewrite (readFramedMessages_incomplete buffer Hinc); cbn [fst snd handOver];
    unfold incomplete in Hinc;
    destruct (Nat.leb_spec 2 (List.length buffer)); [|auto];
    destruct (Nat.ltb_spec (List.length buffer) (2 + announced buffer)); [auto|lia].
  - exfalso. apply Hc. unfold incomplete. lia.
  - assert (Hlen : (2 + announced buffer <= List.length buffer)%nat)
      by (unfold incomplete in Hc; lia).
    destruct (Nat.leb_spec 2 (List.length buffer)); [|lia].
    destruct (Nat.ltb_spec (List.length buffer) (2 + announced buffer)); [lia|].
    rewrite (readFramedMessages_frame buffer Hc). cbn [fst snd handOver].
    unfold slice_from, slice.
    replace (2 + announced buffer - 2)%nat with (announced buffer) by lia.
    destruct (ConnectionManager.onSyncMessage_throws handlers _ w).
    + cbn [fst snd]. split; [reflexivity|discriminate].
    + apply IH. rewrite length_skipn. lia.
Qed.

Lemma deliverFrames_agrees_handOver (buffer : bytes) (w : World) :
  let result := ConnectionManager.deliverFrames handlers buffer w in
  (snd (fst result), snd result)
    = handOver handlers (fst (Encoding.readFramedMessages buffer)) w /\
  (snd result = false -> fst (fst result) = snd (Encoding.readFramedMessages buffer)).
Proof.
  apply (deliverFrames_handOver (List.length buffer)). lia.
Qed.

(** The read loop of [readSyncStream] and [readFramedMessages] decode alike:
    for every buffer the loop hands to the stream-message callback, in
    order, the messages [readFramedMessages] returns for that buffer, up to
    and including the first one on which the callback throws, where the loop
    ends; when the callback throws on none of them, the loop keeps the
    remaining bytes [readFramedMessages] returns. *)
Theorem deliverFrames_agrees_with_readFramedMessages (buffer : bytes) (w : World) :
  let result := ConnectionManager.deliverFrames handlers buffer w in
  (snd (fst result), snd result)
    = handOver handlers (fst (Encoding.readFramedMessages buffer)) w /\
  (snd result = false -> fst (fst result) = snd (Encoding.readFramedMessages buffer)).
Proof.
  apply (deliverFrames_handOver (List.length buffer)). lia.
Qed.

Lemma streamChunk_lengthPrefixed (rnd : Q) (data : bytes) (receiver : World) :
  Z.of_nat (List.length data) <= 65535 ->
  readBuffer (host receiver) = [] ->
  ConnectionManager.streamChunk handlers rnd (lengthPrefixed data) receiver =
    let delivered :=
      with_host (set_readBuffer [])
        (ConnectionManager.onSyncMessage handlers data receiver) in
    if ConnectionManager.onSyncMessage_throws handlers data receiver
    then if destroyed (mgr delivered) then delivered
         else ConnectionManager.handleError handlers rnd delivered
    else delivered.
Proof.
  intros Hlen Hbuffer.
  assert (Hread : Encoding.readFramedMessages (lengthPrefixed data) = ([data], [])).
  { pose proof (readFramedMessages_flat_map [data] []) as Hr.
    cbn [flat_map] in Hr. rewrite !app_nil_r in Hr. apply Hr.
    - constructor; [exact Hlen|constructor].
    - left. cbn. lia. }
  unfold ConnectionManager.streamChunk. rewrite Hbuffer. cbn [List.app].
  rewrite deliverFrames_unfold.
  assert (Hann : announced (lengthPrefixed data) = List.length data).
  { pose proof (announced_lengthPrefixed data []) as Ha.
    rewrite app_nil_r in Ha. apply Ha. exact Hlen. }
  rewrite Hann.
  assert (Hl : List.length (lengthPrefixed data) = (2 + List.length data)%nat)
    by reflexivity.
  rewrite Hl.
  destruct (Nat.leb_spec 2 (2 + List.length data)); [|lia].
  destruct (Nat.ltb_spec (2 + List.length data) (2 + List.length data)); [lia|].
  assert (Hmsg : slice (lengthPrefixed data) 2 (2 + List.length data) = data).
  { unfold slice, lengthPrefixed. cbn [skipn].
    replace (2 + List.length data - 2)%nat with (List.length data) by lia.
    apply firstn_all. }
  assert (Hrest : slice_from (lengthPrefixed data) (2 + List.length data) = []).
  { unfold slice_from. apply skipn_all2. rewrite Hl. lia. }
  rewrite Hmsg, Hrest. cbv zeta.
  destruct (ConnectionManager.onSyncMessage_throws handlers data receiver).
  - reflexivity.
  - rewrite deliverFrames_unfold. cbn [List.length Nat.leb]. reflexivity.
Qed.

(** A payload of at most 65,535 bytes: [sendSyncMessage] writes the bytes
    [frameMessage] builds, and a read loop that receives them on an empty
    buffer hands the payload to the stream-message callback once and is left
    with an empty buffer; when the callback throws on it, [handleError] runs
    next unless the manager is destroyed. *)
Theorem sent_frame_is_delivered (rnd : Q) (data : bytes) (sender receiver : World)
  (stream : nat) :
  Z.of_nat (List.length data) <= 65535 ->
  syncWriter (mgr sender) = Some stream ->
  readBuffer (host receiver) = [] ->
  exists framed,
    Encoding.frameMessage data = Return framed /\
    ConnectionManager.sendSyncMessage data sender = emit (StreamWrite stream framed) sender /\
    ConnectionManager.streamChunk handlers rnd framed receiver =
      let delivered :=
        with_host (set_readBuffer [])
          (ConnectionManager.onSyncMessage handlers data receiver) in
      if ConnectionManager.onSyncMessage_throws handlers data receiver
      then if destroyed (mgr delivered) then delivered
           else ConnectionManager.handleError handlers rnd delivered
      else delivered.
Proof.
  intros Hlen Hwriter Hbuffer. exists (lengthPrefixed data). split; [|split].
  - unfold Encoding.frameMessage, lengthPrefixed.
    destruct (Z.gtb_spec (Z.of_nat (List.length data)) 65535); [lia|reflexivity].
  - unfold ConnectionManager.sendSyncMessage. rewrite Hwriter. reflexivity.
  - apply streamChunk_lengthPrefixed; assumption.
Qed.

End ReadLoop.

Lemma sent_frame_is_delivered_witness :
  exists framed,
    Encoding.frameMessage [x02; x00; x00] = Return framed /\
    ConnectionManager.sendSyncMessage [x02; x00; x00] sampleConnected =
      emit (StreamWrite 2 framed) sampleConnected /\
    ConnectionManager.streamChunk (WebTransportProvider.handlers 0) 0%Q framed sampleConnected =
      with_host (set_readBuffer [])
        (ConnectionManager.onSyncMessage (WebTransportProvider.handlers 0) [x02; x00; x00]
           sampleConnected).
Proof.
  apply (@sent_frame_is_delivered sampleExternal (WebTransportProvider.handlers 0) 0%Q
           [x02; x00; x00] sampleConnected sampleConnected 2).
  - vm_compute. discriminate.
  - reflexivity.
  - reflexivity.
Defined.

(** ** The awareness datagram codec *)

Lemma getUint32_uint32_bytes (v : Z) (rest : bytes) :
  Encoding.getUint32 (Encoding.uint32_bytes v ++ rest) 0 = v mod 4294967296.
Proof.
  unfold Encoding.getUint32, Encoding.uint32_bytes, byte_at. cbn [List.app nth Nat.add].
  rewrite !byte_to_Z_u8.
  assert (Hv : 0 <= v mod 4294967296 < 4294967296) by (apply Z.mod_pos_bound; lia).
  generalize dependent (v mod 4294967296). intros x Hx.
  Z.div_mod_to_equations. lia.
Qed.

Lemma decode_encode_datagram (clientId clock : Z) (state : bytes) :
  Encoding.decodeAwarenessDatagram (Encoding.encodeAwarenessDatagram clientId clock state) =
    Return {| Encoding.clientId := clientId mod 4294967296;
              Encoding.clock := clock mod 4294967296;
              Encoding.state := state |}.
Proof.
  unfold Encoding.decodeAwarenessDatagram, Encoding.encodeAwarenessDatagram.
  assert (Hlen : forall v, List.length (Encoding.uint32_bytes v) = 4%nat) by reflexivity.
  rewrite !length_app, !Hlen.
  destruct (Nat.ltb_spec (4 + (4 + List.length state)) 8); [lia|].
  f_equal. f_equal.
  - apply getUint32_uint32_bytes.
  - change (Encoding.getUint32
              (Encoding.uint32_bytes clientId ++ Encoding.uint32_bytes clock ++ state) 4)
      with (Encoding.getUint32 (Encoding.uint32_bytes clock ++ state) 0).
    apply getUint32_uint32_bytes.
Qed.

(** An encoded datagram is eight bytes longer than its state, and anything
    shorter than eight bytes is refused by the decoder. *)
Lemma encodeAwarenessDatagram_length (clientId clock : Z) (state : bytes) :
  List.length (Encoding.encodeAwarenessDatagram clientId clock state)
  = (8 + List.length state)%nat.
Proof.
  unfold Encoding.encodeAwarenessDatagram. rewrite !length_app. reflexivity.
Qed.

(** Decoding an encoded datagram gives back the client id and the clock, each
    reduced modulo 2^32 as [setUint32] stores them, and the state bytes; the
    datagram is eight bytes longer than the state. *)
Theorem datagram_round_trip (clientId clock : Z) (state : bytes) :
  Encoding.decodeAwarenessDatagram (Encoding.encodeAwarenessDatagram clientId clock state) =
    Return {| Encoding.clientId := clientId mod 4294967296;
              Encoding.clock := clock mod 4294967296;
              Encoding.state := state |} /\
  List.length (Encoding.encodeAwarenessDatagram clientId clock state)
  = (8 + List.length state)%nat.
Proof.
  split; [apply decode_encode_datagram | apply encodeAwarenessDatagram_length].
Qed.

(** ** The awareness pipeline *)

Lemma remove_not_In (n : nat) (l : list nat) : ~ In n (remove n l).
Proof.
  unfold remove. rewrite filter_In, Nat.eqb_refl. intros [_ Hf]. discriminate.
Qed.

Section Pipeline.
Context `{External}.

(** The manager's listener leaves the remote clocks and the host alone. *)
Lemma localAwarenessUpdate_keeps (added updated removed : list Z)
  (am : AwarenessMgr) (w : World) :
  remoteClocks (fst (AwarenessManager.localAwarenessUpdate added updated removed am w))
    = remoteClocks am /\
  host (snd (AwarenessManager.localAwarenessUpdate added updated removed am w)) = host w.
Proof.
  unfold AwarenessManager.localAwarenessUpdate.
  destruct (existsb _ _); [|auto].
  destruct (useDatagrams am).
  - unfold AwarenessManager.broadcastLocalStateDatagram, ConnectionManager.sendDatagram.
    destruct (localStateBytes _); [|auto].
    destruct (transport (mgr w)); auto.
  - unfold AwarenessManager.broadcastStateStream, ConnectionManager.sendSyncMessage.
    destruct (syncWriter (mgr w)); auto.
Qed.

(** What [handleDatagram] leaves of the manager and the world where it
    stores a state. *)
Lemma handleDatagram_stores (d : Encoding.AwarenessDatagram) (state : bytes) (now : Z)
  (am : AwarenessMgr) (w : World) :
  let result :=
    (let w := emit (SetLocalStateFieldRemote (Encoding.clientId d) state
                      (Encoding.clock d) now) w in
     let '(am, w) :=
       match localStateBytes (awareness (host w)) with
       | None => (am, w)
       | Some _ =>
           let w :=
             with_host
               (set_awareness
                  (setRemoteField (awareness (host w)) (Encoding.clientId d) state
                     (Encoding.clock d) now)) w in
           AwarenessManager.localAwarenessUpdate [] [clientID (awareness (host w))] [] am w
       end in
     (am, emit (AwarenessEmitChange [] [Encoding.clientId d] [] "remote-datagram") w)) in
  remoteClocks (fst result) = remoteClocks am /\
  clientID (awareness (host (snd result))) = clientID (awareness (host w)).
Proof.
  cbv zeta. cbn [host emit].
  destruct (localStateBytes (awareness (host w))); [|auto].
  match goal with |- context [AwarenessManager.localAwarenessUpdate ?a ?u ?r ?m ?x] =>
    destruct (localAwarenessUpdate_keeps a u r m x) as (Hclocks & Hhost);
    destruct (AwarenessManager.localAwarenessUpdate a u r m x) as [am' w']
  end.
  cbn [fst snd host emit] in *. rewrite Hclocks, Hhost.
  cbn [host with_host set_awareness awareness].
  split; [reflexivity|apply setRemoteField_clientID].
Qed.

Lemma handleDatagram_clientID (data : bytes) (now : Z) (am : AwarenessMgr) (w : World) :
  clientID (awareness (host (snd (AwarenessManager.handleDatagram data now am w))))
    = clientID (awareness (host w)).
Proof.
  unfold AwarenessManager.handleDatagram.
  destruct (Encoding.decodeAwarenessDatagram data) as [d|e]; [|reflexivity].
  destruct (Encoding.clientId d =? clientID (awareness (host w))); [reflexivity|].
  destruct (Encoding.clock d <=? _); [reflexivity|].
  destruct (decodeState (Encoding.state d)) as [state|e]; [|reflexivity].
  exact (proj2 (handleDatagram_stores d state now
           (set_remoteClocks (<[Encoding.clientId d := Encoding.clock d]> (remoteClocks am)) am)
           w)).
Qed.

(** One datagram and the clock table: a datagram of at least eight bytes from
    another client raises that client's recorded clock to its own clock when
    that is higher; nothing else in the table changes. *)
Lemma handleDatagram_recordedClock (data : bytes) (now : Z) (am : AwarenessMgr) (w : World)
  (client : Z) :
  recordedClock (fst (AwarenessManager.handleDatagram data now am w)) client =
    if (8 <=? List.length data)%nat
       && negb (Encoding.getUint32 data 0 =? clientID (awareness (host w)))
       && (Encoding.getUint32 data 0 =? client)
    then Z.max (recordedClock am client) (Encoding.getUint32 data 4)
    else recordedClock am client.
Proof.
  unfold AwarenessManager.handleDatagram, Encoding.decodeAwarenessDatagram, recordedClock.
  destruct (Nat.ltb_spec (List.length data) 8) as [Hshort|Hlong];
    destruct (Nat.leb_spec 8 (List.length data)); try lia; [reflexivity|].
  cbn [Encoding.clientId Encoding.clock Encoding.state andb].
  destruct (Z.eqb_spec (Encoding.getUint32 data 0) (clientID (awareness (host w))));
    [reflexivity|].
  cbn [negb].
  destruct (Z.leb_spec (Encoding.getUint32 data 4)
              (default 0 (remoteClocks am !! Encoding.getUint32 data 0)))
    as [Hstale|Hfresh].
  - cbn [fst]. destruct (Z.eqb_spec (Encoding.getUint32 data 0) client) as [<-|_];
      cbn [andb]; [lia|reflexivity].
  - match goal with |- context [remoteClocks (fst ?r)] =>
      assert (Hrec : remoteClocks (fst r)
                     = <[Encoding.getUint32 data 0 := Encoding.getUint32 data 4]>
                         (remoteClocks am))
    end.
    { destruct (decodeState (slice_from data 8)) as [state|e]; [|reflexivity].
      exact (proj1 (handleDatagram_stores
               {| Encoding.clientId := Encoding.getUint32 data 0;
                  Encoding.clock := Encoding.getUint32 data 4;
                  Encoding.state := slice_from data 8 |} state now
               (set_remoteClocks
                  (<[Encoding.getUint32 data 0 := Encoding.getUint32 data 4]>
                     (remoteClocks am)) am) w)). }
    rewrite Hrec.
    destruct (Z.eqb_spec (Encoding.getUint32 data 0) client) as [<-|Hne]; cbn [andb].
    + rewrite lookup_insert_eq. unfold default at 1. cbn [from_option id]. lia.
    + rewrite lookup_insert_ne by exact Hne. reflexivity.
Qed.

Lemma handleDatagrams_cons (arrival : bytes * Z) (arrivals : list (bytes * Z))
  (am : AwarenessMgr) (w : World) :
  handleDatagrams (arrival :: arrivals) am w =
    handleDatagrams arrivals
      (fst (AwarenessManager.handleDatagram (fst arrival) (snd arrival) am w))
      (snd (AwarenessManager.handleDatagram (fst arrival) (snd arrival) am w)).
Proof.
  unfold handleDatagrams. cbn [fold_left fst snd].
  destruct (AwarenessManager.handleDatagram (fst arrival) (snd arrival) am w). reflexivity.
Qed.

(** Whatever datagrams arrive, in whatever order, no client's recorded clock
    ever goes down. *)
Theorem recordedClock_never_decreases (arrivals : list (bytes * Z)) (am : AwarenessMgr)
  (w : World) (client : Z) :
  recordedClock am client <= recordedClock (fst (handleDatagrams arrivals am w)) client.
Proof.
  revert am w. induction arrivals as [|arrival arrivals IH]; intros am w.
  - cbn. lia.
  - rewrite handleDatagrams_cons.
    etransitivity; [|apply IH].
    rewrite handleDatagram_recordedClock.
    destruct (_ && _ && _); lia.
Qed.

(** Out-of-order reception: after the datagrams of one sender, other than the
    local client, have arrived in any order, the clock recorded for the sender
    is the highest of the clock recorded before and the clocks received. *)
Theorem recordedClock_is_highest_seen (sender : Z) (clocks : list (Z * bytes * Z))
  (am : AwarenessMgr) (w : World) :
  0 <= sender < 4294967296 ->
  sender <> clientID (awareness (host w)) ->
  Forall (fun c => 0 <= fst (fst c) < 4294967296) clocks ->
  recordedClock
    (fst (handleDatagrams
            (List.map (fun c => (Encoding.encodeAwarenessDatagram sender (fst (fst c))
                                   (snd (fst c)), snd c)) clocks) am w)) sender
  = fold_left Z.max (List.map (fun c => fst (fst c)) clocks) (recordedClock am sender).
Proof.
  intros Hsender Hother Hclocks. revert am w Hother.
  induction Hclocks as [|[[clock state] now] clocks Hc _ IH]; intros am w Hother;
    [reflexivity|].
  cbn [List.map fold_left fst snd] in *. rewrite handleDatagrams_cons. cbn [fst snd].
  rewrite IH by (rewrite handleDatagram_clientID; exact Hother).
  f_equal.
  rewrite handleDatagram_recordedClock.
  rewrite encodeAwarenessDatagram_length.
  pose proof (decode_encode_datagram sender clock state) as Hdec.
  unfold Encoding.decodeAwarenessDatagram in Hdec.
  rewrite encodeAwarenessDatagram_length in Hdec.
  destruct (Nat.ltb_spec (8 + List.length state) 8); [lia|].
  injection Hdec as Hid Hclock.
  rewrite Hid, Hclock, !Z.mod_small by lia.
  destruct (Nat.leb_spec 8 (8 + List.length state)); [|lia].
  destruct (Z.eqb_spec sender (clientID (awareness (host w)))); [contradiction|].
  rewrite Z.eqb_refl. reflexivity.
Qed.

(** [broadcastLocalStateDatagram] with a local state: the local clock goes up
    by one, also when there is no transport to send on; with a transport one
    datagram is written, and it decodes to the local client id, the new
    clock (both modulo 2^32) and the encoded local state. *)
Theorem broadcastLocalStateDatagram_sends (am : AwarenessMgr) (w : World) (state : bytes) :
  localStateBytes (awareness (host w)) = Some state ->
  let result := AwarenessManager.broadcastLocalStateDatagram am w in
  localClock (fst result) = localClock am + 1 /\
  remoteClocks (fst result) = remoteClocks am /\
  match transport (mgr w) with
  | None => snd result = w
  | Some tid =>
      exists datagram,
        snd result = emit (DatagramWrite tid datagram) w /\
        Encoding.decodeAwarenessDatagram datagram =
          Return {| Encoding.clientId := clientID (awareness (host w)) mod 4294967296;
                    Encoding.clock := (localClock am + 1) mod 4294967296;
                    Encoding.state := state |}
  end.
Proof.
  intros Hstate result. subst result.
  unfold AwarenessManager.broadcastLocalStateDatagram, ConnectionManager.sendDatagram.
  rewrite Hstate. cbn [fst snd localClock set_localClock remoteClocks].
  split; [reflexivity|]. split; [reflexivity|].
  destruct (transport (mgr w)) as [tid|]; [|reflexivity].
  eexists. split; [reflexivity|]. apply decode_encode_datagram.
Qed.

(** Without a local state nothing is sent and the clock stays. *)
Lemma broadcastLocalStateDatagram_no_state (am : AwarenessMgr) (w : World) :
  localStateBytes (awareness (host w)) = None ->
  AwarenessManager.broadcastLocalStateDatagram am w = (am, w).
Proof.
  intros Hstate. unfold AwarenessManager.broadcastLocalStateDatagram.
  rewrite Hstate. reflexivity.
Qed.

Lemma broadcastFullState_host (w : World) :
  host (AwarenessManager.broadcastFullState w) = host w.
Proof.
  unfold AwarenessManager.broadcastFullState, AwarenessManager.broadcastStateStream,
    ConnectionManager.sendSyncMessage.
  destruct (0 <? _)%nat; [|reflexivity].
  destruct (syncWriter (mgr w)); reflexivity.
Qed.

(** [start()] and [stop()]: [start()] arms one new interval when datagrams
    are on and the manager holds none, and no interval otherwise; the
    intervals armed before stay as they are; a second [start()] arms nothing;
    [stop()] disarms the interval the manager holds and forgets it, and a
    second [stop()] does nothing. *)
Theorem start_stop_interval (am : AwarenessMgr) (w : World) :
  let started := AwarenessManager.start am w in
  let again := AwarenessManager.start (fst started) (snd started) in
  let stopped := AwarenessManager.stop (fst started) (snd started) in
  intervals (host (snd started)) =
    intervals (host w)
    ++ (if useDatagrams am
        then match intervalId am with Some _ => [] | None => [fresh (host w)] end
        else []) /\
  intervalId (fst started) =
    (if useDatagrams am
     then match intervalId am with Some timer => Some timer | None => Some (fresh (host w)) end
     else intervalId am) /\
  (useDatagrams am = true -> exists timer, intervalId (fst started) = Some timer) /\
  intervalId (fst again) = intervalId (fst started) /\
  intervals (host (snd again)) = intervals (host (snd started)) /\
  intervalId (fst stopped) = None /\
  (forall timer, intervalId (fst started) = Some timer ->
     ~ In timer (intervals (host (snd stopped)))) /\
  intervalId (fst (AwarenessManager.stop (fst stopped) (snd stopped))) = None /\
  snd (AwarenessManager.stop (fst stopped) (snd stopped)) = snd stopped.
Proof.
  destruct am as [ud bi iid lc rc].
  unfold AwarenessManager.start, AwarenessManager.startDatagramBroadcast,
    AwarenessManager.stop.
  cbn [useDatagrams intervalId].
  destruct ud, iid as [t|];
    cbn [fst snd intervalId set_intervalId alloc useDatagrams broadcastInterval];
    rewrite ?broadcastFullState_host;
    cbn [fst snd intervalId set_intervalId host with_host emit intervals set_intervals
           set_fresh];
    rewrite ?broadcastFullState_host;
    cbn [fst snd intervalId set_intervalId host with_host emit intervals set_intervals
           set_fresh];
    repeat match goal with
      | |- _ /\ _ => split
      | |- _ = _ => reflexivity
      | |- _ -> exists _, _ => intros _; eexists; reflexivity
      | |- true = true -> _ => intros _
      | |- false = true -> _ => discriminate
      | |- forall timer, Some _ = Some timer -> _ =>
          intros timer Heq; injection Heq as <-; apply remove_not_In
      | |- forall timer, None = Some timer -> _ => discriminate
      end.
  all: rewrite ?app_nil_r; reflexivity.
Qed.

End Pipeline.

Lemma recordedClock_is_highest_seen_witness :
  recordedClock
    (fst (@handleDatagrams sampleExternal
            (List.map (fun c => (Encoding.encodeAwarenessDatagram 7 (fst (fst c))
                                   (snd (fst c)), snd c))
               [(3, [x7b; x7d], 10); (1, [x7b; x7d], 11); (2, [], 12); (4, [x7b; x7d], 13)])
            sampleAwareness sampleConnected)) 7
  = fold_left Z.max
      (List.map (fun c : Z * bytes * Z => fst (fst c))
         [(3, [x7b; x7d], 10); (1, [x7b; x7d], 11); (2, [], 12); (4, [x7b; x7d], 13)])
      (recordedClock sampleAwareness 7).
Proof.
  apply (@recordedClock_is_highest_seen sampleExternal 7
           [(3, [x7b; x7d], 10); (1, [x7b; x7d], 11); (2, [], 12); (4, [x7b; x7d], 13)]
           sampleAwareness sampleConnected).
  - lia.
  - discriminate.
  - repeat constructor; cbn; lia.
Defined.

Lemma broadcastLocalStateDatagram_sends_witness :
  let result :=
    @AwarenessManager.broadcastLocalStateDatagram sampleExternal sampleAwareness
      sampleConnected in
  localClock (fst result) = localClock sampleAwareness + 1 /\
  remoteClocks (fst result) = remoteClocks sampleAwareness /\
  match transport (mgr sampleConnected) with
  | None => snd result = sampleConnected
  | Some tid =>
      exists datagram,
        snd result = emit (DatagramWrite tid datagram) sampleConnected /\
        Encoding.decodeAwarenessDatagram datagram =
          Return {| Encoding.clientId :=
                      @clientID sampleExternal (awareness (host sampleConnected))
                        mod 4294967296;
                    Encoding.clock := (localClock sampleAwareness + 1) mod 4294967296;
                    Encoding.state := [x7b; x7d] |}
  end.
Proof.
  apply (@broadcastLocalStateDatagram_sends sampleExternal sampleAwareness sampleConnected
           [x7b; x7d]).
  reflexivity.
Defined.

(** ** Evicting stale clients *)

Section StaleStates.
Context `{External}.

Lemma cleanupStaleStates_fold (maxAge : option Z) (now localId : Z)
  (states : list (Z * option Z)) :
  forall (am : AwarenessMgr) (removed : list Z),
    let result :=
      fold_left (AwarenessManager.cleanupStep maxAge now localId) states (am, removed) in
    snd result = removed ++ List.map fst (List.filter (isStale maxAge now localId) states) /\
    (forall client,
        remoteClocks (fst result) !! client =
          if existsb (Z.eqb client)
               (List.map fst (List.filter (isStale maxAge now localId) states))
          then None else remoteClocks am !! client) /\
    useDatagrams (fst result) = useDatagrams am /\
    intervalId (fst result) = intervalId am /\
    localClock (fst result) = localClock am.
Proof.
  induction states as [|[clientId timestamp] states IH]; intros am removed result;
    subst result.
  - cbn. rewrite app_nil_r. auto.
  - assert (Hstep :
        AwarenessManager.cleanupStep maxAge now localId (am, removed) (clientId, timestamp) =
          if isStale maxAge now localId (clientId, timestamp)
          then (set_remoteClocks (delete clientId (remoteClocks am)) am, removed ++ [clientId])
          else (am, removed)).
    { unfold AwarenessManager.cleanupStep, isStale. cbn [fst snd].
      destruct (clientId =? localId); cbn [negb andb]; [reflexivity|].
      destruct (now - default 0 timestamp >? default 10000 maxAge); reflexivity. }
    cbn [fold_left List.filter]. rewrite Hstep.
    destruct (isStale maxAge now localId (clientId, timestamp)); [|apply IH].
    destruct (IH (set_remoteClocks (delete clientId (remoteClocks am)) am)
                (removed ++ [clientId])) as (Hs & Hc & Hu & Hi & Hl).
    cbn [List.map existsb fst].
    split; [rewrite Hs, <- app_assoc; reflexivity|].
    split; [|auto].
    intros client. rewrite Hc. cbn [remoteClocks set_remoteClocks].
    destruct (existsb (Z.eqb client) _); [rewrite orb_true_r; reflexivity|].
    rewrite orb_false_r.
    destruct (Z.eqb_spec client clientId) as [->|Hne].
    + apply lookup_delete_eq.
    + apply lookup_delete_ne. congruence.
Qed.

(** [cleanupStaleStates] evicts exactly the stale entries, in the order of
    the iteration, and never the local client; the clock of every evicted
    client is forgotten and every other recorded clock is kept. *)
Theorem cleanupStaleStates_evicts (maxAge : option Z) (now localId : Z)
  (states : list (Z * option Z)) (am : AwarenessMgr) :
  let result := AwarenessManager.cleanupStaleStates maxAge now states localId am in
  snd result = List.map fst (List.filter (isStale maxAge now localId) states) /\
  ~ In localId (snd result) /\
  (forall client,
      remoteClocks (fst result) !! client =
        if existsb (Z.eqb client) (snd result) then None else remoteClocks am !! client).
Proof.
  intros result. subst result. unfold AwarenessManager.cleanupStaleStates.
  destruct (cleanupStaleStates_fold maxAge now localId states am []) as (Hs & Hc & _).
  cbn [List.app] in Hs.
  split; [exact Hs|]. split.
  - rewrite Hs, in_map_iff. intros [[c t] [Hc' Hin]]. cbn [fst] in Hc'. subst c.
    apply filter_In in Hin as [_ Hst]. unfold isStale in Hst. cbn [fst] in Hst.
    rewrite Z.eqb_refl in Hst. discriminate.
  - intros client. rewrite Hs. apply Hc.
Qed.

End StaleStates.

(** ** What the provider's handlers leave alone *)

Lemma opens_emit `{External} (e : Event) (w : World) :
  opens (emit e w) =
    (opens w + match e with NewWebTransport _ => 1 | _ => 0 end)%nat.
Proof.
  unfold opens. cbn [trace emit]. rewrite List.filter_app, length_app.
  destruct e; reflexivity.
Qed.

Lemma timeoutsArmed_emit `{External} (e : Event) (w : World) :
  timeoutsArmed (emit e w) =
    (timeoutsArmed w + match e with SetTimeout _ _ => 1 | _ => 0 end)%nat.
Proof.
  unfold timeoutsArmed. cbn [trace emit]. rewrite List.filter_app, length_app.
  destruct e; reflexivity.
Qed.

Lemma sends_emit `{External} (e : Event) (w : World) :
  sends (emit e w) =
    (sends w + match e with StreamWrite _ _ | DatagramWrite _ _ => 1 | _ => 0 end)%nat.
Proof.
  unfold sends. cbn [trace emit]. rewrite List.filter_app, length_app.
  destruct e; reflexivity.
Qed.

Section Quiet.
Context `{External}.

Lemma quiet_refl (w : World) : quiet w w.
Proof. unfold quiet. repeat (split; [auto|]). exists []. symmetry. apply app_nil_r. Qed.

Lemma quiet_trans (w1 w2 w3 : World) : quiet w1 w2 -> quiet w2 w3 -> quiet w1 w3.
Proof.
  unfold quiet.
  intros (Hm & ? & ? & ? & Hs & ? & ? & es & He) (Hm' & ? & ? & ? & Hs' & ? & ? & es' & He').
  split; [congruence|]. split; [congruence|]. split; [congruence|]. split; [congruence|].
  split; [intros Hw Ht; rewrite Hs', Hs; auto; rewrite Hm; assumption|].
  split; [congruence|]. split; [congruence|].
  exists (es ++ es'). rewrite He', He. symmetry. apply app_assoc.
Qed.

Lemma quiet_emit (e : Event) (w : World) :
  match e with
  | NewWebTransport _ | SetTimeout _ _ | StreamWrite _ _ | DatagramWrite _ _ => False
  | _ => True
  end ->
  quiet w (emit e w).
Proof.
  intros He. unfold quiet. rewrite opens_emit, timeoutsArmed_emit, sends_emit.
  split; [reflexivity|]. split; [reflexivity|].
  split; [destruct e; try contradiction; lia|].
  split; [destruct e; try contradiction; lia|].
  split; [intros _ _; destruct e; try contradiction; lia|].
  split; [reflexivity|]. split; [reflexivity|]. exists [e]. reflexivity.
Qed.

Lemma quiet_same (w w' : World) :
  mgr w' = mgr w -> p_destroyed (prov w') = p_destroyed (prov w) ->
  timers (host w') = timers (host w) ->
  closedHandlers (host w') = closedHandlers (host w) ->
  trace w' = trace w ->
  quiet w w'.
Proof.
  intros Hm Hp Ht Hc Htr. unfold quiet, opens, timeoutsArmed, sends. rewrite Htr.
  repeat (split; [auto|]). exists []. symmetry. apply app_nil_r.
Qed.

Lemma quiet_with_prov (f : Provider -> Provider) (w : World) :
  (forall p, p_destroyed (f p) = p_destroyed p) -> quiet w (with_prov f w).
Proof. intros Hf. apply quiet_same; try reflexivity. apply Hf. Qed.

Lemma quiet_with_host (f : Host -> Host) (w : World) :
  (forall h, timers (f h) = timers h) ->
  (forall h, closedHandlers (f h) = closedHandlers h) ->
  quiet w (with_host f w).
Proof. intros Ht Hc. apply quiet_same; try reflexivity; [apply Ht|apply Hc]. Qed.

Ltac quiet_with lem :=
  match goal with
  | |- quiet ?w (?F ?x) => apply (quiet_trans w x); [|solve [apply lem]]
  end.

Ltac quiet_basic :=
  repeat first
    [ apply quiet_refl
    | match goal with
      | |- quiet ?w (emit ?e ?x) =>
          apply (quiet_trans w x); [|apply quiet_emit; exact I]
      | |- quiet ?w (with_prov ?f ?x) =>
          apply (quiet_trans w x); [|apply quiet_with_prov; reflexivity]
      | |- quiet ?w (with_host ?f ?x) =>
          apply (quiet_trans w x); [|apply quiet_with_host; reflexivity]
      end ].

Lemma quiet_sendSyncMessage (data : bytes) (w : World) :
  quiet w (ConnectionManager.sendSyncMessage data w).
Proof.
  unfold ConnectionManager.sendSyncMessage.
  destruct (syncWriter (mgr w)) eqn:Hw; quiet_basic.
  unfold quiet. rewrite opens_emit, timeoutsArmed_emit.
  split; [reflexivity|]. split; [reflexivity|]. split; [cbn; lia|]. split; [cbn; lia|].
  split; [intros; congruence|]. split; [reflexivity|]. split; [reflexivity|].
  eexists. reflexivity.
Qed.

Lemma quiet_sendDatagram (data : bytes) (w : World) :
  quiet w (ConnectionManager.sendDatagram data w).
Proof.
  unfold ConnectionManager.sendDatagram.
  destruct (transport (mgr w)) eqn:Ht; quiet_basic.
  unfold quiet. rewrite opens_emit, timeoutsArmed_emit.
  split; [reflexivity|]. split; [reflexivity|]. split; [cbn; lia|]. split; [cbn; lia|].
  split; [intros; congruence|]. split; [reflexivity|]. split; [reflexivity|].
  eexists. reflexivity.
Qed.

Lemma quiet_with_am (f : AwarenessMgr -> World -> AwarenessMgr * World) (w : World) :
  (forall am w, quiet w (snd (f am w))) ->
  quiet w (WebTransportProvider.with_am f w).
Proof.
  intros Hf. unfold WebTransportProvider.with_am.
  destruct (awarenessManager (prov w)) as [am|]; [|apply quiet_refl].
  specialize (Hf am w). destruct (f am w) as [am' w']. cbn [snd] in Hf.
  quiet_basic. exact Hf.
Qed.

Lemma quiet_broadcastLocalStateDatagram (am : AwarenessMgr) (w : World) :
  quiet w (snd (AwarenessManager.broadcastLocalStateDatagram am w)).
Proof.
  unfold AwarenessManager.broadcastLocalStateDatagram.
  destruct (localStateBytes _); cbn [snd]; [apply quiet_sendDatagram|apply quiet_refl].
Qed.

Lemma quiet_localAwarenessUpdate (added updated removed : list Z)
  (am : AwarenessMgr) (w : World) :
  quiet w (snd (AwarenessManager.localAwarenessUpdate added updated removed am w)).
Proof.
  unfold AwarenessManager.localAwarenessUpdate.
  destruct (existsb _ _); [|apply quiet_refl].
  destruct (useDatagrams am); [apply quiet_broadcastLocalStateDatagram|].
  cbn [snd]. apply quiet_sendSyncMessage.
Qed.

Lemma quiet_handleDatagram (data : bytes) (now : Z) (am : AwarenessMgr) (w : World) :
  quiet w (snd (AwarenessManager.handleDatagram data now am w)).
Proof.
  unfold AwarenessManager.handleDatagram.
  destruct (Encoding.decodeAwarenessDatagram data) as [d|e]; [|cbn [snd]; quiet_basic].
  destruct (_ =? _); [apply quiet_refl|].
  destruct (_ <=? _); [apply quiet_refl|].
  destruct (decodeState (Encoding.state d)) as [state|e]; [|cbn [snd]; quiet_basic].
  cbv zeta.
  destruct (localStateBytes _).
  - match goal with |- context [AwarenessManager.localAwarenessUpdate ?a ?u ?r ?m ?x] =>
      pose proof (quiet_localAwarenessUpdate a u r m x) as Hq;
      destruct (AwarenessManager.localAwarenessUpdate a u r m x) as [am' w']
    end.
    cbn [snd] in *. quiet_basic. eapply quiet_trans; [|exact Hq]. quiet_basic.
  - cbn [snd]. quiet_basic.
Qed.

Lemma quiet_handleStreamMessage (data : bytes) (am : AwarenessMgr) (w : World) :
  quiet w (snd (AwarenessManager.handleStreamMessage data am w)).
Proof. unfold AwarenessManager.handleStreamMessage. cbn [snd]. quiet_basic. Qed.

Lemma quiet_broadcastFullState (w : World) :
  quiet w (AwarenessManager.broadcastFullState w).
Proof.
  unfold AwarenessManager.broadcastFullState, AwarenessManager.broadcastStateStream.
  destruct (0 <? _)%nat; [apply quiet_sendSyncMessage|apply quiet_refl].
Qed.

Lemma quiet_start (am : AwarenessMgr) (w : World) :
  quiet w (snd (AwarenessManager.start am w)).
Proof.
  unfold AwarenessManager.start, AwarenessManager.startDatagramBroadcast.
  destruct (useDatagrams am); [destruct (intervalId am)|]; cbn [alloc snd fst];
    quiet_with quiet_broadcastFullState; quiet_basic.
Qed.

Lemma quiet_stop (am : AwarenessMgr) (w : World) :
  quiet w (snd (AwarenessManager.stop am w)).
Proof.
  unfold AwarenessManager.stop.
  destruct (intervalId am); cbn [snd]; quiet_basic.
Qed.

Lemma quiet_am_destroy (am : AwarenessMgr) (w : World) :
  quiet w (snd (AwarenessManager.destroy am w)).
Proof.
  unfold AwarenessManager.destroy.
  pose proof (quiet_stop am w) as Hs.
  destruct (AwarenessManager.stop am w) as [am' w']. cbn [snd] in *. quiet_basic. exact Hs.
Qed.

Lemma quiet_handleDocUpdate (update : bytes) (origin : Origin) (w : World) :
  quiet w (WebTransportProvider.handleDocUpdate update origin w).
Proof.
  unfold WebTransportProvider.handleDocUpdate.
  destruct (is_this origin); [apply quiet_refl|].
  destruct (negb _); [quiet_basic|apply quiet_sendSyncMessage].
Qed.

Lemma quiet_docUpdateEvent (update : bytes) (origin : Origin) (w : World) :
  quiet w (WebTransportProvider.docUpdateEvent update origin w).
Proof.
  unfold WebTransportProvider.docUpdateEvent.
  generalize (docObservers (host w)). intros l. revert w.
  induction l as [|o l IH]; intros w; cbn [fold_left]; [apply quiet_refl|].
  eapply quiet_trans; [|apply IH]. apply quiet_handleDocUpdate.
Qed.

Lemma quiet_startSync (w : World) : quiet w (WebTransportProvider.startSync w).
Proof.
  unfold WebTransportProvider.startSync, AwarenessManager.new. cbv beta iota zeta.
  eapply quiet_trans; [|apply quiet_with_am; intros; apply quiet_start].
  quiet_with quiet_sendSyncMessage. quiet_basic.
Qed.

Lemma quiet_handleStatusChange (status : ConnectionStatus) (w : World) :
  quiet w (WebTransportProvider.handleStatusChange status w).
Proof.
  unfold WebTransportProvider.handleStatusChange.
  destruct (status_eqb status connected && negb (_connected (prov w))).
  - quiet_basic. quiet_with quiet_startSync. quiet_basic.
  - destruct (status_eqb status disconnected && _connected (prov w)); quiet_basic.
Qed.

Lemma quiet_handleSyncMessage (data : bytes) (w : World) :
  quiet w (WebTransportProvider.handleSyncMessage data w).
Proof.
  unfold WebTransportProvider.handleSyncMessage.
  destruct (_ =? 0)%nat; [apply quiet_refl|].
  destruct (_ =? Protocol.MSG_SYNC_STEP1).
  { unfold WebTransportProvider.handleSyncStep1.
    destruct (readSyncStep1_throws _ _); [apply quiet_refl|].
    set (response := _ ++ readSyncStep1 _ _).
    destruct (1 <? List.length response)%nat.
    - destruct (negb _); [quiet_with quiet_sendSyncMessage|]; apply quiet_sendSyncMessage.
    - destruct (negb _); [apply quiet_sendSyncMessage|apply quiet_refl]. }
  destruct (_ =? Protocol.MSG_SYNC_STEP2).
  { unfold WebTransportProvider.handleSyncStep2.
    destruct (negb _); quiet_basic; quiet_with quiet_docUpdateEvent; quiet_basic. }
  destruct (_ =? Protocol.MSG_UPDATE).
  { unfold WebTransportProvider.handleRemoteUpdate.
    quiet_with quiet_docUpdateEvent. quiet_basic. }
  destruct (_ =? Protocol.MSG_AWARENESS).
  - apply quiet_with_am. intros. apply quiet_handleStreamMessage.
  - quiet_basic.
Qed.

Lemma quiet_provider_handleError (w : World) : quiet w (WebTransportProvider.handleError w).
Proof. unfold WebTransportProvider.handleError. quiet_basic. Qed.

Lemma quiet_provider_handleClose (code : Z) (why : string) (w : World) :
  quiet w (WebTransportProvider.handleClose code why w).
Proof. unfold WebTransportProvider.handleClose. quiet_basic. Qed.

Lemma quiet_provider_handleDatagram (now : Z) (data : bytes) (w : World) :
  quiet w (WebTransportProvider.handleDatagram now data w).
Proof. apply quiet_with_am. intros. apply quiet_handleDatagram. Qed.

End Quiet.

(** ** The connection manager's steps *)

Section Steady.
Context `{External}.

Lemma steady_refl (w : World) : steady w w.
Proof. unfold steady. tauto. Qed.

Lemma steady_trans (w1 w2 w3 : World) : steady w1 w2 -> steady w2 w3 -> steady w1 w3.
Proof.
  unfold steady.
  intros (? & ? & ? & ? & ? & ? & ? & ?) (? & ? & ? & ? & ? & ? & ? & ?).
  split; [congruence|]. split; [congruence|]. split; [congruence|].
  split; [congruence|]. split; [congruence|]. split; [congruence|]. split; auto.
Qed.

Lemma steady_quiet (w w' : World) : quiet w w' -> steady w w'.
Proof.
  unfold quiet, steady. intros (Hm & Hp & _). rewrite Hm. tauto.
Qed.

Lemma steady_same_mgr (w w' : World) :
  mgr w' = mgr w -> p_destroyed (prov w') = p_destroyed (prov w) -> steady w w'.
Proof. unfold steady. intros Hm Hp. rewrite Hm. tauto. Qed.

(** While [connect] runs, the transport is held before its stream is. *)
Lemma steady_after_open (t : option nat) (w w' : World) :
  steady (with_mgr (set_transport t) w) w' -> handlesTogether (mgr w') -> steady w w'.
Proof.
  unfold steady. cbn. intros (? & ? & ? & ? & ? & ? & _ & Hb) Hj. tauto.
Qed.

Lemma inert_refl (w : World) : inert w w.
Proof. unfold inert. auto. Qed.

Lemma inert_trans (w1 w2 w3 : World) : inert w1 w2 -> inert w2 w3 -> inert w1 w3.
Proof.
  unfold inert. intros H12 H23 Hc.
  destruct (H12 Hc) as (Hc2 & ? & ? & ?). destruct (H23 Hc2) as (Hc3 & ? & ? & ?).
  repeat split; try congruence; apply Hc3.
Qed.

Lemma inert_same (w w' : World) : mgr w' = mgr w -> trace w' = trace w -> inert w w'.
Proof.
  intros Hm Ht. unfold inert, closedDown, opens, timeoutsArmed, sends. rewrite Hm, Ht. auto.
Qed.

Lemma inert_quiet (w w' : World) : quiet w w' -> inert w w'.
Proof.
  unfold quiet, inert, closedDown. intros (Hm & _ & Ho & Ht & Hs & _) (Hd & Htr & Hw).
  rewrite Hm. repeat split; auto.
Qed.

Lemma cleanup_handles (w : World) :
  transport (mgr (ConnectionManager.cleanup w)) = None /\
  syncStream (mgr (ConnectionManager.cleanup w)) = None /\
  syncWriter (mgr (ConnectionManager.cleanup w)) = None /\
  syncReader (mgr (ConnectionManager.cleanup w)) = None.
Proof.
  destruct w as [[tr st wr rd att mx bd md rt de cb] p h t].
  unfold ConnectionManager.cleanup. destruct wr, rd; cbn; auto.
Qed.

Lemma steady_cleanup (w : World) : steady w (ConnectionManager.cleanup w).
Proof.
  destruct w as [[tr st wr rd att mx bd md rt de cb] p h t].
  unfold ConnectionManager.cleanup, steady, handlesTogether, retriesBounded.
  destruct wr, rd; cbn; tauto.
Qed.

Lemma inert_cleanup (w : World) : inert w (ConnectionManager.cleanup w).
Proof.
  destruct w as [[tr st wr rd att mx bd md rt de cb] p h t].
  unfold ConnectionManager.cleanup, inert, closedDown. cbn.
  intros (Hd & Htr & Hw). subst.
  unfold opens, timeoutsArmed, sends.
  destruct rd; cbn; rewrite ?List.filter_app, ?length_app; cbn; repeat split; auto; lia.
Qed.

Variable handlers : Handlers.
Hypothesis quiet_h_onStatusChange :
  forall s w, quiet w (h_onStatusChange handlers s w).
Hypothesis quiet_h_onSyncMessage :
  forall data w, quiet w (h_onSyncMessage handlers data w).
Hypothesis quiet_h_onDatagram :
  forall data w, quiet w (h_onDatagram handlers data w).
Hypothesis quiet_h_onError : forall w, quiet w (h_onError handlers w).
Hypothesis quiet_h_onClose : forall code why w, quiet w (h_onClose handlers code why w).

Lemma quiet_onStatusChange (s : ConnectionStatus) (w : World) :
  quiet w (ConnectionManager.onStatusChange handlers s w).
Proof.
  unfold ConnectionManager.onStatusChange.
  destruct (callbacks (mgr w)); [|apply quiet_refl].
  eapply quiet_trans; [|apply quiet_h_onStatusChange]. apply quiet_emit. exact I.
Qed.

Lemma quiet_onSyncMessage (data : bytes) (w : World) :
  quiet w (ConnectionManager.onSyncMessage handlers data w).
Proof.
  unfold ConnectionManager.onSyncMessage.
  destruct (callbacks (mgr w)); [apply quiet_h_onSyncMessage|apply quiet_refl].
Qed.

Lemma quiet_onDatagram (data : bytes) (w : World) :
  quiet w (ConnectionManager.onDatagram handlers data w).
Proof.
  unfold ConnectionManager.onDatagram.
  destruct (callbacks (mgr w)); [apply quiet_h_onDatagram|apply quiet_refl].
Qed.

Lemma quiet_onError (w : World) : quiet w (ConnectionManager.onError handlers w).
Proof.
  unfold ConnectionManager.onError.
  destruct (callbacks (mgr w)); [|apply quiet_refl].
  eapply quiet_trans; [|apply quiet_h_onError]. apply quiet_emit. exact I.
Qed.

Lemma quiet_onClose (code : Z) (why : string) (w : World) :
  quiet w (ConnectionManager.onClose handlers code why w).
Proof.
  unfold ConnectionManager.onClose.
  destruct (callbacks (mgr w)); [|apply quiet_refl].
  eapply quiet_trans; [|apply quiet_h_onClose]. apply quiet_emit. exact I.
Qed.

Lemma steady_scheduleReconnect (rnd : Q) (w : World) :
  steady w (ConnectionManager.scheduleReconnect handlers rnd w).
Proof.
  unfold ConnectionManager.scheduleReconnect.
  destruct (_ >=? _) eqn:Hmax; [apply steady_quiet, quiet_emit; exact I|].
  pose proof (quiet_onStatusChange reconnecting w) as Hq.
  set (w1 := ConnectionManager.onStatusChange handlers reconnecting w) in *.
  clearbody w1. destruct Hq as (Hm & Hp & _).
  rewrite <- Hm in Hmax. unfold steady. rewrite <- Hm, <- Hp. clear Hm Hp w.
  destruct w1 as [[tr st wr rd att mx bd md rt de cb] p h t].
  cbn in *. unfold handlesTogether, retriesBounded. cbn.
  repeat (split; [reflexivity|]). split; [tauto|]. lia.
Qed.

Lemma steady_handleError (rnd : Q) (w : World) :
  steady w (ConnectionManager.handleError handlers rnd w).
Proof.
  unfold ConnectionManager.handleError. cbv zeta.
  assert (Hs : steady w (ConnectionManager.onError handlers (ConnectionManager.cleanup w))).
  { eapply steady_trans; [apply steady_cleanup|apply steady_quiet, quiet_onError]. }
  destruct (destroyed _); [exact Hs|].
  eapply steady_trans; [exact Hs|apply steady_scheduleReconnect].
Qed.

Lemma handleError_handles (rnd : Q) (w : World) :
  handlesTogether (mgr (ConnectionManager.handleError handlers rnd w)).
Proof.
  assert (Hj : handlesTogether (mgr (ConnectionManager.cleanup w))).
  { destruct (cleanup_handles w) as (Ht & Hs & Hw & Hr).
    unfold handlesTogether. rewrite Ht, Hs, Hw, Hr. auto. }
  unfold ConnectionManager.handleError. cbv zeta.
  pose proof (quiet_onError (ConnectionManager.cleanup w)) as Hq.
  apply steady_quiet in Hq.
  destruct (destroyed _).
  - apply Hq, Hj.
  - apply (steady_scheduleReconnect rnd), Hq, Hj.
Qed.

Lemma inert_handleError (rnd : Q) (w : World) :
  inert w (ConnectionManager.handleError handlers rnd w).
Proof.
  unfold ConnectionManager.handleError. cbv zeta.
  assert (Hs : inert w (ConnectionManager.onError handlers (ConnectionManager.cleanup w))).
  { eapply inert_trans; [apply inert_cleanup|apply inert_quiet, quiet_onError]. }
  intros Hc. destruct (Hs Hc) as (Hc' & Hrest).
  destruct Hc' as (Hd & Hc'). rewrite Hd. unfold closedDown. auto.
Qed.

Lemma steady_handleClose (closeInfo : CloseInfo) (rnd : Q) (w : World) :
  steady w (ConnectionManager.handleClose handlers closeInfo rnd w).
Proof.
  unfold ConnectionManager.handleClose. cbv zeta.
  match goal with |- context [destroyed (mgr ?x)] =>
    assert (Hs : steady w x) end.
  { eapply steady_trans; [|apply steady_quiet, quiet_onStatusChange].
    eapply steady_trans; [apply steady_cleanup|apply steady_quiet, quiet_onClose]. }
  destruct (destroyed _); [exact Hs|].
  eapply steady_trans; [exact Hs|apply steady_scheduleReconnect].
Qed.

Lemma inert_handleClose (closeInfo : CloseInfo) (rnd : Q) (w : World) :
  inert w (ConnectionManager.handleClose handlers closeInfo rnd w).
Proof.
  unfold ConnectionManager.handleClose. cbv zeta.
  match goal with |- context [destroyed (mgr ?x)] =>
    assert (Hs : inert w x) end.
  { eapply inert_trans; [|apply inert_quiet, quiet_onStatusChange].
    eapply inert_trans; [apply inert_cleanup|apply inert_quiet, quiet_onClose]. }
  intros Hc. destruct (Hs Hc) as (Hc' & Hrest).
  destruct Hc' as (Hd & Hc'). rewrite Hd. unfold closedDown. auto.
Qed.

Lemma steady_connect (outcome : Outcome) (rnd : Q) (w : World) :
  steady w (snd (ConnectionManager.connect handlers outcome rnd w)).
Proof.
  unfold ConnectionManager.connect.
  destruct (destroyed (mgr w)); [apply steady_refl|].
  destruct (negb _); [apply steady_refl|].
  cbv zeta.
  pose proof (quiet_onStatusChange connecting w) as Hq.
  set (w1 := ConnectionManager.onStatusChange handlers connecting w) in *.
  clearbody w1. apply steady_quiet in Hq.
  eapply steady_trans; [exact Hq|]. clear Hq w.
  cbn [alloc].
  destruct outcome; cbn [snd].
  - match goal with |- steady _ (_ _ _ (with_mgr _ ?x)) =>
      apply (steady_trans w1 x); [apply steady_same_mgr; reflexivity|] end.
    eapply steady_after_open; [apply steady_handleError|apply handleError_handles].
  - eapply steady_trans; [|apply steady_quiet, quiet_onStatusChange].
    destruct w1 as [[tr st wr rd att mx bd md rt de cb] p h t].
    unfold steady, handlesTogether, retriesBounded. cbn.
    repeat (split; [reflexivity|]). split; [tauto|]. lia.
Qed.

Lemma inert_connect (outcome : Outcome) (rnd : Q) (w : World) :
  inert w (snd (ConnectionManager.connect handlers outcome rnd w)).
Proof.
  intros Hc. unfold ConnectionManager.connect.
  destruct Hc as (Hd & Hc). rewrite Hd. cbn [snd]. unfold closedDown. auto.
Qed.

Lemma steady_disconnect (w : World) : steady w (ConnectionManager.disconnect handlers w).
Proof.
  unfold ConnectionManager.disconnect. cbv zeta.
  eapply steady_trans; [|apply steady_quiet, quiet_onStatusChange].
  eapply steady_trans; [|apply steady_cleanup].
  destruct w as [[tr st wr rd att mx bd md rt de cb] p h t].
  unfold steady, handlesTogether, retriesBounded.
  destruct rt, tr; cbn; tauto.
Qed.

Lemma inert_disconnect (w : World) : inert w (ConnectionManager.disconnect handlers w).
Proof.
  unfold ConnectionManager.disconnect. cbv zeta.
  eapply inert_trans; [|apply inert_quiet, quiet_onStatusChange].
  eapply inert_trans; [|apply inert_cleanup].
  destruct w as [[tr st wr rd att mx bd md rt de cb] p h t].
  unfold inert, closedDown. cbn. intros (Hd & Htr & Hw). subst.
  unfold opens, timeoutsArmed, sends.
  destruct rt; cbn; rewrite ?List.filter_app, ?length_app; cbn; repeat split; auto; lia.
Qed.

(** [disconnect] leaves no handle, whatever the state it is called in, and
    neither opens a transport, arms a timer nor sends. *)
Lemma disconnect_closes (w : World) :
  let w' := ConnectionManager.disconnect handlers w in
  transport (mgr w') = None /\ syncWriter (mgr w') = None /\
  handlesTogether (mgr w') /\
  destroyed (mgr w') = destroyed (mgr w) /\
  opens w' = opens w /\ timeoutsArmed w' = timeoutsArmed w /\ sends w' = sends w.
Proof.
  unfold ConnectionManager.disconnect. cbv zeta.
  match goal with |- context [ConnectionManager.cleanup ?x] => set (w1 := x) end.
  assert (H1 : destroyed (mgr w1) = destroyed (mgr w) /\ opens w1 = opens w /\
               timeoutsArmed w1 = timeoutsArmed w /\ sends w1 = sends w).
  { subst w1. destruct w as [[tr st wr rd att mx bd md rt de cb] p h t].
    unfold opens, timeoutsArmed, sends.
    destruct rt, tr; cbn; rewrite ?List.filter_app, ?length_app; cbn;
      repeat split; auto; lia. }
  clearbody w1. destruct H1 as (Hd & Ho & Ht & Hs). rewrite <- Hd, <- Ho, <- Ht, <- Hs.
  clear Hd Ho Ht Hs w.
  destruct (cleanup_handles w1) as (Htr & Hst & Hwr & Hrd).
  assert (H2 : destroyed (mgr (ConnectionManager.cleanup w1)) = destroyed (mgr w1) /\
               opens (ConnectionManager.cleanup w1) = opens w1 /\
               timeoutsArmed (ConnectionManager.cleanup w1) = timeoutsArmed w1 /\
               sends (ConnectionManager.cleanup w1) = sends w1).
  { destruct w1 as [[tr st wr rd att mx bd md rt de cb] p h t].
    unfold ConnectionManager.cleanup, opens, timeoutsArmed, sends.
    destruct wr, rd; cbn; rewrite ?List.filter_app, ?length_app; cbn;
      repeat split; auto; lia. }
  destruct H2 as (Hd & Ho & Ht & Hs). rewrite <- Hd, <- Ho, <- Ht, <- Hs.
  destruct (quiet_onStatusChange disconnected (ConnectionManager.cleanup w1))
    as (Hm & _ & Ho' & Ht' & Hs' & _).
  rewrite Hm, Ho', Ht', Hs' by assumption.
  unfold handlesTogether. rewrite Htr, Hst, Hwr, Hrd. tauto.
Qed.

Lemma destroy_closes (w : World) :
  let w' := ConnectionManager.destroy handlers w in
  closedDown w' /\ handlesTogether (mgr w') /\
  opens w' = opens w /\ timeoutsArmed w' = timeoutsArmed w /\ sends w' = sends w.
Proof.
  unfold ConnectionManager.destroy.
  destruct (disconnect_closes (with_mgr (set_destroyed true) w))
    as (Htr & Hwr & Hj & Hd & Ho & Ht & Hs).
  unfold closedDown. rewrite Htr, Hwr, Hd, Ho, Ht, Hs. cbn. tauto.
Qed.

(** [destroy] keeps everything [steady] keeps but the manager's flag. *)
Lemma destroy_steady (w : World) :
  steady (with_mgr (set_destroyed true) w) (ConnectionManager.destroy handlers w).
Proof. apply steady_disconnect. Qed.

Lemma steady_timerFires (timer : nat) (outcome : Outcome) (rnd : Q) (w : World) :
  steady w (ConnectionManager.timerFires handlers timer outcome rnd w).
Proof.
  unfold ConnectionManager.timerFires.
  destruct (existsb _ _); [|apply steady_refl].
  eapply steady_trans; [|apply steady_connect].
  apply steady_same_mgr; reflexivity.
Qed.

Lemma inert_timerFires (timer : nat) (outcome : Outcome) (rnd : Q) (w : World) :
  inert w (ConnectionManager.timerFires handlers timer outcome rnd w).
Proof.
  unfold ConnectionManager.timerFires.
  destruct (existsb _ _); [|apply inert_refl].
  eapply inert_trans; [|apply inert_connect].
  apply inert_same; reflexivity.
Qed.

Lemma steady_closedFulfilled (tid : nat) (closeInfo : CloseInfo) (rnd : Q) (w : World) :
  steady w (ConnectionManager.closedFulfilled handlers tid closeInfo rnd w).
Proof.
  unfold ConnectionManager.closedFulfilled.
  destruct (existsb _ _); [|apply steady_refl].
  eapply steady_trans; [|apply steady_handleClose].
  apply steady_same_mgr; reflexivity.
Qed.

Lemma inert_closedFulfilled (tid : nat) (closeInfo : CloseInfo) (rnd : Q) (w : World) :
  inert w (ConnectionManager.closedFulfilled handlers tid closeInfo rnd w).
Proof.
  unfold ConnectionManager.closedFulfilled.
  destruct (existsb _ _); [|apply inert_refl].
  eapply inert_trans; [|apply inert_handleClose].
  apply inert_same; reflexivity.
Qed.

Lemma steady_closedRejected (tid : nat) (rnd : Q) (w : World) :
  steady w (ConnectionManager.closedRejected handlers tid rnd w).
Proof.
  unfold ConnectionManager.closedRejected.
  destruct (existsb _ _); [|apply steady_refl].
  eapply steady_trans; [|apply steady_handleError].
  apply steady_same_mgr; reflexivity.
Qed.

Lemma inert_closedRejected (tid : nat) (rnd : Q) (w : World) :
  inert w (ConnectionManager.closedRejected handlers tid rnd w).
Proof.
  unfold ConnectionManager.closedRejected.
  destruct (existsb _ _); [|apply inert_refl].
  eapply inert_trans; [|apply inert_handleError].
  apply inert_same; reflexivity.
Qed.

Lemma steady_streamReadFails (rnd : Q) (w : World) :
  steady w (ConnectionManager.streamReadFails handlers rnd w).
Proof.
  unfold ConnectionManager.streamReadFails.
  destruct (destroyed _); [apply steady_refl|apply steady_handleError].
Qed.

Lemma inert_streamReadFails (rnd : Q) (w : World) :
  inert w (ConnectionManager.streamReadFails handlers rnd w).
Proof.
  unfold ConnectionManager.streamReadFails.
  destruct (destroyed _); [apply inert_refl|apply inert_handleError].
Qed.

Lemma quiet_handOver (messages : list bytes) :
  forall w, quiet w (fst (handOver handlers messages w)).
Proof.
  induction messages as [|m messages IH]; intros w; cbn [handOver]; [apply quiet_refl|].
  destruct (ConnectionManager.onSyncMessage_throws handlers m w); cbn [fst].
  - apply quiet_onSyncMessage.
  - eapply quiet_trans; [apply quiet_onSyncMessage|apply IH].
Qed.

Lemma quiet_deliverFrames (buffer : bytes) (w : World) :
  quiet w (snd (fst (ConnectionManager.deliverFrames handlers buffer w))).
Proof.
  destruct (deliverFrames_agrees_handOver handlers buffer w) as (Heq & _).
  apply (f_equal fst) in Heq. cbn [fst] in Heq. rewrite Heq. apply quiet_handOver.
Qed.

Lemma steady_streamChunk (rnd : Q) (value : bytes) (w : World) :
  steady w (ConnectionManager.streamChunk handlers rnd value w).
Proof.
  unfold ConnectionManager.streamChunk.
  pose proof (quiet_deliverFrames (readBuffer (host w) ++ value) w) as Hq.
  destruct (ConnectionManager.deliverFrames handlers (readBuffer (host w) ++ value) w)
    as [[rest w1] threw].
  cbn [fst snd] in Hq. cbv zeta.
  assert (Hs : steady w (with_host (set_readBuffer rest) w1)).
  { eapply steady_trans; [apply steady_quiet, Hq|].
    apply steady_quiet, quiet_with_host; reflexivity. }
  destruct threw; [|exact Hs].
  destruct (destroyed _); [exact Hs|].
  eapply steady_trans; [exact Hs|apply steady_handleError].
Qed.

Lemma inert_streamChunk (rnd : Q) (value : bytes) (w : World) :
  inert w (ConnectionManager.streamChunk handlers rnd value w).
Proof.
  unfold ConnectionManager.streamChunk.
  pose proof (quiet_deliverFrames (readBuffer (host w) ++ value) w) as Hq.
  destruct (ConnectionManager.deliverFrames handlers (readBuffer (host w) ++ value) w)
    as [[rest w1] threw].
  cbn [fst snd] in Hq. cbv zeta.
  assert (Hs : inert w (with_host (set_readBuffer rest) w1)).
  { eapply inert_trans; [apply inert_quiet, Hq|].
    apply inert_quiet, quiet_with_host; reflexivity. }
  destruct threw; [|exact Hs].
  destruct (destroyed _); [exact Hs|].
  eapply inert_trans; [exact Hs|apply inert_handleError].
Qed.

Lemma quiet_datagramArrives (value : bytes) (w : World) :
  quiet w (ConnectionManager.datagramArrives handlers value w).
Proof. apply quiet_onDatagram. Qed.

Lemma connect_opens (rnd : Q) (w : World) :
  destroyed (mgr w) = false ->
  supported (host w) = true ->
  let w1 := ConnectionManager.onStatusChange handlers connecting w in
  let tid := fresh (host w1) in
  let result := ConnectionManager.connect handlers Opens rnd w in
  fst result = Return tt /\
  transport (mgr (snd result)) = Some tid /\
  syncStream (mgr (snd result)) = Some tid /\
  syncWriter (mgr (snd result)) = Some tid /\
  syncReader (mgr (snd result)) = Some tid /\
  reconnectAttempts (mgr (snd result)) = 0%nat /\
  closedHandlers (host (snd result)) = closedHandlers (host w) ++ [tid] /\
  opens (snd result) = S (opens w) /\
  timeoutsArmed (snd result) = timeoutsArmed w /\
  exists after,
    trace (snd result) =
      trace w1 ++ [NewWebTransport tid; CreateBidirectionalStream tid;
                   StreamWrite tid [u8 Protocol.STREAM_SYNC]] ++ after.
Proof.
  intros Hd Hs. cbv zeta. unfold ConnectionManager.connect. rewrite Hd, Hs.
  cbn [negb alloc fst snd].
  destruct (quiet_onStatusChange connecting w) as (_ & _ & Ho & Ht & _ & _ & Hc & _).
  set (w1 := ConnectionManager.onStatusChange handlers connecting w) in *.
  clearbody w1. rewrite <- Ho, <- Ht, <- Hc. clear Ho Ht Hc Hd Hs w.
  match goal with |- context [ConnectionManager.onStatusChange handlers connected ?x] =>
    destruct (quiet_onStatusChange connected x) as (Hm & _ & Ho & Ht & _ & _ & Hc & after & Ha);
    rewrite Hm, Ho, Ht, Hc, Ha
  end.
  destruct w1 as [[tr st wr rd att mx bd md rt de cb] p h t].
  unfold opens, timeoutsArmed. cbn.
  rewrite ?List.filter_app, ?length_app. cbn.
  repeat (split; [reflexivity || lia|]).
  exists after. rewrite <- !app_assoc. reflexivity.
Qed.

End Steady.

(** ** The provider's events *)

Section ProviderRuns.
Context `{External}.

Ltac handlers_quiet :=
  intros;
  first [ apply quiet_handleStatusChange
        | apply quiet_handleSyncMessage
        | apply quiet_provider_handleDatagram
        | apply quiet_provider_handleError
        | apply quiet_provider_handleClose ].

Lemma steady_providerStep (now : Z) (ev : ProviderEvent) (w : World) :
  ev <> CallDestroy -> steady w (providerStep now ev w).
Proof.
  intros Hev. destruct ev as [outcome rnd| | |update origin|d a|past|past added updated removed
                             |timer outcome rnd|tid closeInfo rnd|tid rnd|rnd|value|value];
    cbn [providerStep].
  - unfold WebTransportProvider.connect.
    destruct (p_destroyed _); [apply steady_refl|].
    apply steady_connect; handlers_quiet.
  - unfold WebTransportProvider.disconnect.
    eapply steady_trans; [|apply steady_quiet, quiet_with_am; intros; apply quiet_stop].
    apply steady_disconnect; handlers_quiet.
  - contradiction.
  - apply steady_quiet, quiet_docUpdateEvent.
  - apply steady_quiet, quiet_with_host; reflexivity.
  - destruct past as [am|].
    + apply steady_quiet, quiet_broadcastLocalStateDatagram.
    + apply steady_quiet, quiet_with_am. intros am w0.
      destruct (intervalId am); [apply quiet_broadcastLocalStateDatagram|apply quiet_refl].
  - destruct past as [am|].
    + apply steady_quiet, quiet_localAwarenessUpdate.
    + apply steady_quiet, quiet_with_am. intros. apply quiet_localAwarenessUpdate.
  - apply steady_timerFires; handlers_quiet.
  - apply steady_closedFulfilled; handlers_quiet.
  - apply steady_closedRejected; handlers_quiet.
  - apply steady_streamReadFails; handlers_quiet.
  - apply steady_streamChunk; handlers_quiet.
  - apply steady_quiet, quiet_datagramArrives; handlers_quiet.
Qed.

Lemma inert_destroy (now : Z) (w : World) :
  inert w (WebTransportProvider.destroy now w).
Proof.
  unfold WebTransportProvider.destroy.
  destruct (p_destroyed _); [apply inert_refl|]. cbv zeta. cbn [alloc].
  eapply inert_trans; [|apply inert_quiet, quiet_emit; exact I].
  eapply inert_trans; [|apply inert_quiet, quiet_emit; exact I].
  eapply inert_trans; [|apply inert_quiet, quiet_with_host; reflexivity].
  eapply inert_trans; [|apply inert_quiet, quiet_with_host; reflexivity].
  unfold ConnectionManager.destroy.
  eapply inert_trans; [|apply inert_disconnect; handlers_quiet].
  match goal with |- inert _ (with_mgr _ ?x) => apply (inert_trans w x) end.
  - eapply inert_trans; [|apply inert_quiet, quiet_with_am; intros; apply quiet_am_destroy].
    eapply inert_trans; [|apply inert_quiet, quiet_emit; exact I].
    intros Hc. repeat split; apply Hc.
  - intros Hc. unfold closedDown in *. cbn. tauto.
Qed.

Lemma inert_providerStep (now : Z) (ev : ProviderEvent) (w : World) :
  inert w (providerStep now ev w).
Proof.
  destruct ev as [outcome rnd| | |update origin|d a|past|past added updated removed
                 |timer outcome rnd|tid closeInfo rnd|tid rnd|rnd|value|value];
    cbn [providerStep].
  - unfold WebTransportProvider.connect.
    destruct (p_destroyed _); [apply inert_refl|].
    apply inert_connect.
  - unfold WebTransportProvider.disconnect.
    eapply inert_trans; [|apply inert_quiet, quiet_with_am; intros; apply quiet_stop].
    apply inert_disconnect; handlers_quiet.
  - apply inert_destroy.
  - apply inert_quiet, quiet_docUpdateEvent.
  - apply inert_quiet, quiet_with_host; reflexivity.
  - destruct past as [am|].
    + apply inert_quiet, quiet_broadcastLocalStateDatagram.
    + apply inert_quiet, quiet_with_am. intros am w0.
      destruct (intervalId am); [apply quiet_broadcastLocalStateDatagram|apply quiet_refl].
  - destruct past as [am|].
    + apply inert_quiet, quiet_localAwarenessUpdate.
    + apply inert_quiet, quiet_with_am. intros. apply quiet_localAwarenessUpdate.
  - apply inert_timerFires; handlers_quiet.
  - apply inert_closedFulfilled; handlers_quiet.
  - apply inert_closedRejected; handlers_quiet.
  - apply inert_streamReadFails; handlers_quiet.
  - apply inert_streamChunk; handlers_quiet.
  - apply inert_quiet, quiet_datagramArrives; handlers_quiet.
Qed.

Lemma destroy_settles (now : Z) (w : World) :
  let w' := WebTransportProvider.destroy now w in
  (handlesTogether (mgr w) -> retriesBounded (mgr w) ->
   (p_destroyed (prov w) = true -> closedDown w) -> settled w') /\
  (p_destroyed (prov w) = false -> closedDown w') /\
  p_destroyed (prov w') = true /\
  maxReconnectAttempts (mgr w') = maxReconnectAttempts (mgr w) /\
  reconnectBaseDelay (mgr w') = reconnectBaseDelay (mgr w) /\
  reconnectMaxDelay (mgr w') = reconnectMaxDelay (mgr w).
Proof.
  unfold WebTransportProvider.destroy.
  destruct (p_destroyed (prov w)) eqn:Hp.
  { cbv zeta. split; [intros Hj Hb Hd; unfold settled; auto|].
    split; [discriminate|]. rewrite Hp. auto. }
  cbv zeta. cbn [alloc].
  match goal with |- context [ConnectionManager.destroy ?h ?x] =>
    set (w1 := x); set (w2 := ConnectionManager.destroy h w1) end.
  assert (H1 : mgr w1 = mgr w /\ p_destroyed (prov w1) = true).
  { subst w1.
    match goal with |- context [WebTransportProvider.with_am ?f ?x] =>
      destruct (quiet_with_am f x (quiet_am_destroy)) as (Hm & Hpd & _) end.
    rewrite Hm, Hpd. cbn. auto. }
  destruct H1 as (Hm1 & Hp1).
  pose proof (destroy_closes (WebTransportProvider.handlers now)
                ltac:(handlers_quiet) w1) as Hdc.
  pose proof (destroy_steady (WebTransportProvider.handlers now)
                ltac:(handlers_quiet) w1) as Hs.
  cbv zeta in Hdc.
  change (ConnectionManager.destroy (WebTransportProvider.handlers now) w1) with w2 in Hdc, Hs.
  clearbody w2. clearbody w1.
  destruct Hdc as (Hc & Hj & _).
  unfold steady in Hs. cbn [mgr prov with_mgr set_destroyed maxReconnectAttempts
                              reconnectBaseDelay reconnectMaxDelay] in Hs.
  destruct Hs as (Hmx & Hbd & Hmd & _ & _ & Hp2 & _ & Hb).
  unfold settled, closedDown in *.
  cbn [mgr prov emit with_host].
  rewrite Hmx, Hbd, Hmd, Hp2, Hp1, Hm1.
  split; [|tauto].
  intros _ Hb0 _. split; [exact Hj|]. split; [|tauto].
  apply Hb. unfold retriesBounded in *. cbn. rewrite Hm1. exact Hb0.
Qed.

Lemma settled_providerStep (now : Z) (ev : ProviderEvent) (w : World) :
  settled w ->
  settled (providerStep now ev w) /\
  maxReconnectAttempts (mgr (providerStep now ev w)) = maxReconnectAttempts (mgr w) /\
  reconnectBaseDelay (mgr (providerStep now ev w)) = reconnectBaseDelay (mgr w) /\
  reconnectMaxDelay (mgr (providerStep now ev w)) = reconnectMaxDelay (mgr w).
Proof.
  intros (Hj & Hb & Hd).
  assert (Hcases : ev = CallDestroy \/ ev <> CallDestroy)
    by (destruct ev; auto; right; discriminate).
  destruct Hcases as [->|Hev].
  - cbn [providerStep]. destruct (destroy_settles now w) as (Hs & _ & _ & Hcfg).
    split; [apply Hs; assumption|exact Hcfg].
  - pose proof (steady_providerStep now ev w Hev) as Hs.
    pose proof (inert_providerStep now ev w) as Hi.
    unfold steady in Hs. destruct Hs as (Hmx & Hbd & Hmd & _ & _ & Hp & Hj' & Hb').
    unfold settled. rewrite Hp.
    split; [|tauto]. split; [tauto|]. split; [tauto|].
    intros Hpd. apply Hi, Hd, Hpd.
Qed.

Lemma settled_providerRun (evs : list (Z * ProviderEvent)) :
  forall w,
    settled w ->
    settled (providerRun evs w) /\
    maxReconnectAttempts (mgr (providerRun evs w)) = maxReconnectAttempts (mgr w) /\
    reconnectBaseDelay (mgr (providerRun evs w)) = reconnectBaseDelay (mgr w) /\
    reconnectMaxDelay (mgr (providerRun evs w)) = reconnectMaxDelay (mgr w).
Proof.
  induction evs as [|[now ev] evs IH]; intros w Hw; [cbn; auto|].
  unfold providerRun in *. cbn [fold_left fst snd].
  destruct (settled_providerStep now ev w Hw) as (Hs & Hmx & Hbd & Hmd).
  destruct (IH _ Hs) as (Hs' & Hmx' & Hbd' & Hmd').
  rewrite Hmx', Hbd', Hmd'. auto.
Qed.

Lemma inert_providerRun (evs : list (Z * ProviderEvent)) :
  forall w, inert w (providerRun evs w).
Proof.
  induction evs as [|[now ev] evs IH]; intros w; [apply inert_refl|].
  unfold providerRun in *. cbn [fold_left fst snd].
  eapply inert_trans; [apply inert_providerStep|apply IH].
Qed.

Lemma p_destroyed_providerRun (evs : list (Z * ProviderEvent)) :
  forall w, p_destroyed (prov w) = true -> p_destroyed (prov (providerRun evs w)) = true.
Proof.
  induction evs as [|[now ev] evs IH]; intros w Hw; [exact Hw|].
  unfold providerRun in *. cbn [fold_left fst snd]. apply IH.
  assert (Hcases : ev = CallDestroy \/ ev <> CallDestroy)
    by (destruct ev; auto; right; discriminate).
  destruct Hcases as [->|Hev].
  - apply (destroy_settles now w).
  - pose proof (steady_providerStep now ev w Hev) as Hs.
    unfold steady in Hs. destruct Hs as (_ & _ & _ & _ & _ & Hp & _). congruence.
Qed.

Lemma settled_new (options : Options) (hasWebTransport : bool)
  (d : DocState) (a : AwarenessState) (now : Z) (outcome : Outcome) (rnd : Q) :
  let w := WebTransportProvider.new options hasWebTransport d a now outcome rnd in
  settled w /\
  maxReconnectAttempts (mgr w) = default 10 (opt_maxReconnectAttempts options) /\
  reconnectBaseDelay (mgr w) = default (inject_Z 1000) (opt_reconnectBaseDelay options) /\
  reconnectMaxDelay (mgr w) = default (inject_Z 30000) (opt_reconnectMaxDelay options).
Proof.
  unfold WebTransportProvider.new. cbv zeta. cbn [alloc].
  match goal with |- context [WebTransportProvider.connect now outcome rnd ?x] =>
    set (w0 := x) end.
  assert (H0 : settled w0 /\
               maxReconnectAttempts (mgr w0) = default 10 (opt_maxReconnectAttempts options) /\
               reconnectBaseDelay (mgr w0)
                 = default (inject_Z 1000) (opt_reconnectBaseDelay options) /\
               reconnectMaxDelay (mgr w0)
                 = default (inject_Z 30000) (opt_reconnectMaxDelay options)).
  { subst w0. unfold settled, handlesTogether, retriesBounded. cbn.
    repeat split; auto; try discriminate. lia. }
  clearbody w0. destruct H0 as (Hs & Hmx & Hbd & Hmd).
  destruct (not_false _); [|auto].
  destruct (settled_providerStep now (CallConnect outcome rnd) w0 Hs)
    as (Hs' & Hmx' & Hbd' & Hmd').
  cbn [providerStep] in *. rewrite Hmx', Hbd', Hmd'. auto.
Qed.

End ProviderRuns.

(** ** Every run of a provider *)

Section Reachable.
Context `{External}.

Variable options : Options.
Variable hasWebTransport : bool.
Variable d : DocState.
Variable a : AwarenessState.
Variable now : Z.
Variable outcome : Outcome.
Variable rnd : Q.

(** Whatever happens to a provider after its construction, the manager
    holds the transport, the stream, its writer and its reader together, all
    of one transport, or none of them: [connected] is true exactly when a
    transport is held. *)
Theorem handles_held_together (evs : list (Z * ProviderEvent)) :
  let w :=
    providerRun evs
      (WebTransportProvider.new options hasWebTransport d a now outcome rnd) in
  handlesTogether (mgr w) /\
  ConnectionManager.get_connected w =
    match transport (mgr w) with Some _ => true | None => false end.
Proof.
  cbv zeta.
  destruct (settled_new options hasWebTransport d a now outcome rnd) as (Hs & _).
  destruct (settled_providerRun evs _ Hs) as ((Hj & _) & _).
  split; [exact Hj|].
  unfold ConnectionManager.get_connected.
  destruct Hj as (_ & Hw & _). rewrite Hw.
  destruct (transport _); reflexivity.
Qed.

(** Whatever happens to a provider after its construction, the reconnect
    options stay the ones it was constructed with (defaults 10, 1000 ms,
    30000 ms) and the retry counter never exceeds the allowed number of
    reconnects. *)
Theorem reconnectAttempts_never_exceed_maximum (evs : list (Z * ProviderEvent)) :
  let w :=
    providerRun evs
      (WebTransportProvider.new options hasWebTransport d a now outcome rnd) in
  maxReconnectAttempts (mgr w) = default 10 (opt_maxReconnectAttempts options) /\
  reconnectBaseDelay (mgr w) = default (inject_Z 1000) (opt_reconnectBaseDelay options) /\
  reconnectMaxDelay (mgr w) = default (inject_Z 30000) (opt_reconnectMaxDelay options) /\
  Z.of_nat (reconnectAttempts (mgr w))
    <= Z.max 0 (default 10 (opt_maxReconnectAttempts options)).
Proof.
  cbv zeta.
  destruct (settled_new options hasWebTransport d a now outcome rnd)
    as (Hs & Hmx & Hbd & Hmd).
  destruct (settled_providerRun evs _ Hs) as ((_ & Hb & _) & Hmx' & Hbd' & Hmd').
  unfold retriesBounded in Hb. rewrite Hmx', Hmx in Hb.
  rewrite Hmx', Hbd', Hmd'. auto.
Qed.

(** Once [destroy()] has been called on a provider, nothing that happens
    afterwards opens a transport, arms a reconnect timer or sends anything on
    a stream or as a datagram; no transport is held, and [connect()] throws
    'Provider has been destroyed'. *)
Theorem destroy_is_final (before after : list (Z * ProviderEvent)) (at_ : Z) :
  let w1 :=
    providerRun (before ++ [(at_, CallDestroy)])
      (WebTransportProvider.new options hasWebTransport d a now outcome rnd) in
  let w2 := providerRun after w1 in
  opens w2 = opens w1 /\
  timeoutsArmed w2 = timeoutsArmed w1 /\
  sends w2 = sends w1 /\
  transport (mgr w2) = None /\
  forall now' outcome' rnd',
    fst (WebTransportProvider.connect now' outcome' rnd' w2) = Throw ProviderDestroyed.
Proof.
  cbv zeta.
  destruct (settled_new options hasWebTransport d a now outcome rnd) as (Hs & _).
  destruct (settled_providerRun (before ++ [(at_, CallDestroy)]) _ Hs) as ((_ & _ & Hc) & _).
  set (w1 := providerRun (before ++ [(at_, CallDestroy)]) _) in *.
  assert (Hp : p_destroyed (prov w1) = true).
  { subst w1. unfold providerRun. rewrite fold_left_app. cbn [fold_left fst snd providerStep].
    apply (destroy_settles at_). }
  clearbody w1.
  destruct (inert_providerRun after w1 (Hc Hp)) as ((_ & Ht & _) & Ho & Hta & Hse).
  pose proof (p_destroyed_providerRun after w1 Hp) as Hp'.
  repeat (split; [assumption|]).
  intros now' outcome' rnd'. unfold WebTransportProvider.connect. rewrite Hp'. reflexivity.
Qed.

End Reachable.

(** ** A successful start *)

Section Start.
Context `{External}.

Lemma host_onStatusChange_connecting (now : Z) (w : World) :
  let w1 := ConnectionManager.onStatusChange (WebTransportProvider.handlers now) connecting w in
  host w1 = host w /\
  trace w1 =
    trace w ++ (if callbacks (mgr w)
                then [OnStatusChange connecting; EmitStatus connecting] else []).
Proof.
  unfold ConnectionManager.onStatusChange.
  destruct (callbacks (mgr w)); cbn; [|rewrite app_nil_r; auto].
  rewrite <- app_assoc. auto.
Qed.

Lemma prov_sendSyncMessage (data : bytes) (w : World) :
  prov (ConnectionManager.sendSyncMessage data w) = prov w.
Proof. unfold ConnectionManager.sendSyncMessage. destruct (syncWriter _); reflexivity. Qed.

Lemma prov_start (am : AwarenessMgr) (w : World) :
  prov (snd (AwarenessManager.start am w)) = prov w.
Proof.
  unfold AwarenessManager.start, AwarenessManager.startDatagramBroadcast,
    AwarenessManager.broadcastFullState, AwarenessManager.broadcastStateStream.
  destruct (useDatagrams am); [destruct (intervalId am)|]; cbn [alloc snd fst];
    match goal with |- context [(0 <? ?n)%nat] => destruct (0 <? n)%nat end;
    rewrite ?prov_sendSyncMessage; reflexivity.
Qed.

Lemma connected_with_am (f : AwarenessMgr -> World -> AwarenessMgr * World) (w : World) :
  (forall am w, prov (snd (f am w)) = prov w) ->
  _connected (prov (WebTransportProvider.with_am f w)) = _connected (prov w) /\
  _synced (prov (WebTransportProvider.with_am f w)) = _synced (prov w).
Proof.
  intros Hf. unfold WebTransportProvider.with_am.
  destruct (awarenessManager (prov w)) as [am|]; [|auto].
  specialize (Hf am w). destruct (f am w) as [am' w']. cbn in *. rewrite Hf. auto.
Qed.

Lemma startSync_connected (w : World) :
  _connected (prov (WebTransportProvider.startSync w)) = _connected (prov w).
Proof.
  unfold WebTransportProvider.startSync, AwarenessManager.new. cbv beta iota zeta.
  rewrite (proj1 (connected_with_am _ _ prov_start)).
  rewrite prov_sendSyncMessage. reflexivity.
Qed.

Lemma handleStatusChange_connected (w : World) :
  _connected (prov (WebTransportProvider.handleStatusChange connected w)) = true.
Proof.
  unfold WebTransportProvider.handleStatusChange. cbn [status_eqb andb emit prov].
  destruct (negb (_connected (prov w))); [apply startSync_connected|reflexivity].
Qed.

(** [connect()] on a provider that is not destroyed, in a browser with
    WebTransport and with a transport that opens: it returns normally; after
    reporting connecting, the next three effects are opening the transport,
    opening the bidirectional stream and writing the stream-type byte 0x01 on
    it; the manager holds transport, stream, writer and reader of that
    transport, [connected] is true, the retry counter is 0, the close
    handlers are installed on the transport, one transport more has been
    opened, no timer armed, and the provider is connected. *)
Theorem connect_success (now : Z) (rnd : Q) (w : World) :
  p_destroyed (prov w) = false ->
  destroyed (mgr w) = false ->
  supported (host w) = true ->
  let tid := fresh (host w) in
  let result := WebTransportProvider.connect now Opens rnd w in
  fst result = Return tt /\
  transport (mgr (snd result)) = Some tid /\
  syncStream (mgr (snd result)) = Some tid /\
  syncWriter (mgr (snd result)) = Some tid /\
  syncReader (mgr (snd result)) = Some tid /\
  ConnectionManager.get_connected (snd result) = true /\
  reconnectAttempts (mgr (snd result)) = 0%nat /\
  closedHandlers (host (snd result)) = closedHandlers (host w) ++ [tid] /\
  opens (snd result) = S (opens w) /\
  timeoutsArmed (snd result) = timeoutsArmed w /\
  (callbacks (mgr w) = true -> _connected (prov (snd result)) = true) /\
  exists after,
    trace (snd result) =
      trace w
      ++ (if callbacks (mgr w) then [OnStatusChange connecting; EmitStatus connecting] else [])
      ++ [NewWebTransport tid; CreateBidirectionalStream tid;
          StreamWrite tid [u8 Protocol.STREAM_SYNC]]
      ++ after.
Proof.
  intros Hp Hd Hs. cbv zeta.
  assert (Hq1 : forall s w, quiet w (h_onStatusChange (WebTransportProvider.handlers now) s w))
    by (intros; apply quiet_handleStatusChange).
  destruct (connect_opens (WebTransportProvider.handlers now) Hq1 rnd w Hd Hs)
    as (Hr & Htr & Hst & Hwr & Hrd & Hat & Hch & Ho & Hta & after & Ha).
  destruct (host_onStatusChange_connecting now w) as (Hh & Ht).
  rewrite Hh in *. rewrite Ht in Ha.
  unfold WebTransportProvider.connect. rewrite Hp.
  unfold ConnectionManager.get_connected. rewrite Htr, Hwr.
  repeat (split; [assumption || reflexivity|]).
  split.
  - intros Hcb. clear -Hcb Hd Hs.
    unfold ConnectionManager.connect. rewrite Hd, Hs. cbn [negb alloc snd].
    match goal with |- context [ConnectionManager.onStatusChange ?h connected ?x] =>
      assert (Hc : callbacks (mgr x) = true) end.
    { cbn [mgr with_mgr with_host emit ConnectionManager.openSyncStream callbacks
           set_reconnectAttempts set_transport set_syncStream set_syncWriter set_syncReader].
      destruct (quiet_handleStatusChange connecting (emit (OnStatusChange connecting) w))
        as (Hm & _).
      unfold ConnectionManager.onStatusChange. rewrite Hcb.
      cbn [h_onStatusChange WebTransportProvider.handlers]. rewrite Hm. exact Hcb. }
    unfold ConnectionManager.onStatusChange at 1. rewrite Hc.
    apply handleStatusChange_connected.
  - exists after. rewrite Ha. rewrite <- !app_assoc. reflexivity.
Qed.

End Start.

Lemma connect_success_witness :
  exists after,
    trace (snd (@WebTransportProvider.connect sampleExternal 0 Opens 0%Q sampleProvider)) =
      trace sampleProvider
      ++ [OnStatusChange connecting; EmitStatus connecting]
      ++ [NewWebTransport 2; CreateBidirectionalStream 2; StreamWrite 2 [x01]]
      ++ after.
Proof.
  destruct (@connect_success sampleExternal 0 0%Q sampleProvider
              eq_refl eq_refl eq_refl) as (_ & _ & _ & _ & _ & _ & _ & _ & _ & _ & _ & Ha).
  exact Ha.
Defined.

(** ** What the provider does with a frame *)

Section Frames.
Context `{External}.

Lemma docUpdateEvent_own (update : bytes) (w : World) :
  WebTransportProvider.docUpdateEvent update ThisProvider w = w.
Proof.
  unfold WebTransportProvider.docUpdateEvent.
  generalize (docObservers (host w)). intros observers.
  induction observers as [|o observers IH]; [reflexivity|exact IH].
Qed.

(** An update frame made by [encodeUpdate] is applied to the document
    with the provider as origin and nothing else happens: the update event
    this fires is ignored by the provider's own observers, so the update is
    not sent back. *)
Theorem remote_update_not_echoed (update : bytes) (w : World) :
  WebTransportProvider.handleSyncMessage (Encoding.encodeUpdate update) w =
    emit (YApplyUpdate update ThisProvider)
      (with_host (set_doc (applyUpdate update (doc (host w)))) w).
Proof.
  unfold WebTransportProvider.handleSyncMessage, Encoding.encodeUpdate.
  cbn [List.length Nat.eqb].
  change (byte_at (u8 2 :: update) 0) with 2.
  change (slice_from (u8 2 :: update) 1) with update.
  cbn [Z.eqb Protocol.MSG_SYNC_STEP1 Protocol.MSG_SYNC_STEP2 Protocol.MSG_UPDATE Pos.eqb].
  unfold WebTransportProvider.handleRemoteUpdate.
  apply docUpdateEvent_own.
Qed.

(** A sync step 2 frame is read into the document with the provider as
    origin; synced(true) and sync(true) are emitted exactly when the provider
    was not synced before, the provider is synced afterwards, and nothing is
    sent. *)
Theorem sync_step2_marks_synced (update : bytes) (w : World) :
  let w' := WebTransportProvider.handleSyncMessage (Encoding.encodeSyncStep2 update) w in
  _synced (prov w') = true /\
  doc (host w') = readSyncStep2 update (doc (host w)) /\
  mgr w' = mgr w /\
  trace w' =
    trace w ++ YReadSyncStep2 update ThisProvider
      :: (if _synced (prov w) then [] else [EmitSynced true; EmitSync true]).
Proof.
  unfold WebTransportProvider.handleSyncMessage, Encoding.encodeSyncStep2.
  cbn [List.length Nat.eqb].
  change (byte_at (u8 1 :: update) 0) with 1.
  change (slice_from (u8 1 :: update) 1) with update.
  cbn [Z.eqb Protocol.MSG_SYNC_STEP1 Protocol.MSG_SYNC_STEP2 Protocol.MSG_UPDATE Pos.eqb].
  unfold WebTransportProvider.handleSyncStep2. rewrite docUpdateEvent_own.
  cbn [prov emit with_host].
  destruct (_synced (prov w)) eqn:Hs; cbn; rewrite <- ?app_assoc; auto.
Qed.

(** A frame whose tag is none of 0, 1, 2, 3 only logs a warning. *)
Theorem unknown_message_type (tag : byte) (rest : bytes) (w : World) :
  4 <= byte_to_Z tag ->
  WebTransportProvider.handleSyncMessage (tag :: rest) w =
    emit (WarnUnknownMessageType (byte_to_Z tag)) w.
Proof.
  intros Htag. unfold WebTransportProvider.handleSyncMessage.
  cbn [List.length Nat.eqb].
  change (byte_at (tag :: rest) 0) with (byte_to_Z tag).
  unfold Protocol.MSG_SYNC_STEP1, Protocol.MSG_SYNC_STEP2, Protocol.MSG_UPDATE,
    Protocol.MSG_AWARENESS.
  repeat match goal with
         | |- context [?x =? ?y] => destruct (Z.eqb_spec x y); [lia|]
         end.
  reflexivity.
Qed.


(** A sync step 1 frame received while a writer is held. When
    [syncProtocol.readSyncStep1] throws on the state vector, the handler ends
    by throwing and has done nothing. Otherwise it returns, having written
    on the stream the answer built from the document behind the tag 0x01 (as
    [encodeSyncStep2] puts it) unless that answer has no body, and then,
    while the provider is not synced, its own step 1 behind the tag 0x00;
    each goes out behind the two length bytes [sendSyncMessage] puts before
    it, and nothing else changes. *)
Theorem sync_step1_is_answered (stateVector : bytes) (w : World) (stream : nat) :
  syncWriter (mgr w) = Some stream ->
  let w' := WebTransportProvider.handleSyncMessage (Encoding.encodeSyncStep1 stateVector) w in
  let throws :=
    WebTransportProvider.handleSyncMessage_throws (Encoding.encodeSyncStep1 stateVector) w in
  if readSyncStep1_throws stateVector (doc (host w))
  then throws = true /\ w' = w
  else
    throws = false /\
    mgr w' = mgr w /\ prov w' = prov w /\ host w' = host w /\
    trace w' =
      trace w
      ++ match readSyncStep1 stateVector (doc (host w)) with
         | [] => []
         | answer => [StreamWrite stream (lengthPrefixed (Encoding.encodeSyncStep2 answer))]
         end
      ++ (if _synced (prov w) then []
          else [StreamWrite stream
                  (lengthPrefixed (Encoding.encodeSyncStep1 (writeSyncStep1 (doc (host w)))))]).
Proof.
  intros Hw.
  unfold WebTransportProvider.handleSyncMessage, WebTransportProvider.handleSyncMessage_throws,
    Encoding.encodeSyncStep1.
  cbn [List.length Nat.eqb].
  change (byte_at (u8 0 :: stateVector) 0) with 0.
  change (slice_from (u8 0 :: stateVector) 1) with stateVector.
  cbn [Z.eqb Protocol.MSG_SYNC_STEP1].
  unfold WebTransportProvider.handleSyncStep1.
  destruct (readSyncStep1_throws stateVector (doc (host w))); [split; reflexivity|].
  split; [reflexivity|].
  assert (H1 : Lib0.writeVarUint Protocol.MSG_SYNC_STEP2 = [u8 1]) by reflexivity.
  assert (H0 : Lib0.writeVarUint Protocol.MSG_SYNC_STEP1 = [u8 0]) by reflexivity.
  rewrite H1, H0. cbv zeta.
  unfold ConnectionManager.sendSyncMessage, Encoding.encodeSyncStep2, lengthPrefixed.
  destruct w as [m p h t]. cbn [mgr prov host trace] in *.
  destruct (readSyncStep1 stateVector (doc h)) as [|b answer];
    cbn [List.app List.length Nat.ltb Nat.leb mgr prov host trace emit];
    rewrite Hw; cbn [mgr prov host trace emit];
    destruct (_synced p); cbn [negb mgr prov host trace emit]; rewrite ?Hw;
    cbn [mgr prov host trace emit]; rewrite <- ?app_assoc, ?app_nil_r; auto.
Qed.

End Frames.

Lemma unknown_message_type_witness :
  @WebTransportProvider.handleSyncMessage sampleExternal [x09; x00] sampleConnected =
    emit (WarnUnknownMessageType 9) sampleConnected.
Proof.
  apply (@unknown_message_type sampleExternal x09 [x00] sampleConnected).
  vm_compute. discriminate.
Defined.

Lemma sync_step1_is_answered_witness :
  trace (@WebTransportProvider.handleSyncMessage sampleExternal
           (Encoding.encodeSyncStep1 [x01; x00]) sampleConnected) =
    trace sampleConnected
    ++ [StreamWrite 2 [x00; x05; x01; x01; x02; x00; x00];
        StreamWrite 2 [x00; x04; x00; x00; x01; x00]].
Proof.
  exact (proj2 (proj2 (proj2 (proj2
    (@sync_step1_is_answered sampleExternal [x01; x00] sampleConnected 2%nat eq_refl))))).
Defined.

(** ** Starting the sync *)

Section StartSync.
Context `{External}.

(** When the manager reports connected to a provider that was not
    connected, the provider makes a new awareness manager (clock 0, no remote
    clock recorded), sends its sync step 1 first, then arms the datagram
    interval unless datagrams are switched off, then sends the full awareness
    state on the stream when a client is known, and emits status connected.
    The intervals armed before stay armed. *)
Theorem connected_starts_sync (w : World) (stream : nat) :
  _connected (prov w) = false ->
  syncWriter (mgr w) = Some stream ->
  let w' := WebTransportProvider.handleStatusChange connected w in
  let datagrams := not_false (useUnreliableAwareness (prov w)) in
  let timer := fresh (host w) in
  let clients := knownClients (awareness (host w)) in
  awarenessManager (prov w') =
    Some {| useDatagrams := datagrams;
            broadcastInterval := default 50 (awarenessUpdateInterval (prov w));
            intervalId := if datagrams then Some timer else None;
            localClock := 0; remoteClocks := ∅ |} /\
  _connected (prov w') = true /\
  _synced (prov w') = _synced (prov w) /\
  mgr w' = mgr w /\
  intervals (host w') = intervals (host w) ++ (if datagrams then [timer] else []) /\
  trace w' =
    trace w
    ++ [AwarenessOnUpdate;
        StreamWrite stream
          (lengthPrefixed (Encoding.encodeSyncStep1 (writeSyncStep1 (doc (host w)))))]
    ++ (if datagrams
        then [SetInterval timer (default 50 (awarenessUpdateInterval (prov w)))] else [])
    ++ match clients with
       | [] => []
       | _ => [StreamWrite stream
                 (lengthPrefixed
                    (Encoding.encodeAwarenessMessage
                       (encodeAwarenessUpdate (awareness (host w)) clients)))]
       end
    ++ [EmitStatus connected].
Proof.
  intros Hc Hw. cbv zeta.
  unfold WebTransportProvider.handleStatusChange. rewrite Hc.
  cbn [status_eqb negb andb].
  unfold WebTransportProvider.startSync, AwarenessManager.new. cbv beta iota zeta.
  assert (H0 : Lib0.writeVarUint Protocol.MSG_SYNC_STEP1 = [u8 0]) by reflexivity.
  rewrite H0.
  unfold WebTransportProvider.with_am, AwarenessManager.start,
    AwarenessManager.startDatagramBroadcast, AwarenessManager.broadcastFullState,
    AwarenessManager.broadcastStateStream, ConnectionManager.sendSyncMessage,
    Encoding.encodeSyncStep1, Encoding.encodeAwarenessMessage, lengthPrefixed.
  destruct w as [m [sy co de am us iv] h t]. cbn [mgr prov host trace] in *.
  cbn [mgr prov host trace emit with_prov with_host set_connected set_awarenessManager
       awarenessManager useUnreliableAwareness awarenessUpdateInterval _connected _synced].
  rewrite Hw.
  cbn [mgr prov host trace emit with_prov with_host set_connected set_awarenessManager
       awarenessManager useUnreliableAwareness awarenessUpdateInterval _connected _synced
       useDatagrams intervalId default from_option id].
  destruct (not_false us);
    cbn [mgr prov host trace emit with_prov with_host set_connected set_awarenessManager
         awarenessManager alloc fst snd set_fresh set_intervals set_intervalId intervals
         fresh awareness doc useDatagrams broadcastInterval intervalId localClock
         remoteClocks _connected _synced];
    destruct (knownClients (awareness h)) as [|c clients];
    cbn [List.length Nat.ltb Nat.leb mgr prov host trace emit with_prov with_host
         set_awarenessManager awarenessManager intervals _connected _synced];
    rewrite ?Hw;
    cbn [mgr prov host trace emit with_prov with_host
         set_awarenessManager awarenessManager intervals _connected _synced];
    rewrite <- ?app_assoc, ?app_nil_r; cbn [List.app]; auto 10.
Qed.

End StartSync.

Lemma connected_starts_sync_witness :
  intervals (host (@WebTransportProvider.handleStatusChange sampleExternal connected
                     (with_mgr (set_syncWriter (Some 2%nat)) sampleProvider))) = [2%nat].
Proof.
  exact (proj1 (proj2 (proj2 (proj2 (proj2
    (@connected_starts_sync sampleExternal
       (with_mgr (set_syncWriter (Some 2%nat)) sampleProvider) 2%nat eq_refl eq_refl)))))).
Defined.
